(** * Anúncios WhatsApp: rate guard, dispatcher, session lifecycle, scheduler

    A shallow embedding of the control path of the repository
    (src/services/antiSpamService.js, src/services/whatsappService.js and its
    sibling revisions, the SchedulerService and the parts of
    src/services/databaseService.js they call), followed by the properties
    of the specification stated and settled on it.

    Conventions.
    - A JavaScript [Map] is a [gmap], a [Set] a [gset], an array a [list].
    - Instants are milliseconds since the Unix epoch, in [Z]; one call of a
      service method reads the clock once ([now]).
    - A method that can raise returns a [Completion]; the state it leaves
      behind is returned next to it, also when it raised. *)

From stdpp Require Import gmap strings list fin_maps.
From Stdlib Require Import ZArith Lia.

Local Open Scope Z_scope.

(** ** JavaScript completions *)

Inductive Completion (A : Type) : Type :=
| Returned (a : A)
| Thrown (msg : string).
Arguments Returned {A} a.
Arguments Thrown {A} msg.

Definition msPerMinute : Z := 60000.
Definition msPerHour : Z := 3600000.
Definition msPerDay : Z := 86400000.

(** ** DatabaseService (the part the services read and write) *)

Module Database.

(** [settings.antiSpam] of databaseService.js. *)
Record AntiSpamSettings := {
  enabled : bool;
  maxMessagesPerHour : Z;
  cooldownMinutes : Z
}.

(** The value held by [this.stats[userId].antiSpam].  [updateUserStats]
    computes [(this.stats[userId][type] || 0) + value]; called by
    antiSpamService.js with an object for [value], the sum is a string
    concatenation, so the slot holds a string from the first update on. *)
Inductive StatsSlot := SlotUndefined | SlotObject | SlotString.

Record AdStats := {
  sent : Z;
  failed : Z;
  lastSent : option Z
}.

Record Ad := {
  id : string;
  userId : string;
  groups : list string;
  active : bool;
  scheduleDate : option (Z * Z * Z);   (* YYYY-MM-DD, [None] when falsy *)
  scheduleTime : option (Z * Z);       (* HH:mm, [None] when falsy *)
  repeat : string;
  imagePath : option string;
  stats : option AdStats
}.

Record Db := {
  antiSpam : option AntiSpamSettings;
  userStats : gmap string StatsSlot;
  ads : list Ad
}.

(** databaseService.js, getAntiSpamSettings *)
Definition getAntiSpamSettings (db : Db) : AntiSpamSettings :=
  match antiSpam db with
  | Some s => s
  | None => {| enabled := true; maxMessagesPerHour := 10; cooldownMinutes := 60 |}
  end.

(** databaseService.js, getAd: [this.ads.find(ad => ad.id === id)] *)
Definition getAd (db : Db) (adId : string) : option Ad :=
  List.find (fun a => bool_decide (id a = adId)) (ads db).

Definition withStats (a : Ad) (s : AdStats) : Ad :=
  {| id := id a; userId := userId a; groups := groups a; active := active a;
     scheduleDate := scheduleDate a; scheduleTime := scheduleTime a;
     repeat := repeat a; imagePath := imagePath a; stats := Some s |}.

(** [this.ads[index] = ...] at the first index whose id matches. *)
Fixpoint replaceFirst (adId : string) (f : Ad -> Ad) (l : list Ad) : list Ad :=
  match l with
  | [] => []
  | a :: r => if bool_decide (id a = adId) then f a :: r
              else a :: replaceFirst adId f r
  end.

(** The object spread [{ ...ad.stats, ...stats }] of updateAdStats, for the
    two shapes of [stats] executeAd passes: with and without [sent].  A
    stored record without statistics reads as [sent = 0], as
    [ad.stats?.sent || 0] does. *)
Definition mergeStats (old : option AdStats) (newSent : option Z)
           (newFailed : Z) (newLast : Z) : AdStats :=
  {| sent := match newSent with
             | Some s => s
             | None => match old with Some o => sent o | None => 0 end
             end;
     failed := newFailed;
     lastSent := Some newLast |}.

(** databaseService.js, updateAdStats (the per-user aggregate counters it
    also bumps are not part of this model). *)
Definition updateAdStats (db : Db) (adId : string) (newSent : option Z)
           (newFailed : Z) (newLast : Z) : Db :=
  match getAd db adId with
  | Some _ =>
      {| antiSpam := antiSpam db; userStats := userStats db;
         ads := replaceFirst adId
                  (fun a => withStats a (mergeStats (stats a) newSent newFailed newLast))
                  (ads db) |}
  | None => db
  end.

Definition withUserStats (db : Db) (m : gmap string StatsSlot) : Db :=
  {| antiSpam := antiSpam db; userStats := m; ads := ads db |}.

(** databaseService.js, getScheduledAds *)
Definition getScheduledAds (db : Db) : list Ad :=
  List.filter (fun ad => active ad && bool_decide (scheduleDate ad <> None)
                         && bool_decide (scheduleTime ad <> None)) (ads db).

(** databaseService.js, getUserAds *)
Definition getUserAds (db : Db) (user : string) : list Ad :=
  List.filter (fun ad => bool_decide (userId ad = user)) (ads db).

Definition withAds (db : Db) (l : list Ad) : Db :=
  {| antiSpam := antiSpam db; userStats := userStats db; ads := l |}.

(** databaseService.js, createAd: [this.ads.push(ad)].  (The [adsCreated]
    counter it bumps is one of the per-user aggregates left out.) *)
Definition createAd (db : Db) (ad : Ad) : Db := withAds db (ads db ++ [ad]).

(** databaseService.js, updateAd, called with a complete record:
    [{ ...this.ads[index], ...adData }] is then [adData]. *)
Definition updateAd (db : Db) (adId : string) (adData : Ad) : option Ad * Db :=
  match getAd db adId with
  | Some _ => (Some adData, withAds db (replaceFirst adId (fun _ => adData) (ads db)))
  | None => (None, db)
  end.

(** [this.ads.splice(index, 1)] at the first index whose id matches. *)
Fixpoint removeFirst (adId : string) (l : list Ad) : list Ad :=
  match l with
  | [] => []
  | a :: r => if bool_decide (id a = adId) then r else a :: removeFirst adId r
  end.

(** databaseService.js, deleteAd *)
Definition deleteAd (db : Db) (adId : string) : option Ad * Db :=
  match getAd db adId with
  | Some a => (Some a, withAds db (removeFirst adId (ads db)))
  | None => (None, db)
  end.

End Database.

(** ** Instants as text: [toISOString()], and the order of strings *)

Module JsDate.

(** The decimal digit of the units of [n]. *)
Definition digit (n : Z) : Ascii.ascii := Ascii.ascii_of_N (48 + Z.to_N (n `mod` 10)).

Definition digits2 (n : Z) : string :=
  String (digit (n / 10)) (String (digit n) EmptyString).

Definition digits3 (n : Z) : string := String (digit (n / 100)) (digits2 n).

Definition digits4 (n : Z) : string := String (digit (n / 1000)) (digits3 n).

Definition digits6 (n : Z) : string :=
  String (digit (n / 100000)) (String (digit (n / 10000)) (digits4 n)).

(** Year, month and day of the day that is [days] days after 1970-01-01,
    in the proleptic Gregorian calendar. *)
Definition civil (days : Z) : Z * Z * Z :=
  let z := days + 719468 in
  let era := z / 146097 in
  let doe := z - era * 146097 in
  let yoe := (doe - doe / 1460 + doe / 36524 - doe / 146096) / 365 in
  let doy := doe - (365 * yoe + yoe / 4 - yoe / 100) in
  let mp := (5 * doy + 2) / 153 in
  let d := doy - (153 * mp + 2) / 5 + 1 in
  let m := if mp <? 10 then mp + 3 else mp - 9 in
  (yoe + era * 400 + (if m <=? 2 then 1 else 0), m, d).

(** Four digits for the years 0 to 9999, a sign and six digits otherwise. *)
Definition yearText (y : Z) : string :=
  if (0 <=? y) && (y <=? 9999) then digits4 y
  else (if y <? 0 then "-" else "+") +:+ digits6 (Z.abs y).

(** [toISOString()] of an instant: [YYYY-MM-DDTHH:mm:ss.sssZ], in UTC. *)
Definition toISOString (ms : Z) : string :=
  let r := ms `mod` msPerDay in
  let '(y, m, d) := civil (ms / msPerDay) in
  yearText y +:+ "-" +:+ digits2 m +:+ "-" +:+ digits2 d
  +:+ "T" +:+ digits2 (r / msPerHour) +:+ ":" +:+ digits2 ((r / msPerMinute) `mod` 60)
  +:+ ":" +:+ digits2 ((r / 1000) `mod` 60) +:+ "." +:+ digits3 (r `mod` 1000) +:+ "Z".

(** [s.split('-').slice(1).join('-')]: the text after the first hyphen,
    and the empty text when there is none. *)
Fixpoint afterFirstHyphen (s : string) : string :=
  match s with
  | EmptyString => EmptyString
  | String c r => if Ascii.eqb c (Ascii.ascii_of_N 45) then r else afterFirstHyphen r
  end.

(** [a < b] on strings: the order of the code units, which for the texts
    of this model (identifiers and instants in ASCII) is the order of the
    bytes. *)
Definition lessThan (a b : string) : bool := String.ltb a b.

End JsDate.

(** ** AntiSpamService (src/services/antiSpamService.js) *)

Module AntiSpam.
Import Database.

Record Activity := {
  count : Z;
  groups : gset string;
  firstMessage : Z;
  successful : option Z;   (* [None]: the field is absent, [++] leaves NaN *)
  failed : option Z
}.

Record BlockInfo := {
  blockedAt : Z;
  unblockTime : Z;
  reason : string
}.

(** [this.userActivity] is keyed by the string [`${userId}-${currentHour}`];
    the hour is a fixed-width ISO instant, so the key determines the pair
    (user, start of hour) and the model keys the map by that pair. *)
Record Service := {
  userActivity : gmap (string * Z) Activity;
  blockedUsers : gmap string BlockInfo
}.

(** The state left by the constructor. *)
Definition fresh : Service := {| userActivity := ∅; blockedUsers := ∅ |}.

Inductive TimeLeft := NA | Agora | Minutos (n : Z) | HorasMin (h m : Z).

Inductive Admission :=
| Allowed
| DeniedBlocked (unblockAt : Z) (left : TimeLeft)
| DeniedRateLimit (limit cooldown : Z)
| DeniedDuplicateGroup.

Inductive Validation :=
| Valid
| InvalidUserBlocked (left : TimeLeft)
| InvalidRateLimit (maxGroups : Z)
| InvalidDuplicateGroups (duplicateGroups : list string).

Section WithZone.
(** Offset of the process's local zone from UTC, in milliseconds:
    [moment().startOf('hour')] truncates in local time. *)
Variable utcOffset : Z.

Definition startOfHour (now : Z) : Z :=
  now - (now + utcOffset) `mod` msPerHour.

(** updateAntiSpamStats.  With a string in the slot,
    [stats.antiSpam.dailyActivity] is undefined and indexing it raises;
    otherwise the counters are bumped on an object that
    [db.updateUserStats(userId, 'antiSpam', obj)] then overwrites with
    the concatenation. *)
Definition updateAntiSpamStats (userId : string) (db : Db) : Completion unit * Db :=
  match userStats db !! userId with
  | Some SlotString => (Thrown "TypeError", db)
  | _ => (Returned tt, withUserStats db (<[userId := SlotString]> (userStats db)))
  end.

(** isUserBlocked *)
Definition isUserBlocked (now : Z) (userId : string) (s : Service) : bool * Service :=
  match blockedUsers s !! userId with
  | None => (false, s)
  | Some blockInfo =>
      if unblockTime blockInfo <? now
      then (false, {| userActivity := userActivity s;
                      blockedUsers := delete userId (blockedUsers s) |})
      else (true, s)
  end.

(** The text getTimeUntilUnblock builds from the minutes left. *)
Definition formatTimeLeft (timeLeft : Z) : TimeLeft :=
  if timeLeft <=? 0 then Agora
  else if timeLeft <? 60 then Minutos timeLeft
  else HorasMin (timeLeft / 60) (timeLeft `mod` 60).

(** getTimeUntilUnblock; [diff(.., 'minutes')] truncates toward zero. *)
Definition getTimeUntilUnblock (now : Z) (userId : string) (s : Service) : TimeLeft :=
  match blockedUsers s !! userId with
  | None => NA
  | Some blockInfo =>
      formatTimeLeft (Z.quot (unblockTime blockInfo - now) msPerMinute)
  end.

(** blockUser: the record is stored before the statistics are touched. *)
Definition blockUser (now : Z) (userId : string) (minutes : Z)
           (db : Db) (s : Service) : Completion unit * Db * Service :=
  let s' := {| userActivity := userActivity s;
               blockedUsers :=
                 <[userId := {| blockedAt := now;
                                unblockTime := now + minutes * msPerMinute;
                                reason := "rate_limit" |}]> (blockedUsers s) |} in
  let '(c, db') := updateAntiSpamStats userId db in
  (c, db', s').

(** unblockUser *)
Definition unblockUser (userId : string) (s : Service) : bool * Service :=
  match blockedUsers s !! userId with
  | Some _ => (true, {| userActivity := userActivity s;
                        blockedUsers := delete userId (blockedUsers s) |})
  | None => (false, s)
  end.

Definition ensureBucket (key : string * Z) (init : Activity) (s : Service) : Service :=
  match userActivity s !! key with
  | Some _ => s
  | None => {| userActivity := <[key := init]> (userActivity s);
               blockedUsers := blockedUsers s |}
  end.

(** canSendMessage *)
Definition canSendMessage (now : Z) (userId groupId : string)
           (db : Db) (s : Service) : Completion Admission * Db * Service :=
  let settings := getAntiSpamSettings db in
  if negb (enabled settings) then (Returned Allowed, db, s)
  else
    let '(isBlocked, s1) := isUserBlocked now userId s in
    if isBlocked then
      match blockedUsers s1 !! userId with
      | Some blockInfo =>
          (Returned (DeniedBlocked (unblockTime blockInfo)
                                   (getTimeUntilUnblock now userId s1)), db, s1)
      | None => (Thrown "TypeError", db, s1)
      end
    else
      let userKey := (userId, startOfHour now) in
      let s2 := ensureBucket userKey
                  {| count := 0; groups := ∅; firstMessage := now;
                     successful := None; failed := None |} s1 in
      match userActivity s2 !! userKey with
      | None => (Thrown "TypeError", db, s2)
      | Some activity =>
          if maxMessagesPerHour settings <=? count activity then
            let '(c, db3, s3) := blockUser now userId (cooldownMinutes settings) db s2 in
            match c with
            | Thrown e => (Thrown e, db3, s3)
            | Returned _ =>
                (Returned (DeniedRateLimit (maxMessagesPerHour settings)
                                           (cooldownMinutes settings)), db3, s3)
            end
          else if bool_decide (groupId ∈ groups activity) && (0 <? count activity)
                  && (Z.quot (now - firstMessage activity) msPerMinute <? 5)
          then (Returned DeniedDuplicateGroup, db, s2)
          else (Returned Allowed, db, s2)
      end.

Definition bump (o : option Z) : option Z := (fun n => n + 1) <$> o.

(** recordMessageSent: the window is updated before the statistics. *)
Definition recordMessageSent (now : Z) (userId groupId : string) (success : bool)
           (db : Db) (s : Service) : Completion unit * Db * Service :=
  let userKey := (userId, startOfHour now) in
  let s1 := ensureBucket userKey
              {| count := 0; groups := ∅; firstMessage := now;
                 successful := Some 0; failed := Some 0 |} s in
  match userActivity s1 !! userKey with
  | None => (Thrown "TypeError", db, s1)
  | Some activity =>
      let activity' :=
        {| count := count activity + 1;
           groups := groups activity ∪ {[groupId]};
           firstMessage := firstMessage activity;
           successful := if success then bump (successful activity)
                         else successful activity;
           failed := if success then failed activity
                     else bump (failed activity) |} in
      let s2 := {| userActivity := <[userKey := activity']> (userActivity s1);
                   blockedUsers := blockedUsers s1 |} in
      let '(c, db') := updateAntiSpamStats userId db in
      (c, db', s2)
  end.

(** getUserActivity *)
Definition getUserActivity (now : Z) (userId : string) (s : Service) : Activity :=
  match userActivity s !! (userId, startOfHour now) with
  | Some a => a
  | None => {| count := 0; groups := ∅; firstMessage := 0;
               successful := Some 0; failed := Some 0 |}
  end.

(** validateBroadcast *)
Definition validateBroadcast (now : Z) (userId : string) (targets : list string)
           (db : Db) (s : Service) : Validation * Service :=
  let settings := getAntiSpamSettings db in
  if negb (enabled settings) then (Valid, s)
  else
    let '(isBlocked, s1) := isUserBlocked now userId s in
    if isBlocked then (InvalidUserBlocked (getTimeUntilUnblock now userId s1), s1)
    else
      let activity := getUserActivity now userId s1 in
      let remainingMessages := maxMessagesPerHour settings - count activity in
      if remainingMessages <? Z.of_nat (length targets)
      then (InvalidRateLimit remainingMessages, s1)
      else
        let duplicateGroups :=
          List.filter (fun g => bool_decide (g ∈ groups activity)) targets in
        if (0 <? Z.of_nat (length duplicateGroups))
        then (InvalidDuplicateGroups duplicateGroups, s1)
        else (Valid, s1).

(** [count] of the window stored under a key; 0 when there is none. *)
Definition bucketCount (s : Service) (key : string * Z) : Z :=
  match userActivity s !! key with
  | Some a => count a
  | None => 0
  end.

(** [hourKey] of cleanupOldData for the window stored under a key: the
    key is the text [`${userId}-${currentHour}`], and what follows its
    first hyphen is taken for the hour.  That is the hour when the user id
    has no hyphen; with a hyphen in the id (the ids server.js gives are
    uuids) it is the rest of the id followed by the hour. *)
Definition hourKey (key : string * Z) : string :=
  JsDate.afterFirstHyphen (key.1 +:+ "-" +:+ JsDate.toISOString key.2).

(** The test of cleanupOldData on one window: [hourKey < cutoffTime], a
    comparison of strings. *)
Definition removes (now : Z) (key : string * Z) : bool :=
  JsDate.lessThan (hourKey key)
                  (JsDate.toISOString (startOfHour (now - 2 * msPerHour))).

(** cleanupOldData, which the interval timer of [initialize] runs every
    hour. *)
Definition cleanupOldData (now : Z) (s : Service) : Service :=
  {| userActivity := filter (fun kv => removes now kv.1 = false) (userActivity s);
     blockedUsers := filter (fun kv => (unblockTime kv.2 <? now) = false) (blockedUsers s) |}.

(** *** The calls the service receives

    A caller asks [canSendMessage] before a send and records the send
    with [recordMessageSent] once it is made; a send takes time, so other
    calls can come in between.  The service's own timer runs
    [cleanupOldData]. *)
Inductive Event :=
| Check (t : Z) (userId groupId : string)
| Record (t : Z) (userId groupId : string) (success : bool)
| Cleanup (t : Z).

Definition timeOf (e : Event) : Z :=
  match e with
  | Check t _ _ | Record t _ _ _ | Cleanup t => t
  end.

(** The state of a run: database and service, the instant and tenant of
    every recorded send, and the sends a check has admitted that are not
    recorded yet. *)
Record RunState := {
  rDb : Db;
  rSvc : Service;
  rLog : list (Z * string);
  rAdmitted : list (string * string)
}.

Fixpoint takeOut (k : string * string) (l : list (string * string))
  : list (string * string) :=
  match l with
  | [] => []
  | x :: r => if bool_decide (x = k) then r else x :: takeOut k r
  end.

Definition step (σ : RunState) (e : Event) : RunState :=
  match e with
  | Check t u g =>
      let '(c, db1, s1) := canSendMessage t u g (rDb σ) (rSvc σ) in
      {| rDb := db1; rSvc := s1; rLog := rLog σ;
         rAdmitted := match c with
                      | Returned Allowed => (u, g) :: rAdmitted σ
                      | _ => rAdmitted σ
                      end |}
  | Record t u g ok =>
      let '(_, db1, s1) := recordMessageSent t u g ok (rDb σ) (rSvc σ) in
      {| rDb := db1; rSvc := s1; rLog := rLog σ ++ [(t, u)];
         rAdmitted := takeOut (u, g) (rAdmitted σ) |}
  | Cleanup t =>
      {| rDb := rDb σ; rSvc := cleanupOldData t (rSvc σ); rLog := rLog σ;
         rAdmitted := rAdmitted σ |}
  end.

Definition run (σ : RunState) (es : list Event) : RunState := fold_left step es σ.

(** The run of a service just constructed. *)
Definition start (db : Db) : RunState :=
  {| rDb := db; rSvc := fresh; rLog := []; rAdmitted := [] |}.

(** Every recorded send of tenant [u] was admitted: when it is recorded,
    a check for the tenant and the group has answered allowed and that
    answer has not been used for another record. *)
Fixpoint honoursGuard (u : string) (σ : RunState) (es : list Event) : bool :=
  match es with
  | [] => true
  | e :: r =>
      match e with
      | Record _ v g _ => negb (bool_decide (v = u)) || bool_decide ((v, g) ∈ rAdmitted σ)
      | _ => true
      end && honoursGuard u (step σ e) r
  end.

(** The sends of tenant [u] are made one at a time: no check is asked for
    the tenant while a send of theirs is admitted and not recorded yet.
    (Other tenants may have sends under way at the same time.) *)
Fixpoint oneAtATime (u : string) (σ : RunState) (es : list Event) : bool :=
  match es with
  | [] => true
  | e :: r =>
      match e with
      | Check _ v _ => negb (bool_decide (v = u)) || bool_decide (u ∉ (rAdmitted σ).*1)
      | _ => true
      end && oneAtATime u (step σ e) r
  end.

(** The clock does not go back from one call to the next. *)
Fixpoint clockAdvances (last : Z) (es : list Event) : bool :=
  match es with
  | [] => true
  | e :: r => (last <=? timeOf e) && clockAdvances (timeOf e) r
  end.

(** No run of cleanupOldData removes the window stored under [key]. *)
Definition spares (key : string * Z) (es : list Event) : bool :=
  forallb (fun e => match e with
                    | Cleanup t => negb (removes t key)
                    | _ => true
                    end) es.

(** Recorded attempts of [u] in the rolling window [[w, w + 60min)]. *)
Definition recordedInWindow (u : string) (w : Z) (log : list (Z * string)) : Z :=
  Z.of_nat (length (List.filter
    (fun e => bool_decide (e.2 = u) && (w <=? e.1) && (e.1 <? w + msPerHour)) log)).

(** Recorded attempts of [u] in the clock hour starting at [h]. *)
Definition recordedInHour (u : string) (h : Z) (log : list (Z * string)) : Z :=
  Z.of_nat (length (List.filter
    (fun e => bool_decide (e.2 = u) && (startOfHour e.1 =? h)) log)).

End WithZone.

(** emergencyUnblockAll *)
Definition emergencyUnblockAll (s : Service) : Z * Service :=
  (Z.of_nat (size (blockedUsers s)),
   {| userActivity := userActivity s; blockedUsers := ∅ |}).

(** The minutes a [TimeLeft] text stands for. *)
Definition minutesShown (t : TimeLeft) : Z :=
  match t with
  | NA | Agora => 0
  | Minutos n => n
  | HorasMin h m => h * 60 + m
  end.

End AntiSpam.


(** ** The platform, as the dispatcher sees it *)

(** An entry of [this.connections] of the WhatsAppService. *)
Record Sock := {
  sockId : nat;
  readyState : Z      (* sock.ws.readyState; 1 is OPEN *)
}.

Record Conn := {
  sock : option Sock;
  connected : bool
}.

(** What the process cannot decide: the file system, the image library,
    the chat platform, and what the handlers of the tenant's socket do to
    the connection table while a dispatch is waiting.  Attempts of one
    dispatch are numbered from 0 in the order of the loop. *)
Record Platform := {
  pathExists : string -> bool;              (* fs.pathExists(ad.image) *)
  renderRaises : nat -> option string;      (* sharp(..).toBuffer() raises *)
  readFileRaises : nat -> option string;    (* fs.readFile(imagePath) raises *)
  sendRejects : nat -> string -> option string;  (* sock.sendMessage rejects *)
  connectionAt : nat -> option (option Conn)
    (* [this.connections.get(userId)] as attempt [i] reads it, when it is
       no longer what the dispatch began with: [Some None] when the entry
       is gone, [Some (Some c)] when it has become [c] *)
}.

Inductive Effect :=
| CallSendAd (groupId : string)
| SendMessage (groupId : string)
| Sleep (ms : Z)
| Emit (room event : string)
| MakeSocket (userId : string) (sockId : nat)
| Logout (userId : string) (sockId : nat)
| RemoveAuthDir (userId : string)
| SetTimeout (userId : string) (delay : Z).

Record SendResult := {
  success : bool;
  error : option string
}.

Record Results := {
  total : Z;
  sent : Z;
  failed : Z;
  errors : list (string * option string)
}.

Definition notConnected : string := "WhatsApp não conectado".

(** The groups [sendAd] was called for, in order, and the groups
    [sock.sendMessage] was called for. *)
Fixpoint attempted (tr : list Effect) : list string :=
  match tr with
  | [] => []
  | CallSendAd g :: r => g :: attempted r
  | _ :: r => attempted r
  end.

Fixpoint transmitted (tr : list Effect) : list string :=
  match tr with
  | [] => []
  | SendMessage g :: r => g :: transmitted r
  | _ :: r => transmitted r
  end.

(** ** WhatsAppService (src/services/whatsappService.js) *)

Module WhatsApp.

Record Service := {
  connections : gmap string Conn;
  qrCodes : gmap string string;
  timers : list string;          (* pending [setTimeout(() => connectUser(userId))] *)
  authDirs : gset string;        (* tenants with stored credentials *)
  nextSock : nat;
  reconnectDelay : Z             (* config.whatsapp.reconnectDelay *)
}.

Definition withConnections (s : Service) (c : gmap string Conn) : Service :=
  {| connections := c; qrCodes := qrCodes s; timers := timers s;
     authDirs := authDirs s; nextSock := nextSock s;
     reconnectDelay := reconnectDelay s |}.

(** Baileys' [DisconnectReason.loggedOut] and [DisconnectReason.forbidden]. *)
Definition loggedOut : Z := 401.
Definition forbidden : Z := 403.

(** isUserConnected: [conn?.connected && conn.sock?.ws?.readyState === 1] *)
Definition isUserConnected (s : Service) (userId : string) : bool :=
  match connections s !! userId with
  | None => false
  | Some conn =>
      connected conn &&
      match sock conn with
      | Some k => readyState k =? 1
      | None => false
      end
  end.

(** The connection table as attempt [i] of a dispatch finds it.  The first
    attempt reads the table in the same turn of the event loop as the test
    of broadcastAd.  Before every later attempt the dispatch has awaited
    the send and the pacing delay of the one before, and the handlers of
    the tenant's socket may have run in between. *)
Definition tableAt (p : Platform) (s : Service) (userId : string) (i : nat) : Service :=
  match i with
  | O => s
  | S _ =>
      match connectionAt p i with
      | None => s
      | Some None => withConnections s (delete userId (connections s))
      | Some (Some c) => withConnections s (<[userId := c]> (connections s))
      end
  end.

(** sendAd, on the table as it is when the call is made: the connection
    test and the image rendering are outside the [try]; only
    [sock.sendMessage] is inside it. *)
Definition sendAd (p : Platform) (s : Service) (userId : string) (ad : Database.Ad)
           (i : nat) (groupId : string) : Completion SendResult * list Effect :=
  match connections s !! userId with
  | None => (Thrown notConnected, [CallSendAd groupId])
  | Some _ =>
      if negb (isUserConnected s userId) then (Thrown notConnected, [CallSendAd groupId])
      else
        let rendered :=
          match Database.imagePath ad with
          | Some img => if pathExists p img then renderRaises p i else None
          | None => None
          end in
        match rendered with
        | Some e => (Thrown e, [CallSendAd groupId])
        | None =>
            match sendRejects p i groupId with
            | None => (Returned {| success := true; error := None |},
                       [CallSendAd groupId; SendMessage groupId])
            | Some e => (Returned {| success := false; error := Some e |},
                         [CallSendAd groupId; SendMessage groupId])
            end
        end
  end.

(** The [for ... of ad.groups] loop of broadcastAd; [s] is the table the
    dispatch began with, and every [sendAd] reads the table anew. *)
Fixpoint broadcastLoop (p : Platform) (s : Service) (userId : string) (ad : Database.Ad)
         (i : nat) (gs : list string) (results : Results)
  : Completion Results * list Effect :=
  match gs with
  | [] => (Returned results, [])
  | groupId :: rest =>
      match sendAd p (tableAt p s userId i) userId ad i groupId with
      | (Thrown e, tr) => (Thrown e, tr)
      | (Returned res, tr) =>
          let results' :=
            if success res
            then {| total := total results; sent := sent results + 1;
                    failed := failed results; errors := errors results |}
            else {| total := total results; sent := sent results;
                    failed := failed results + 1;
                    errors := errors results ++ [(groupId, error res)] |} in
          let '(c, tr') := broadcastLoop p s userId ad (S i) rest results' in
          (c, tr ++ Sleep 2000 :: tr')
      end
  end.

(** broadcastAd *)
Definition broadcastAd (p : Platform) (s : Service) (userId : string) (ad : Database.Ad)
  : Completion Results * list Effect :=
  if negb (isUserConnected s userId) then (Thrown notConnected, [])
  else
    let results := {| total := Z.of_nat (length (Database.groups ad));
                      sent := 0; failed := 0; errors := [] |} in
    match broadcastLoop p s userId ad 0 (Database.groups ad) results with
    | (Thrown e, tr) => (Thrown e, tr)
    | (Returned r, tr) => (Returned r, tr ++ [Emit userId "ad-broadcast-result"])
    end.

(** *** Session lifecycle: connectUser, its event handlers, disconnectUser *)

(** connectUser, up to the point where it waits for the pairing code. *)
Definition connectUser (s : Service) (userId : string)
  : option string * Service * list Effect :=
  let alreadyUp :=
    match connections s !! userId with
    | Some conn => match sock conn with Some _ => connected conn | None => false end
    | None => false
    end in
  if alreadyUp then (None, s, [])
  else
    let k := {| sockId := nextSock s; readyState := 0 |} in
    ((qrCodes s !! userId),
     {| connections := <[userId := {| sock := Some k; connected := false |}]> (connections s);
        qrCodes := qrCodes s; timers := timers s;
        authDirs := authDirs s ∪ {[userId]};
        nextSock := S (nextSock s);
        reconnectDelay := reconnectDelay s |},
     [MakeSocket userId (nextSock s)]).

(** The ['connection.update'] handler, for the first update of a socket
    that carries a pairing code. *)
Definition onQr (s : Service) (userId qr : string) : Service * list Effect :=
  ({| connections := connections s; qrCodes := <[userId := qr]> (qrCodes s);
      timers := timers s; authDirs := authDirs s; nextSock := nextSock s;
      reconnectDelay := reconnectDelay s |},
   [Emit userId "qr-code"]).

(** The handler for [connection === 'open'], of socket [sid]. *)
Definition onOpen (s : Service) (userId : string) (sid : nat) : Service * list Effect :=
  ({| connections :=
        <[userId := {| sock := Some {| sockId := sid; readyState := 1 |};
                       connected := true |}]> (connections s);
      qrCodes := delete userId (qrCodes s);
      timers := timers s; authDirs := authDirs s; nextSock := nextSock s;
      reconnectDelay := reconnectDelay s |},
   [Emit userId "whatsapp-connected"]).

(** The handler for [connection === 'close']. *)
Definition onClose (s : Service) (userId : string) (statusCode : option Z)
  : Service * list Effect :=
  let shouldReconnect :=
    negb (bool_decide (statusCode = Some loggedOut)) &&
    negb (bool_decide (statusCode = Some forbidden)) in
  ({| connections := delete userId (connections s);
      qrCodes := delete userId (qrCodes s);
      timers := if shouldReconnect then timers s ++ [userId] else timers s;
      authDirs := authDirs s; nextSock := nextSock s;
      reconnectDelay := reconnectDelay s |},
   Emit userId "whatsapp-disconnected" ::
   (if shouldReconnect then [SetTimeout userId (reconnectDelay s)] else [])).

(** disconnectUser.  [logoutRejects] says whether [sock.logout()] raises;
    the [catch] logs and does not rethrow. *)
Definition disconnectUser (s : Service) (userId : string) (logoutRejects : bool)
  : Completion unit * Service * list Effect :=
  match connections s !! userId with
  | Some {| sock := Some k |} =>
      if logoutRejects then (Returned tt, s, [Logout userId (sockId k)])
      else
        (Returned tt,
         {| connections := delete userId (connections s);
            qrCodes := qrCodes s; timers := timers s;
            authDirs := authDirs s ∖ {[userId]};
            nextSock := nextSock s; reconnectDelay := reconnectDelay s |},
         [Logout userId (sockId k); RemoveAuthDir userId])
  | _ => (Returned tt, s, [])
  end.

(** What can happen to the service, one occurrence at a time. *)
Inductive Event :=
| Connect (userId : string)                        (* POST /api/whatsapp/connect *)
| Disconnect (userId : string) (logoutRejects : bool)  (* POST /api/whatsapp/disconnect *)
| Qr (userId qr : string)
| Open (userId : string) (sid : nat)
| Close (userId : string) (statusCode : option Z)
| TransportState (userId : string) (rs : Z)        (* the socket's ws changes state *)
| TimerFires (userId : string).                    (* a pending reconnect timer is due *)

Fixpoint removeOne (u : string) (l : list string) : option (list string) :=
  match l with
  | [] => None
  | x :: r => if bool_decide (x = u) then Some r
              else (fun r' => x :: r') <$> removeOne u r
  end.

Definition step (s : Service) (e : Event) : Service * list Effect :=
  match e with
  | Connect u => let '(_, s', tr) := connectUser s u in (s', tr)
  | Disconnect u rej => let '(_, s', tr) := disconnectUser s u rej in (s', tr)
  | Qr u qr => onQr s u qr
  | Open u sid => onOpen s u sid
  | Close u code => onClose s u code
  | TransportState u rs =>
      (withConnections s
         (alter (fun c => {| sock := (fun k => {| sockId := sockId k; readyState := rs |})
                                       <$> sock c;
                             connected := connected c |}) u (connections s)), [])
  | TimerFires u =>
      match removeOne u (timers s) with
      | None => (s, [])
      | Some rest =>
          let s0 := {| connections := connections s; qrCodes := qrCodes s;
                       timers := rest; authDirs := authDirs s;
                       nextSock := nextSock s; reconnectDelay := reconnectDelay s |} in
          let '(_, s', tr) := connectUser s0 u in (s', tr)
      end
  end.

Fixpoint steps (s : Service) (es : list Event) : Service * list Effect :=
  match es with
  | [] => (s, [])
  | e :: r => let '(s1, t1) := step s e in
              let '(s2, t2) := steps s1 r in (s2, t1 ++ t2)
  end.

(** The state of a service just constructed. *)
Definition fresh (delay : Z) : Service :=
  {| connections := ∅; qrCodes := ∅; timers := []; authDirs := ∅;
     nextSock := 0%nat; reconnectDelay := delay |}.

(** A connection cleanupConnections removes: no socket, or a transport
    that is not open. *)
Definition orphaned (c : Conn) : bool :=
  match sock c with
  | Some k => negb (readyState k =? 1)
  | None => true
  end.

(** cleanupConnections.  The order in which the tenants are visited (the
    insertion order of the [Map]) is not part of the model: the notices are
    listed in the order of the keys. *)
Definition cleanupConnections (s : Service) : Z * Service * list Effect :=
  let toRemove := (map_to_list (filter (fun kv => orphaned kv.2 = true) (connections s))).*1 in
  (Z.of_nat (length toRemove),
   {| connections := foldr delete (connections s) toRemove;
      qrCodes := foldr delete (qrCodes s) toRemove;
      timers := timers s; authDirs := authDirs s; nextSock := nextSock s;
      reconnectDelay := reconnectDelay s |},
   (fun u => Emit u "whatsapp-disconnected") <$> toRemove).

(** getAllConnections, as a set of tenants. *)
Definition getAllConnections (s : Service) : gset string := dom (connections s).

End WhatsApp.


(** ** WhatsAppService, configured revision (src/unnamed/part_003)

    Same connection table; [sendAd] wraps its whole body in [try], image
    rendering falls back to the raw file, and [broadcastAd] wraps each
    iteration in [try]. *)

Module WhatsAppPart3.

(** isUserConnected (the second definition of the class, which is the one
    in force): [connection && connection.connected && connection.sock &&
    connection.sock.ws.readyState === 1] *)
Definition isUserConnected (s : WhatsApp.Service) (userId : string) : bool :=
  match WhatsApp.connections s !! userId with
  | None => false
  | Some conn =>
      connected conn &&
      match sock conn with
      | Some k => readyState k =? 1
      | None => false
      end
  end.

(** processImage: [sharp] raising is caught, the raw file is read instead. *)
Definition processImage (p : Platform) (i : nat) : option string :=
  match renderRaises p i with
  | None => None
  | Some _ => readFileRaises p i
  end.

(** sendAd: every exception of the body becomes [{ success: false, error }]. *)
Definition sendAd (p : Platform) (s : WhatsApp.Service) (userId : string)
           (ad : Database.Ad) (i : nat) (groupId : string)
  : SendResult * list Effect :=
  let hasSock :=
    match WhatsApp.connections s !! userId with
    | Some conn => match sock conn with Some _ => true | None => false end
    | None => false
    end in
  if negb hasSock
  then ({| success := false; error := Some notConnected |}, [CallSendAd groupId])
  else
    let rendered :=
      match Database.imagePath ad with
      | Some img => if pathExists p img then processImage p i else None
      | None => None
      end in
    match rendered with
    | Some e => ({| success := false; error := Some e |}, [CallSendAd groupId])
    | None =>
        match sendRejects p i groupId with
        | None => ({| success := true; error := None |},
                   [CallSendAd groupId; SendMessage groupId])
        | Some e => ({| success := false; error := Some e |},
                     [CallSendAd groupId; SendMessage groupId])
        end
    end.

(** The loop of broadcastAd; every [sendAd] reads the table anew.
    [sendAd] cannot raise, so the [catch] branch of the loop body is never
    entered and every iteration ends with the pacing delay. *)
Fixpoint broadcastLoop (p : Platform) (s : WhatsApp.Service) (userId : string)
         (ad : Database.Ad) (i : nat) (gs : list string) (results : Results)
  : Results * list Effect :=
  match gs with
  | [] => (results, [])
  | groupId :: rest =>
      let '(res, tr) := sendAd p (WhatsApp.tableAt p s userId i) userId ad i groupId in
      let results' :=
        if success res
        then {| total := total results; sent := sent results + 1;
                failed := failed results; errors := errors results |}
        else {| total := total results; sent := sent results;
                failed := failed results + 1;
                errors := errors results ++ [(groupId, error res)] |} in
      let '(r, tr') := broadcastLoop p s userId ad (S i) rest results' in
      (r, tr ++ Sleep 2000 :: tr')
  end.

(** broadcastAd *)
Definition broadcastAd (p : Platform) (s : WhatsApp.Service) (userId : string)
           (ad : Database.Ad) : Completion Results * list Effect :=
  if negb (isUserConnected s userId) then (Thrown notConnected, [])
  else
    let results := {| total := Z.of_nat (length (Database.groups ad));
                      sent := 0; failed := 0; errors := [] |} in
    let '(r, tr) := broadcastLoop p s userId ad 0 (Database.groups ad) results in
    (Returned r, tr ++ [Emit userId "ad-broadcast-result"]).

End WhatsAppPart3.


(** ** Calendar arithmetic of moment-timezone, in a zone of fixed offset *)

Module Calendar.

(** A moment at minute resolution, by its fields in the scheduler's zone.
    [monthOfYear] is 1..12; moment's own [month()] is 0..11. *)
Record Moment := {
  year : Z;
  monthOfYear : Z;
  date : Z;
  hour : Z;
  minute : Z
}.

Definition month (m : Moment) : Z := monthOfYear m - 1.

Definition isLeapYear (y : Z) : bool :=
  ((y `mod` 4 =? 0) && negb (y `mod` 100 =? 0)) || (y `mod` 400 =? 0).

Definition daysInMonth (y mo : Z) : Z :=
  match mo with
  | 1 => 31 | 2 => if isLeapYear y then 29 else 28 | 3 => 31 | 4 => 30
  | 5 => 31 | 6 => 30 | 7 => 31 | 8 => 31 | 9 => 30 | 10 => 31
  | 11 => 30 | 12 => 31 | _ => 0
  end.

Definition daysBeforeMonth (y mo : Z) : Z :=
  match mo with
  | 1 => 0 | 2 => 31 | 3 => 59 | 4 => 90 | 5 => 120 | 6 => 151 | 7 => 181
  | 8 => 212 | 9 => 243 | 10 => 273 | 11 => 304 | 12 => 334 | _ => 0
  end + (if isLeapYear y && (2 <? mo) then 1 else 0).

(** Days from 1970-01-01 to the first day of year [y]. *)
Definition daysBeforeYear (y : Z) : Z :=
  365 * (y - 1970) + ((y - 1) / 4 - (y - 1) / 100 + (y - 1) / 400 - 477).

Definition daysFromEpoch (y mo d : Z) : Z :=
  daysBeforeYear y + daysBeforeMonth y mo + (d - 1).

(** The scheduler's zone, ['America/Sao_Paulo']: UTC-03:00, a constant
    offset (the zone has observed no daylight saving since 2019). *)
Definition zoneOffsetMinutes : Z := -180.

(** [valueOf()]: the instant, in milliseconds since the epoch. *)
Definition valueOf (m : Moment) : Z :=
  (((daysFromEpoch (year m) (monthOfYear m) (date m) * 24 + hour m) * 60
    + minute m) - zoneOffsetMinutes) * msPerMinute.

(** [isValid()] of a moment given by its fields: every field within its
    range.  Text the format cannot read is represented by fields out of
    range.  (The one text moment accepts with an hour of 24, [24:00], is
    turned into the fields of the next midnight where it is parsed, see
    [Scheduler.parseSchedule].) *)
Definition isValid (m : Moment) : bool :=
  (0 <=? year m) &&
  (1 <=? monthOfYear m) && (monthOfYear m <=? 12) &&
  (1 <=? date m) && (date m <=? daysInMonth (year m) (monthOfYear m)) &&
  (0 <=? hour m) && (hour m <=? 23) &&
  (0 <=? minute m) && (minute m <=? 59).

(** [day()]: day of the week, 0 is Sunday; 1970-01-01 was a Thursday. *)
Definition day (m : Moment) : Z :=
  (daysFromEpoch (year m) (monthOfYear m) (date m) + 4) `mod` 7.

(** [isBefore(other)] compares instants. *)
Definition isBefore (m : Moment) (instant : Z) : bool := valueOf m <? instant.

(** [add(1, 'day')]: the next calendar day, same wall-clock time. *)
Definition addDay (m : Moment) : Moment :=
  if date m <? daysInMonth (year m) (monthOfYear m)
  then {| year := year m; monthOfYear := monthOfYear m; date := date m + 1;
          hour := hour m; minute := minute m |}
  else if monthOfYear m <? 12
  then {| year := year m; monthOfYear := monthOfYear m + 1; date := 1;
          hour := hour m; minute := minute m |}
  else {| year := year m + 1; monthOfYear := 1; date := 1;
          hour := hour m; minute := minute m |}.

(** [add(1, 'week')] is [add(7, 'days')]. *)
Definition addWeek (m : Moment) : Moment := Nat.iter 7 addDay m.

(** [add(1, 'month')]: next month, the day clamped to the month's length. *)
Definition addMonth (m : Moment) : Moment :=
  let y' := if monthOfYear m <? 12 then year m else year m + 1 in
  let mo' := if monthOfYear m <? 12 then monthOfYear m + 1 else 1 in
  {| year := y'; monthOfYear := mo'; date := Z.min (date m) (daysInMonth y' mo');
     hour := hour m; minute := minute m |}.

(** [add(1, 'year')]: same month next year, the day clamped (29 February). *)
Definition addYear (m : Moment) : Moment :=
  {| year := year m + 1; monthOfYear := monthOfYear m;
     date := Z.min (date m) (daysInMonth (year m + 1) (monthOfYear m));
     hour := hour m; minute := minute m |}.

Inductive Recurrence := Daily | Weekly | Monthly | Yearly.

Definition addOne (r : Recurrence) (m : Moment) : Moment :=
  match r with
  | Daily => addDay m
  | Weekly => addWeek m
  | Monthly => addMonth m
  | Yearly => addYear m
  end.

(** One recurrence unit, as the specification words it: the same
    wall-clock time one day later; one week later, on the same day of the
    week; the next month, on the same day of the month or the month's last
    day if it is shorter; the same month of the next year, likewise. *)
Definition advancedByOneUnit (r : Recurrence) (m m' : Moment) : Prop :=
  hour m' = hour m /\ minute m' = minute m /\
  match r with
  | Daily => valueOf m' = valueOf m + msPerDay
  | Weekly => valueOf m' = valueOf m + 7 * msPerDay /\ day m' = day m
  | Monthly =>
      12 * year m' + monthOfYear m' = 12 * year m + monthOfYear m + 1 /\
      date m' = Z.min (date m) (daysInMonth (year m') (monthOfYear m'))
  | Yearly =>
      year m' = year m + 1 /\ monthOfYear m' = monthOfYear m /\
      date m' = Z.min (date m) (daysInMonth (year m') (monthOfYear m'))
  end.

End Calendar.

(** ** SchedulerService (second part of src/services/whatsappService.json) *)

Module Scheduler.
Import Calendar.

(** A node-cron expression of five fields; [None] is [*]. *)
Record Cron := {
  cronMinute : Z;
  cronHour : Z;
  cronDayOfMonth : option Z;
  cronMonth : option Z;
  cronDayOfWeek : option Z
}.

Record TaskInfo := {
  taskAd : Database.Ad;          (* the [ad] captured by the cron callback *)
  cronExpression : Cron;
  nextExecution : Z;             (* [scheduleDateTime.toISOString()] *)
  taskRepeat : string
}.

Record Service := {
  scheduledTasks : gmap string TaskInfo
}.

Definition fresh : Service := {| scheduledTasks := ∅ |}.

Inductive LogLine :=
| ErrInvalidDateTime (adId : string)      (* console.error *)
| WarnPast (adId : string)                (* console.warn *)
| LogCancelled (adId : string)
| LogScheduling (adId : string) (c : Cron).

(** [moment.tz(`${date} ${time}`, 'YYYY-MM-DD HH:mm', this.timezone)] on
    the numbers read from the two strings.  moment accepts [24:00] on a
    valid date and reads it as the midnight that ends the day: the moment
    it builds is 00:00 of the next day ([_nextDay]).  With any other hour
    above 23, or minutes after hour 24, the hour overflows and the moment
    is invalid; the fields are then kept as read. *)
Definition parseSchedule (d : Z * Z * Z) (t : Z * Z) : Moment :=
  let midnight := {| year := d.1.1; monthOfYear := d.1.2; date := d.2;
                     hour := 0; minute := 0 |} in
  if (t.1 =? 24) && (t.2 =? 0) && isValid midnight then addDay midnight
  else {| year := d.1.1; monthOfYear := d.1.2; date := d.2;
          hour := t.1; minute := t.2 |}.

Definition recurrenceOf (repeat : string) : option Recurrence :=
  if String.eqb repeat "daily" then Some Daily
  else if String.eqb repeat "weekly" then Some Weekly
  else if String.eqb repeat "monthly" then Some Monthly
  else if String.eqb repeat "yearly" then Some Yearly
  else None.

(** cancelScheduledAd *)
Definition cancelScheduledAd (s : Service) (adId : string) : Service * list LogLine :=
  match scheduledTasks s !! adId with
  | Some _ => ({| scheduledTasks := delete adId (scheduledTasks s) |}, [LogCancelled adId])
  | None => (s, [])
  end.

Definition cronFor (repeat : string) (m : Moment) : Cron :=
  match recurrenceOf repeat with
  | Some Daily =>
      {| cronMinute := minute m; cronHour := hour m; cronDayOfMonth := None;
         cronMonth := None; cronDayOfWeek := None |}
  | Some Weekly =>
      {| cronMinute := minute m; cronHour := hour m; cronDayOfMonth := None;
         cronMonth := None; cronDayOfWeek := Some (day m) |}
  | Some Monthly =>
      {| cronMinute := minute m; cronHour := hour m; cronDayOfMonth := Some (date m);
         cronMonth := None; cronDayOfWeek := None |}
  | Some Yearly | None =>
      {| cronMinute := minute m; cronHour := hour m; cronDayOfMonth := Some (date m);
         cronMonth := Some (month m + 1); cronDayOfWeek := None |}
  end.

(** When the task of a cron expression runs, as node-cron has it: at
    every minute whose fields, read in the zone of the task, each match the
    expression, a field matching when the expression has [*] or the same
    number there. *)
Definition cronMatches (c : Cron) (m : Moment) : bool :=
  (minute m =? cronMinute c) && (hour m =? cronHour c) &&
  match cronDayOfMonth c with Some d => date m =? d | None => true end &&
  match cronMonth c with Some mo => monthOfYear m =? mo | None => true end &&
  match cronDayOfWeek c with Some w => day m =? w | None => true end.

(** scheduleAd.  Every path returns [undefined]; the body is inside a
    [try] whose [catch] only logs. *)
Definition scheduleAd (now : Z) (s : Service) (ad : Database.Ad)
  : Completion unit * Service * list LogLine :=
  match Database.scheduleDate ad, Database.scheduleTime ad with
  | Some d, Some t =>
      let scheduleDateTime := parseSchedule d t in
      if negb (isValid scheduleDateTime)
      then (Returned tt, s, [ErrInvalidDateTime (Database.id ad)])
      else if isBefore scheduleDateTime now
      then (Returned tt, s, [WarnPast (Database.id ad)])
      else
        let '(s1, l1) := cancelScheduledAd s (Database.id ad) in
        let cronExpression := cronFor (Database.repeat ad) scheduleDateTime in
        (Returned tt,
         {| scheduledTasks :=
              <[Database.id ad :=
                  {| taskAd := ad; cronExpression := cronExpression;
                     nextExecution := valueOf scheduleDateTime;
                     taskRepeat := Database.repeat ad |}]> (scheduledTasks s1) |},
         l1 ++ [LogScheduling (Database.id ad) cronExpression])
  | _, _ => (Returned tt, s, [])
  end.

Inductive ScheduleCheck :=
| ScheduleValid
| ScheduleInvalid (error : string).

(** validateSchedule *)
Definition validateSchedule (now : Z) (scheduleDate : option (Z * Z * Z))
           (scheduleTime : option (Z * Z)) : ScheduleCheck :=
  match scheduleDate, scheduleTime with
  | Some d, Some t =>
      let scheduleDateTime := parseSchedule d t in
      if negb (isValid scheduleDateTime) then ScheduleInvalid "Data/hora inválida"
      else if isBefore scheduleDateTime now
      then ScheduleInvalid "Não é possível agendar para o passado"
      else ScheduleValid
  | _, _ => ScheduleInvalid "Data e hora são obrigatórias"
  end.

(** The [while (nextExecution.isBefore(now)) nextExecution.add(1, unit)]
    loops of getNextExecutionTime, with a bound on the iterations. *)
Fixpoint advance (fuel : nat) (r : Recurrence) (nextExecution : Moment) (now : Z)
  : option Moment :=
  if isBefore nextExecution now
  then match fuel with
       | O => None
       | S f => advance f r (addOne r nextExecution) now
       end
  else Some nextExecution.

Inductive NextExecution :=
| NoExecution                 (* [null] *)
| NextAt (iso : Z)            (* [nextExecution.toISOString()] *)
| StillLooping.               (* the bound was reached inside a loop *)

(** Every pass of a loop moves the moment forward by a day at least, so
    this many passes are enough (see [advance_total]). *)
Definition loopBound (anchor : Moment) (now : Z) : nat :=
  Z.to_nat ((now - valueOf anchor) / msPerDay + 1).

(** getNextExecutionTime *)
Definition getNextExecutionTime (now : Z) (s : Service) (db : Database.Db)
           (adId : string) : NextExecution :=
  match scheduledTasks s !! adId with
  | None => NoExecution
  | Some _ =>
      match Database.getAd db adId with
      | None => NoExecution
      | Some ad =>
          match Database.scheduleDate ad, Database.scheduleTime ad with
          | Some d, Some t =>
              let scheduleDateTime := parseSchedule d t in
              if negb (isValid scheduleDateTime) then NoExecution
              else
                match recurrenceOf (Database.repeat ad) with
                | Some r =>
                    match advance (loopBound scheduleDateTime now) r scheduleDateTime now with
                    | Some nextExecution => NextAt (valueOf nextExecution)
                    | None => StillLooping
                    end
                | None =>
                    if isBefore scheduleDateTime now then NoExecution
                    else NextAt (valueOf scheduleDateTime)
                end
          | _, _ => NoExecution
          end
      end
  end.

(** The WhatsAppService object the scheduler holds. *)
Record WhatsAppApi := {
  apiIsUserConnected : WhatsApp.Service -> string -> bool;
  apiBroadcastAd : Platform -> WhatsApp.Service -> string -> Database.Ad
                   -> Completion Results * list Effect
}.

Definition whatsappJs : WhatsAppApi :=
  {| apiIsUserConnected := WhatsApp.isUserConnected;
     apiBroadcastAd := WhatsApp.broadcastAd |}.

Definition whatsappPart3 : WhatsAppApi :=
  {| apiIsUserConnected := WhatsAppPart3.isUserConnected;
     apiBroadcastAd := WhatsAppPart3.broadcastAd |}.

Definition statFailed (ad : Database.Ad) : Z :=
  match Database.stats ad with Some st => Database.failed st | None => 0 end.

Definition statSent (ad : Database.Ad) : Z :=
  match Database.stats ad with Some st => Database.sent st | None => 0 end.

(** executeAd: returns [undefined] on every path and raises on none. *)
Definition executeAd (now : Z) (api : WhatsAppApi) (p : Platform)
           (w : WhatsApp.Service) (db : Database.Db) (ad : Database.Ad)
  : Completion unit * Database.Db * list Effect :=
  let n := Z.of_nat (length (Database.groups ad)) in
  if negb (apiIsUserConnected api w (Database.userId ad))
  then (Returned tt,
        Database.updateAdStats db (Database.id ad) None (statFailed ad + n) now, [])
  else
    match apiBroadcastAd api p w (Database.userId ad) ad with
    | (Returned results, tr) =>
        (Returned tt,
         Database.updateAdStats db (Database.id ad)
           (Some (statSent ad + sent results)) (statFailed ad + failed results) now,
         tr)
    | (Thrown _, tr) =>
        (Returned tt,
         Database.updateAdStats db (Database.id ad) None (statFailed ad + n) now, tr)
    end.

(** updateAdSchedule *)
Definition updateAdSchedule (now : Z) (s : Service) (ad : Database.Ad)
  : Service * list LogLine :=
  let '(s1, l1) := cancelScheduledAd s (Database.id ad) in
  if Database.active ad && bool_decide (Database.scheduleDate ad <> None)
     && bool_decide (Database.scheduleTime ad <> None)
  then let '(_, s2, l2) := scheduleAd now s1 ad in (s2, l1 ++ l2)
  else (s1, l1).

(** rescheduleExistingAds: [for (const ad of scheduledAds) this.scheduleAd(ad)] *)
Definition rescheduleExistingAds (now : Z) (s : Service) (db : Database.Db)
  : Service * list LogLine :=
  fold_left (fun acc ad => let '(_, s', l) := scheduleAd now acc.1 ad in (s', acc.2 ++ l))
            (Database.getScheduledAds db) (s, []).

(** The test of cleanupOrphanedTasks on one registered id. *)
Definition orphanedTask (db : Database.Db) (adId : string) : bool :=
  match Database.getAd db adId with
  | None => true
  | Some ad => negb (Database.active ad)
               || bool_decide (Database.scheduleDate ad = None)
               || bool_decide (Database.scheduleTime ad = None)
  end.

(** cleanupOrphanedTasks, with the number of tasks removed, which the code
    logs.  The ids are visited in the order of the keys, not in the
    [Map]'s insertion order. *)
Definition cleanupOrphanedTasks (s : Service) (db : Database.Db) : Service * Z :=
  let toDelete :=
    List.filter (orphanedTask db) (map_to_list (scheduledTasks s)).*1 in
  (fold_left (fun acc adId => (cancelScheduledAd acc adId).1) toDelete s,
   Z.of_nat (length toDelete)).

End Scheduler.

(** ** server.js: the services of one process *)

Module Server.

(** What the variable [ad] of a timer's callback refers to.  [scheduleAd]
    closes over the object it is handed.  At startup
    ([rescheduleExistingAds]) that is an element of [db.ads] itself, and
    [updateAdStats] assigns [ad.stats] on that element before [updateAd]
    puts a copy in its place: the write reaches the closure's object once,
    and the object is on its own from then on.  The toggle and update
    routes hand [scheduleAd] an object of their own, a copy whose [stats]
    no code assigns. *)
Inductive Capture :=
| StoredObject                              (* the element [getAd] returns *)
| OwnObject (st : option Database.AdStats). (* an object apart, with these [stats] *)

Record State := {
  db : Database.Db;
  whatsappService : WhatsApp.Service;
  scheduler : Scheduler.Service;
  antiSpam : AntiSpam.Service;     (* [new AntiSpamService(db)] *)
  captures : gmap string Capture   (* by campaign id; no entry: the object
                                      as [scheduleAd] was handed it *)
}.

(** The object the callback registered under [adId] reads when it runs:
    the campaign as scheduleAd was handed it, no code assigning any of its
    fields but [stats]; and [stats] as the one write of [updateAdStats]
    that reached the object left them, if one did. *)
Definition capturedAd (σ : State) (task : Scheduler.TaskInfo) (adId : string)
  : Database.Ad :=
  let ad := Scheduler.taskAd task in
  {| Database.id := Database.id ad; Database.userId := Database.userId ad;
     Database.groups := Database.groups ad; Database.active := Database.active ad;
     Database.scheduleDate := Database.scheduleDate ad;
     Database.scheduleTime := Database.scheduleTime ad;
     Database.repeat := Database.repeat ad;
     Database.imagePath := Database.imagePath ad;
     Database.stats := match captures σ !! adId with
                       | Some (OwnObject st) => st
                       | _ => Database.stats ad
                       end |}.

(** The callback scheduleAd hands to [cron.schedule], run for the task
    registered under [adId]. *)
Definition cronCallback (now : Z) (api : Scheduler.WhatsAppApi) (p : Platform)
           (σ : State) (adId : string) : State * list Effect :=
  match Scheduler.scheduledTasks (scheduler σ) !! adId with
  | None => (σ, [])
  | Some task =>
      let ad := capturedAd σ task adId in
      let '(_, db', tr) := Scheduler.executeAd now api p (whatsappService σ) (db σ) ad in
      let once := String.eqb (Database.repeat ad) "once" in
      let sch' :=
        if once then (Scheduler.cancelScheduledAd (scheduler σ) (Database.id ad)).1
        else scheduler σ in
      let captures' :=
        if once then delete (Database.id ad) (captures σ)
        else
          match captures σ !! adId, Database.getAd (db σ) (Database.id ad) with
          | Some StoredObject, Some _ =>
              <[adId := OwnObject (Database.getAd db' (Database.id ad)
                                     ≫= Database.stats)]> (captures σ)
          | _, _ => captures σ
          end in
      ({| db := db'; whatsappService := whatsappService σ;
          scheduler := sch'; antiSpam := antiSpam σ; captures := captures' |}, tr)
  end.

(** A campaign rescheduleExistingAds registers: one getScheduledAds lists
    and scheduleAd accepts. *)
Definition reregistered (now : Z) (ad : Database.Ad) : bool :=
  Database.active ad &&
  match Scheduler.validateSchedule now (Database.scheduleDate ad) (Database.scheduleTime ad)
  with
  | Scheduler.ScheduleValid => true
  | Scheduler.ScheduleInvalid _ => false
  end.

(** [scheduler.initialize()], called once when the process starts, on the
    registry the constructor left.  The timer of an id closes over the
    last stored campaign of that id that was registered; this is the
    element [getAd] returns when that element is registered and is the
    only one of its id that is. *)
Definition initialize (now : Z) (σ : State) : State :=
  let sch := (Scheduler.rescheduleExistingAds now Scheduler.fresh (db σ)).1 in
  let registeredWith (k : string) : nat :=
    length (List.filter (fun x => bool_decide (Database.id x = k) && reregistered now x)
                        (Database.ads (db σ))) in
  let shared (k : string) : bool :=
    match Database.getAd (db σ) k with
    | Some a => reregistered now a && bool_decide (registeredWith k = 1%nat)
    | None => false
    end in
  {| db := db σ; whatsappService := whatsappService σ; scheduler := sch;
     antiSpam := antiSpam σ;
     captures := (fun _ => StoredObject)
                   <$> filter (fun kv => shared kv.1 = true) (Scheduler.scheduledTasks sch) |}.

(** The state after a route has cancelled the timer of [adId] and, if it
    registered one anew, handed scheduleAd an object of its own. *)
Definition withDbScheduler (σ : State) (adId : string) (d : Database.Db)
           (sch : Scheduler.Service) : State :=
  {| db := d; whatsappService := whatsappService σ; scheduler := sch;
     antiSpam := antiSpam σ; captures := delete adId (captures σ) |}.

Inductive Response :=
| Ok200
| NotFound404.

Definition withActive (a : Database.Ad) (b : bool) : Database.Ad :=
  {| Database.id := Database.id a; Database.userId := Database.userId a;
     Database.groups := Database.groups a; Database.active := b;
     Database.scheduleDate := Database.scheduleDate a;
     Database.scheduleTime := Database.scheduleTime a;
     Database.repeat := Database.repeat a; Database.imagePath := Database.imagePath a;
     Database.stats := Database.stats a |}.

(** POST /api/ads/:id/toggle, for the authenticated user [reqUser]. *)
Definition toggleRoute (now : Z) (reqUser adId : string) (σ : State) : Response * State :=
  match Database.getAd (db σ) adId with
  | None => (NotFound404, σ)
  | Some ad =>
      if negb (bool_decide (Database.userId ad = reqUser)) then (NotFound404, σ)
      else
        let updatedAd := withActive ad (negb (Database.active ad)) in
        let db' := (Database.updateAd (db σ) adId updatedAd).2 in
        let sch1 := (Scheduler.cancelScheduledAd (scheduler σ) adId).1 in
        let sch2 :=
          if bool_decide (Database.scheduleDate updatedAd <> None)
             && bool_decide (Database.scheduleTime updatedAd <> None)
             && Database.active updatedAd
          then (Scheduler.scheduleAd now sch1 updatedAd).1.2
          else sch1 in
        (Ok200, withDbScheduler σ adId db' sch2)
  end.

Inductive FileEffect := RemoveFile (path : string).

(** DELETE /api/ads/:id, for the authenticated user [reqUser]. *)
Definition deleteRoute (p : Platform) (reqUser adId : string) (σ : State)
  : Response * State * list FileEffect :=
  match Database.getAd (db σ) adId with
  | None => (NotFound404, σ, [])
  | Some ad =>
      if negb (bool_decide (Database.userId ad = reqUser)) then (NotFound404, σ, [])
      else
        let sch1 := (Scheduler.cancelScheduledAd (scheduler σ) adId).1 in
        let files :=
          match Database.imagePath ad with
          | Some img => if pathExists p img then [RemoveFile img] else []
          | None => []
          end in
        (Ok200, withDbScheduler σ adId (Database.deleteAd (db σ) adId).2 sch1, files)
  end.

End Server.


(** * Observations used to state further properties *)

Module Observations.

(** The groups of the window stored under a key; none when there is no
    window. *)
Definition bucketGroups (s : AntiSpam.Service) (key : string * Z) : gset string :=
  match AntiSpam.userActivity s !! key with
  | Some a => AntiSpam.groups a
  | None => ∅
  end.

(** The calls of a batch of tenant [u] that is sent one target after the
    other: for each target, in order, the runs of cleanupOldData that fall
    before its check (at the instants given, possibly none), the check,
    and the record of the send. *)
Fixpoint batchEvents (u : string) (targets : list string)
         (times : list (list Z * Z * Z)) : list AntiSpam.Event :=
  match targets, times with
  | g :: gs, (cleanups, tc, tr) :: ts =>
      (AntiSpam.Cleanup <$> cleanups)
      ++ AntiSpam.Check tc u g :: AntiSpam.Record tr u g true :: batchEvents u gs ts
  | _, _ => []
  end.

(** What one undisturbed send to a group leaves in the trace. *)
Definition sendTrace (g : string) : list Effect :=
  [CallSendAd g; SendMessage g; Sleep 2000].

(** The failures a dispatch reports when the platform rejects the sends it
    rejects: the targets, from position [i] on, whose send is rejected. *)
Fixpoint rejections (p : Platform) (i : nat) (gs : list string)
  : list (string * option string) :=
  match gs with
  | [] => []
  | g :: r =>
      match sendRejects p i g with
      | Some e => (g, Some e) :: rejections p (S i) r
      | None => rejections p (S i) r
      end
  end.

(** Whether the tenant is connected when attempt [i] of a dispatch that
    began on table [s] reads the table. *)
Definition connectedAt (p : Platform) (s : WhatsApp.Service) (u : string) (i : nat) : bool :=
  WhatsApp.isUserConnected (WhatsApp.tableAt p s u i) u.

(** The exception the image rendering of attempt [i] ends with, if any:
    the campaign has an image, the file exists and the library raises. *)
Definition renderFailure (p : Platform) (ad : Database.Ad) (i : nat) : option string :=
  match Database.imagePath ad with
  | Some img => if pathExists p img then renderRaises p i else None
  | None => None
  end.

(** The process after the timer of [adId] has fired at each of the given
    instants, in order. *)
Definition firings (api : Scheduler.WhatsAppApi) (p : Platform) (adId : string)
           (σ : Server.State) (ts : list Z) : Server.State :=
  fold_left (fun acc t => (Server.cronCallback t api p acc adId).1) ts σ.

(** The statistics of the stored campaign. *)
Definition storedStats (σ : Server.State) (adId : string) : option Database.AdStats :=
  Database.getAd (Server.db σ) adId ≫= Database.stats.

(** A schedule scheduleAd accepts: date and time present, a valid moment,
    not before the current instant. *)
Definition registers (now : Z) (ad : Database.Ad) : bool :=
  match Database.scheduleDate ad, Database.scheduleTime ad with
  | Some d, Some t =>
      Calendar.isValid (Scheduler.parseSchedule d t)
      && negb (Calendar.isBefore (Scheduler.parseSchedule d t) now)
  | _, _ => false
  end.

End Observations.

(** * Sample data used by the examples below *)

Module Samples.
Import Database.

Definition settingsDb (en : bool) (ceiling cooldown : Z) : Db :=
  {| antiSpam := Some {| enabled := en; maxMessagesPerHour := ceiling;
                         cooldownMinutes := cooldown |};
     userStats := ∅; ads := [] |}.

(** A database whose settings file has no [antiSpam] entry: the defaults
    (enabled, 10 per hour, 60 minutes) apply. *)
Definition defaultDb : Db := {| antiSpam := None; userStats := ∅; ads := [] |}.

Definition sampleDisabledDb : Db := settingsDb false 1 60.

Definition sampleBlocked : AntiSpam.Service :=
  {| AntiSpam.userActivity := ∅;
     AntiSpam.blockedUsers :=
       {[ "u1" := {| AntiSpam.blockedAt := 0; AntiSpam.unblockTime := 3600000;
                     AntiSpam.reason := "rate_limit" |} ]} |}.

(** A send checked and recorded at the same instant. *)
Definition send (t : Z) (u g : string) : list AntiSpam.Event :=
  [AntiSpam.Check t u g; AntiSpam.Record t u g true].

(** Four sends around 01:00:00.000 UTC, two on each side of the hour. *)
Definition burst : list AntiSpam.Event :=
  send 3599000 "u1" "g1" ++ send 3599500 "u1" "g2"
  ++ send 3600000 "u1" "g3" ++ send 3600500 "u1" "g4".

(** Two sends under way at once: both are checked before either is
    recorded. *)
Definition overlapping : list AntiSpam.Event :=
  [AntiSpam.Check 1000 "u1" "g1"; AntiSpam.Check 1001 "u1" "g2";
   AntiSpam.Record 2000 "u1" "g1" true; AntiSpam.Record 2001 "u1" "g2" true].

(** The clock is set back between the check of a send, made in the hour
    after 01:00, and its record, which falls before 01:00. *)
Definition clockSetBack : list AntiSpam.Event :=
  send 1000 "u1" "g0"
  ++ [AntiSpam.Check 3601000 "u1" "g1"; AntiSpam.Record 2000 "u1" "g1" true].

(** A user id as server.js gives them ([uuidv4()]). *)
Definition uuidTenant : string := "0b9d7e52-1c3a-4f5e-8a6b-7d2e9c4f1a0b".

(** 2025-01-01T10:00:00.000Z. *)
Definition tenOClock : Z := 1735725600000.

(** Two sends of "u1" at 10:10 and 10:40, and the hourly run of
    cleanupOldData at 10:30 in between. *)
Definition sparedByCleanup : list AntiSpam.Event :=
  send (tenOClock + 10 * msPerMinute) "u1" "g1"
  ++ [AntiSpam.Cleanup (tenOClock + 30 * msPerMinute)]
  ++ send (tenOClock + 40 * msPerMinute) "u1" "g2".

(** Four sends of [uuidTenant] between 10:10 and 10:50, one after the
    other, and the hourly run of cleanupOldData at 10:30. *)
Definition acrossCleanup : list AntiSpam.Event :=
  send (tenOClock + 10 * msPerMinute) uuidTenant "g1"
  ++ send (tenOClock + 20 * msPerMinute) uuidTenant "g2"
  ++ [AntiSpam.Cleanup (tenOClock + 30 * msPerMinute)]
  ++ send (tenOClock + 40 * msPerMinute) uuidTenant "g3"
  ++ send (tenOClock + 50 * msPerMinute) uuidTenant "g4".

(** A tenant who reached group "g1" once, one second before the block. *)
Definition oneSentToG1 : AntiSpam.Service :=
  {| AntiSpam.userActivity :=
       {[ ("u1", 0) := {| AntiSpam.count := 1; AntiSpam.groups := {[ "g1" ]};
                          AntiSpam.firstMessage := 0;
                          AntiSpam.successful := Some 1; AntiSpam.failed := Some 0 |} ]};
     AntiSpam.blockedUsers := ∅ |}.

(** A tenant with an open socket. *)
Definition liveService : WhatsApp.Service :=
  {| WhatsApp.connections :=
       {[ "u1" := {| sock := Some {| sockId := 0%nat; readyState := 1 |};
                     connected := true |} ]};
     WhatsApp.qrCodes := ∅; WhatsApp.timers := []; WhatsApp.authDirs := {[ "u1" ]};
     WhatsApp.nextSock := 1%nat; WhatsApp.reconnectDelay := 5000 |}.

Definition campaign (img : option string) (rep : string) : Ad :=
  {| id := "ad1"; userId := "u1"; groups := ["g1"; "g2"; "g3"]; active := true;
     scheduleDate := Some (2025, 1, 1); scheduleTime := Some (10, 0);
     repeat := rep; imagePath := img;
     stats := Some {| sent := 0; failed := 0; lastSent := None |} |}.

(** The platform rejects every send to "g2"; nothing else goes wrong. *)
Definition rejectsG2 : Platform :=
  {| pathExists := fun _ => true;
     renderRaises := fun _ => None;
     readFileRaises := fun _ => None;
     sendRejects := fun _ g => if String.eqb g "g2" then Some "not-authorized" else None;
     connectionAt := fun _ => None |}.

(** The tenant's socket closes while the first send is under way: the
    close handler has removed the connection when the second attempt reads
    the table.  Nothing else goes wrong. *)
Definition losesSession : Platform :=
  {| pathExists := fun _ => true;
     renderRaises := fun _ => None;
     readFileRaises := fun _ => None;
     sendRejects := fun _ _ => None;
     connectionAt := fun _ => Some None |}.

(** The image library cannot decode the uploaded file. *)
Definition badImage : Platform :=
  {| pathExists := fun _ => true;
     renderRaises := fun _ => Some "Input file contains unsupported image format";
     readFileRaises := fun _ => None;
     sendRejects := fun _ _ => None;
     connectionAt := fun _ => None |}.

(** The process of server.js with one scheduled campaign of a connected
    tenant whom the rate guard holds blocked until 01:00:00 UTC. *)
Definition blockedTenantServer : Server.State :=
  {| Server.db := {| antiSpam := None; userStats := ∅; ads := [campaign None "once"] |};
     Server.whatsappService := liveService;
     Server.scheduler :=
       (Scheduler.scheduleAd 0 Scheduler.fresh (campaign None "once")).1.2;
     Server.antiSpam := sampleBlocked;
     Server.captures := ∅ |}.

(** No connection at all. *)
Definition noSession : WhatsApp.Service := WhatsApp.fresh 5000.

(** The process just started, at the epoch, on a database that holds one
    daily campaign anchored at 2025-01-01 10:00; no tenant is connected. *)
Definition startedDailyServer : Server.State :=
  Server.initialize 0
    {| Server.db := {| antiSpam := None; userStats := ∅; ads := [campaign None "daily"] |};
       Server.whatsappService := noSession;
       Server.scheduler := Scheduler.fresh;
       Server.antiSpam := AntiSpam.fresh;
       Server.captures := ∅ |}.

(** A daily campaign anchored at 2025-01-01 10:00, stored and registered. *)
Definition dailyDb : Db :=
  {| antiSpam := None; userStats := ∅; ads := [campaign None "daily"] |}.

Definition dailyScheduler : Scheduler.Service :=
  (Scheduler.scheduleAd 0 Scheduler.fresh (campaign None "daily")).1.2.

Definition anchor2025 : Calendar.Moment :=
  {| Calendar.year := 2025; Calendar.monthOfYear := 1; Calendar.date := 1;
     Calendar.hour := 10; Calendar.minute := 0 |}.

Definition nextDay2025 : Calendar.Moment :=
  {| Calendar.year := 2025; Calendar.monthOfYear := 1; Calendar.date := 2;
     Calendar.hour := 10; Calendar.minute := 0 |}.

Definition jan31 : Calendar.Moment :=
  {| Calendar.year := 2025; Calendar.monthOfYear := 1; Calendar.date := 31;
     Calendar.hour := 10; Calendar.minute := 0 |}.

Definition feb28 : Calendar.Moment :=
  {| Calendar.year := 2025; Calendar.monthOfYear := 2; Calendar.date := 28;
     Calendar.hour := 10; Calendar.minute := 0 |}.

Definition mar31 : Calendar.Moment :=
  {| Calendar.year := 2025; Calendar.monthOfYear := 3; Calendar.date := 31;
     Calendar.hour := 10; Calendar.minute := 0 |}.

(** 2025-01-05 09:00 in the scheduler's zone: four days after the anchor
    of the daily campaign, one hour before its time of day. *)
Definition jan5morning : Z := Calendar.valueOf anchor2025 + 4 * msPerDay - msPerHour.

Definition jan5 : Calendar.Moment :=
  {| Calendar.year := 2025; Calendar.monthOfYear := 1; Calendar.date := 5;
     Calendar.hour := 10; Calendar.minute := 0 |}.

(** A monthly campaign anchored on 2025-01-31 10:00, stored and registered. *)
Definition monthEnd : Ad :=
  {| id := "ad2"; userId := "u1"; groups := ["g1"]; active := true;
     scheduleDate := Some (2025, 1, 31); scheduleTime := Some (10, 0);
     repeat := "monthly"; imagePath := None; stats := None |}.

Definition monthEndDb : Db :=
  {| antiSpam := None; userStats := ∅; ads := [monthEnd] |}.

Definition monthEndScheduler : Scheduler.Service :=
  (Scheduler.scheduleAd 0 Scheduler.fresh monthEnd).1.2.

(** A one-shot campaign for 2025-01-01 at [24:00], the midnight that ends
    the day. *)
Definition endOfDay : Ad :=
  {| id := "ad3"; userId := "u1"; groups := ["g1"]; active := true;
     scheduleDate := Some (2025, 1, 1); scheduleTime := Some (24, 0);
     repeat := "once"; imagePath := None; stats := None |}.

Definition jan2midnight : Calendar.Moment :=
  {| Calendar.year := 2025; Calendar.monthOfYear := 1; Calendar.date := 2;
     Calendar.hour := 0; Calendar.minute := 0 |}.

End Samples.

(** * Properties *)

(** ** Rate guard *)

Module AntiSpamProps.
Import Database AntiSpam Samples.

Arguments startOfHour : simpl never.

(** C10.  With [enabled] set to [false] in the persisted anti-spam
    settings, [canSendMessage] answers [Allowed] and [validateBroadcast]
    answers [Valid] for every tenant, group and batch, whatever the windows
    and block records hold (an active block included), and both leave the
    database and the service state exactly as they found them. *)
Theorem disabled_guard_admits_everything
        (off now : Z) (u g : string) (targets : list string)
        (db : Db) (s : Service) :
  enabled (getAntiSpamSettings db) = false ->
  canSendMessage off now u g db s = (Returned Allowed, db, s) /\
  validateBroadcast off now u targets db s = (Valid, s).
Proof.
  intros Hoff. unfold canSendMessage, validateBroadcast.
  rewrite Hoff. simpl. split; reflexivity.
Qed.

Lemma disabled_guard_admits_everything_witness :
  canSendMessage 0 1000 "u1" "g1" sampleDisabledDb sampleBlocked
    = (Returned Allowed, sampleDisabledDb, sampleBlocked) /\
  validateBroadcast 0 1000 "u1" ["g1"; "g2"] sampleDisabledDb sampleBlocked
    = (Valid, sampleBlocked).
Proof.
  apply (disabled_guard_admits_everything 0 1000 "u1" "g1" ["g1"; "g2"]
           sampleDisabledDb sampleBlocked).
  reflexivity.
Defined.

Lemma updateAntiSpamStats_settings (u : string) (db : Db) :
  getAntiSpamSettings (updateAntiSpamStats u db).2 = getAntiSpamSettings db.
Proof.
  unfold updateAntiSpamStats.
  destruct (userStats db !! u) as [[]|]; reflexivity.
Qed.

Lemma blockUser_spec (t0 : Z) (u : string) (m : Z) (db : Db) (s : Service) :
  (blockUser t0 u m db s).2
    = {| userActivity := userActivity s;
         blockedUsers := <[u := {| blockedAt := t0;
                                   unblockTime := t0 + m * msPerMinute;
                                   reason := "rate_limit" |}]> (blockedUsers s) |}
  /\ getAntiSpamSettings (blockUser t0 u m db s).1.2 = getAntiSpamSettings db.
Proof.
  unfold blockUser.
  pose proof (updateAntiSpamStats_settings u db) as H.
  destruct (updateAntiSpamStats u db) as [c db']. simpl in *. auto.
Qed.

(** C7, as the code has it.  With anti-spam enabled, [blockUser] at [t0]
    for [m] minutes stores a block record with [unblockTime = t0 + m min];
    every [canSendMessage] up to and including that instant is denied as
    blocked and carries [unblockTime] and the time left.  Past that instant
    the first check removes the record by itself (no unblock call) and
    answers exactly as on the state with the block deleted: never blocked,
    [Allowed] when the tenant's current hour is under the ceiling and the
    group was not targeted in it, and then no block record is left. *)
Theorem block_expires_lazily
        (off t0 m : Z) (u g : string) (db : Db) (s : Service) :
  enabled (getAntiSpamSettings db) = true ->
  let db1 := (blockUser t0 u m db s).1.2 in
  let s1 := (blockUser t0 u m db s).2 in
  let unblockAt := t0 + m * msPerMinute in
  let s2 := {| userActivity := userActivity s1;
               blockedUsers := delete u (blockedUsers s1) |} in
  (forall t1, t1 <= unblockAt ->
     canSendMessage off t1 u g db1 s1
     = (Returned (DeniedBlocked unblockAt
                    (formatTimeLeft (Z.quot (unblockAt - t1) msPerMinute))),
        db1, s1)) /\
  (forall t1, unblockAt < t1 ->
     isUserBlocked t1 u s1 = (false, s2) /\
     canSendMessage off t1 u g db1 s1 = canSendMessage off t1 u g db1 s2 /\
     (forall a l, (canSendMessage off t1 u g db1 s1).1.1 <> Returned (DeniedBlocked a l)) /\
     (count (getUserActivity off t1 u s1) < maxMessagesPerHour (getAntiSpamSettings db) ->
      g ∉ groups (getUserActivity off t1 u s1) ->
      (canSendMessage off t1 u g db1 s1).1.1 = Returned Allowed /\
      blockedUsers (canSendMessage off t1 u g db1 s1).2 !! u = None)).
Proof.
  intros Hen db1 s1 unblockAt s2.
  destruct (blockUser_spec t0 u m db s) as [Hs1 Hset].
  fold s1 in Hs1. fold db1 in Hset.
  assert (Hlk : blockedUsers s1 !! u
                = Some {| blockedAt := t0; unblockTime := unblockAt; reason := "rate_limit" |}).
  { rewrite Hs1. simpl. apply lookup_insert_eq. }
  assert (Hen1 : enabled (getAntiSpamSettings db1) = true) by (rewrite Hset; exact Hen).
  split.
  - intros t1 Ht1. unfold canSendMessage. rewrite Hen1. simpl.
    unfold isUserBlocked. rewrite Hlk. simpl.
    destruct (Z.ltb_spec unblockAt t1) as [Hlt|Hge]; [lia|].
    rewrite Hlk. unfold getTimeUntilUnblock. rewrite Hlk. reflexivity.
  - intros t1 Ht1.
    assert (Hb1 : isUserBlocked t1 u s1 = (false, s2)).
    { unfold isUserBlocked. rewrite Hlk. simpl.
      destruct (Z.ltb_spec unblockAt t1) as [Hlt|Hge]; [reflexivity|lia]. }
    assert (Hb2 : isUserBlocked t1 u s2 = (false, s2)).
    { unfold isUserBlocked. subst s2. simpl. rewrite lookup_delete_eq. reflexivity. }
    assert (Heq : canSendMessage off t1 u g db1 s1 = canSendMessage off t1 u g db1 s2).
    { unfold canSendMessage. rewrite Hen1. simpl. rewrite Hb1, Hb2. reflexivity. }
    split; [exact Hb1|]. split; [exact Heq|].
    assert (Hact : forall k, userActivity s2 !! k = userActivity s1 !! k) by reflexivity.
    split.
    + intros a l. unfold canSendMessage. rewrite Hen1. simpl. rewrite Hb1.
      destruct (userActivity (ensureBucket _ _ s2) !! _) as [act|];
        [|simpl; intro; discriminate].
      destruct (_ <=? count act).
      * destruct (blockUser t1 _ _ _ _) as [[[?|?] ?] ?]; simpl; intro; discriminate.
      * destruct (_ && _); simpl; intro; discriminate.
    + intros Hcnt Hg. unfold getUserActivity in Hcnt, Hg.
      unfold canSendMessage. rewrite Hen1. simpl. rewrite Hb1. rewrite Hset.
      unfold ensureBucket. rewrite Hact.
      destruct (userActivity s1 !! (u, startOfHour off t1)) as [act|] eqn:Hk.
      * rewrite Hact, Hk.
        destruct (Z.leb_spec (maxMessagesPerHour (getAntiSpamSettings db)) (count act)); [lia|].
        rewrite bool_decide_eq_false_2 by exact Hg. simpl.
        split; [reflexivity|]. apply lookup_delete_eq.
      * simpl. rewrite lookup_insert_eq. simpl in *.
        destruct (Z.leb_spec (maxMessagesPerHour (getAntiSpamSettings db)) 0); [lia|].
        rewrite bool_decide_eq_false_2 by set_solver. simpl.
        split; [reflexivity|]. apply lookup_delete_eq.
Qed.

(** *** The hourly window under a caller that honours the guard *)

Lemma startOfHour_mono (off a b : Z) :
  a <= b -> startOfHour off a <= startOfHour off b.
Proof.
  intros Hab. unfold startOfHour, msPerHour.
  pose proof (Z.div_le_mono (a + off) (b + off) 3600000 ltac:(lia) ltac:(lia)) as Hd.
  rewrite (Z.mod_eq (a + off) 3600000), (Z.mod_eq (b + off) 3600000) by lia.
  lia.
Qed.

Lemma isUserBlocked_activity (t : Z) (u : string) (s : Service) :
  userActivity (isUserBlocked t u s).2 = userActivity s.
Proof.
  unfold isUserBlocked.
  destruct (blockedUsers s !! u) as [b|]; [|reflexivity].
  destruct (unblockTime b <? t); reflexivity.
Qed.

Lemma ensureBucket_count (k k' : string * Z) (init : Activity) (s : Service) :
  count init = 0 -> bucketCount (ensureBucket k init s) k' = bucketCount s k'.
Proof.
  intros H0. unfold ensureBucket, bucketCount.
  destruct (userActivity s !! k) eqn:Hk; [reflexivity|]. simpl.
  destruct (decide (k = k')) as [->|Hne].
  - rewrite lookup_insert_eq, Hk. exact H0.
  - rewrite lookup_insert_ne by exact Hne. reflexivity.
Qed.

Lemma ensureBucket_keys (k k' : string * Z) (init : Activity) (s : Service) :
  is_Some (userActivity (ensureBucket k init s) !! k') ->
  is_Some (userActivity s !! k') \/ k' = k.
Proof.
  unfold ensureBucket.
  destruct (userActivity s !! k) eqn:Hk; [auto|]. simpl.
  destruct (decide (k = k')) as [->|Hne]; [auto|].
  rewrite lookup_insert_ne by exact Hne. auto.
Qed.

Lemma ensureBucket_present (k : string * Z) (init : Activity) (s : Service) :
  is_Some (userActivity (ensureBucket k init s) !! k).
Proof.
  unfold ensureBucket.
  destruct (userActivity s !! k) eqn:Hk; simpl.
  - rewrite Hk. eauto.
  - rewrite lookup_insert_eq. eauto.
Qed.

Lemma canSendMessage_window (off t : Z) (u g : string) (db : Db) (s : Service)
      (c : Completion Admission) (db1 : Db) (s1 : Service) :
  enabled (getAntiSpamSettings db) = true ->
  canSendMessage off t u g db s = (c, db1, s1) ->
  getAntiSpamSettings db1 = getAntiSpamSettings db /\
  (forall k, bucketCount s1 k = bucketCount s k) /\
  (forall k, is_Some (userActivity s1 !! k) ->
             is_Some (userActivity s !! k) \/ k = (u, startOfHour off t)) /\
  (c = Returned Allowed ->
   bucketCount s1 (u, startOfHour off t) < maxMessagesPerHour (getAntiSpamSettings db)).
Proof.
  intros Hen. unfold canSendMessage. rewrite Hen. simpl.
  pose proof (isUserBlocked_activity t u s) as Hact.
  destruct (isUserBlocked t u s) as [b sb]. simpl in Hact.
  assert (Hcnt : forall k, bucketCount sb k = bucketCount s k).
  { intros k. unfold bucketCount. rewrite Hact. reflexivity. }
  destruct b.
  - destruct (blockedUsers sb !! u); intros [= <- <- <-];
      (split; [reflexivity|]; split; [exact Hcnt|]; split;
       [intros k; rewrite Hact; auto | discriminate]).
  - set (key := (u, startOfHour off t)).
    set (init := {| count := 0; groups := ∅; firstMessage := t;
                    successful := None; failed := None |}).
    assert (Hcnt2 : forall k, bucketCount (ensureBucket key init sb) k = bucketCount s k).
    { intros k. rewrite ensureBucket_count by reflexivity. apply Hcnt. }
    assert (Hkeys : forall k, is_Some (userActivity (ensureBucket key init sb) !! k) ->
                              is_Some (userActivity s !! k) \/ k = key).
    { intros k Hk. apply ensureBucket_keys in Hk. rewrite Hact in Hk. exact Hk. }
    destruct (userActivity (ensureBucket key init sb) !! key) as [act|] eqn:Hlk.
    + destruct (Z.leb_spec (maxMessagesPerHour (getAntiSpamSettings db)) (count act)) as [Hge|Hlt].
      * pose proof (blockUser_spec t u (cooldownMinutes (getAntiSpamSettings db)) db
                      (ensureBucket key init sb)) as [Hs3 Hset3].
        destruct (blockUser t u _ db (ensureBucket key init sb)) as [[c3 db3] s3].
        simpl in Hs3, Hset3.
        assert (Hact3 : userActivity s3 = userActivity (ensureBucket key init sb))
          by (rewrite Hs3; reflexivity).
        destruct c3; intros [= <- <- <-];
          (split; [exact Hset3|]; split;
           [intros k; unfold bucketCount; rewrite Hact3; apply Hcnt2|]; split;
           [intros k; rewrite Hact3; apply Hkeys | discriminate]).
      * destruct (_ && _); intros [= <- <- <-];
          (split; [reflexivity|]; split; [exact Hcnt2|]; split; [exact Hkeys|]).
        -- discriminate.
        -- intros _. unfold bucketCount. rewrite Hlk. exact Hlt.
    + pose proof (ensureBucket_present key init sb) as [x Hx]. congruence.
Qed.

Lemma recordMessageSent_window (off t : Z) (u g : string) (ok : bool)
      (db : Db) (s : Service) :
  getAntiSpamSettings (recordMessageSent off t u g ok db s).1.2 = getAntiSpamSettings db /\
  (forall k, bucketCount (recordMessageSent off t u g ok db s).2 k
             = bucketCount s k
               + (if bool_decide (k = (u, startOfHour off t)) then 1 else 0)) /\
  (forall k, is_Some (userActivity (recordMessageSent off t u g ok db s).2 !! k) ->
             is_Some (userActivity s !! k) \/ k = (u, startOfHour off t)).
Proof.
  unfold recordMessageSent.
  set (key := (u, startOfHour off t)).
  set (init := {| count := 0; groups := ∅; firstMessage := t;
                  successful := Some 0; failed := Some 0 |}).
  pose proof (ensureBucket_present key init s) as [act Hact].
  rewrite Hact.
  pose proof (updateAntiSpamStats_settings u db) as Hset.
  destruct (updateAntiSpamStats u db) as [c db']. simpl in *.
  split; [exact Hset|]. split.
  - intros k. case_bool_decide as Hk.
    + subst k. unfold bucketCount at 1. simpl. rewrite lookup_insert_eq. simpl.
      rewrite <- (ensureBucket_count key key init s) by reflexivity.
      unfold bucketCount. rewrite Hact. reflexivity.
    + unfold bucketCount at 1. simpl. rewrite lookup_insert_ne by congruence.
      fold (bucketCount (ensureBucket key init s) k).
      rewrite ensureBucket_count by reflexivity. lia.
  - intros k. destruct (decide (k = key)) as [->|Hne]; [auto|].
    rewrite lookup_insert_ne by congruence. apply ensureBucket_keys.
Qed.

Lemma recordedInHour_snoc (off : Z) (u : string) (h : Z)
      (log : list (Z * string)) (t : Z) (u' : string) :
  recordedInHour off u h (log ++ [(t, u')])
  = recordedInHour off u h log
    + (if bool_decide ((u, h) = (u', startOfHour off t)) then 1 else 0).
Proof.
  unfold recordedInHour. rewrite List.filter_app, length_app. simpl.
  destruct (decide ((u, h) = (u', startOfHour off t))) as [Hk|Hk].
  - rewrite (bool_decide_eq_true_2 _ Hk). injection Hk as -> ->.
    rewrite bool_decide_eq_true_2 by reflexivity.
    rewrite Z.eqb_refl. simpl. lia.
  - rewrite (bool_decide_eq_false_2 _ Hk).
    destruct (bool_decide (u' = u)) eqn:Hu; simpl; [|lia].
    apply bool_decide_eq_true_1 in Hu. subst u'.
    destruct (_ =? h) eqn:E; [apply Z.eqb_eq in E; congruence|].
    simpl. lia.
Qed.

Lemma cleanupOldData_lookup (off t : Z) (s : Service) (k : string * Z) (a : Activity) :
  userActivity (cleanupOldData off t s) !! k = Some a -> userActivity s !! k = Some a.
Proof.
  unfold cleanupOldData. simpl. intros H.
  apply map_lookup_filter_Some in H as [H _]. exact H.
Qed.

Lemma cleanupOldData_spared (off t : Z) (s : Service) (k : string * Z) :
  removes off t k = false ->
  userActivity (cleanupOldData off t s) !! k = userActivity s !! k.
Proof.
  intros Hr. unfold cleanupOldData. simpl.
  destruct (userActivity s !! k) as [a|] eqn:Hk.
  - apply map_lookup_filter_Some. split; [exact Hk|exact Hr].
  - apply map_lookup_filter_None. left. exact Hk.
Qed.

Lemma cleanupOldData_count (off t : Z) (s : Service) (k : string * Z) :
  bucketCount (cleanupOldData off t s) k = bucketCount s k \/
  bucketCount (cleanupOldData off t s) k = 0.
Proof.
  unfold bucketCount.
  destruct (userActivity (cleanupOldData off t s) !! k) as [a|] eqn:H.
  - apply cleanupOldData_lookup in H. rewrite H. left. reflexivity.
  - right. reflexivity.
Qed.

Lemma takeOut_subset (k x : string * string) (l : list (string * string)) :
  x ∈ takeOut k l -> x ∈ l.
Proof.
  induction l as [|y r IH]; simpl; [auto|].
  destruct (bool_decide (y = k)).
  - intros H. apply elem_of_cons. right. exact H.
  - intros H. apply elem_of_cons in H as [->|H]; apply elem_of_cons; auto.
Qed.

(** The admitted sends of tenant [u] that are not recorded yet. *)
Definition inFlight (u : string) (l : list (string * string)) : list (string * string) :=
  List.filter (fun x => bool_decide (x.1 = u)) l.

Lemma inFlight_none (u : string) (l : list (string * string)) :
  u ∉ l.*1 -> inFlight u l = [].
Proof.
  induction l as [|x r IH]; simpl; [reflexivity|]. intros H.
  apply not_elem_of_cons in H as [Hx Hr].
  rewrite bool_decide_eq_false_2 by congruence. apply IH, Hr.
Qed.

Lemma inFlight_elem (u g : string) (l : list (string * string)) :
  (u, g) ∈ l -> (1 <= length (inFlight u l))%nat.
Proof.
  induction l as [|x r IH]; simpl; intros H.
  - apply elem_of_nil in H. destruct H.
  - apply elem_of_cons in H as [<-|H].
    + simpl. rewrite bool_decide_eq_true_2 by reflexivity. simpl. lia.
    + destruct (bool_decide (x.1 = u)); simpl; [lia|apply IH, H].
Qed.

Lemma inFlight_takeOut_other (u v g : string) (l : list (string * string)) :
  v <> u -> inFlight u (takeOut (v, g) l) = inFlight u l.
Proof.
  intros Hne. induction l as [|x r IH]; simpl; [reflexivity|].
  destruct (decide (x = (v, g))) as [->|Hx].
  - rewrite bool_decide_eq_true_2 by reflexivity. simpl.
    rewrite bool_decide_eq_false_2 by exact Hne. reflexivity.
  - rewrite bool_decide_eq_false_2 by exact Hx. simpl. rewrite IH. reflexivity.
Qed.

Lemma inFlight_takeOut (u g : string) (l : list (string * string)) :
  (u, g) ∈ l ->
  S (length (inFlight u (takeOut (u, g) l))) = length (inFlight u l).
Proof.
  induction l as [|x r IH]; simpl; intros H.
  - apply elem_of_nil in H. destruct H.
  - destruct (decide (x = (u, g))) as [->|Hx].
    + rewrite bool_decide_eq_true_2 by reflexivity. simpl.
      rewrite bool_decide_eq_true_2 by reflexivity. reflexivity.
    + rewrite bool_decide_eq_false_2 by exact Hx.
      apply elem_of_cons in H as [H|H]; [congruence|]. simpl.
      destruct (bool_decide (x.1 = u)); simpl; rewrite <- (IH H); reflexivity.
Qed.

(** What holds between two calls, for a tenant [u] whose sends are made
    one at a time, and for an hour [h] whose window no cleanup removes. *)
Definition windowInvariant (off : Z) (db : Db) (u : string) (h : Z) (last : Z)
           (σ : RunState) : Prop :=
  getAntiSpamSettings (rDb σ) = getAntiSpamSettings db /\
  bucketCount (rSvc σ) (u, h) = recordedInHour off u h (rLog σ) /\
  (forall h', 0 <= bucketCount (rSvc σ) (u, h')
              <= Z.max 0 (maxMessagesPerHour (getAntiSpamSettings db))) /\
  (forall h', is_Some (userActivity (rSvc σ) !! (u, h')) -> h' <= startOfHour off last) /\
  (length (inFlight u (rAdmitted σ)) <= 1)%nat /\
  (forall g h', (u, g) ∈ rAdmitted σ -> startOfHour off last <= h' ->
                bucketCount (rSvc σ) (u, h')
                < maxMessagesPerHour (getAntiSpamSettings db)).

Lemma step_invariant (off : Z) (db : Db) (u : string) (h : Z) (last : Z)
      (σ : RunState) (e : Event) :
  enabled (getAntiSpamSettings db) = true ->
  last <= timeOf e ->
  match e with Record _ v g _ => v = u -> (v, g) ∈ rAdmitted σ | _ => True end ->
  match e with Check _ v _ => v = u -> u ∉ (rAdmitted σ).*1 | _ => True end ->
  match e with Cleanup t => removes off t (u, h) = false | _ => True end ->
  windowInvariant off db u h last σ ->
  windowInvariant off db u h (timeOf e) (step off σ e).
Proof.
  intros Hen Hlast Hadm Hone Hsp (Hset & Hlog & Hrange & Hkeys & Hnd & Hroom).
  pose proof (startOfHour_mono off _ _ Hlast) as Hm.
  destruct e as [t v g | t v g ok | t]; simpl in Hlast, Hm, Hadm, Hone, Hsp |- *.
  - (* canSendMessage *)
    destruct (canSendMessage off t v g (rDb σ) (rSvc σ)) as [[c db1] s1] eqn:Hc.
    apply canSendMessage_window in Hc; [|rewrite Hset; exact Hen].
    destruct Hc as (Hset1 & Hcnt1 & Hkeys1 & Hallow). rewrite Hset in Hallow.
    assert (Hkeys' : forall h', is_Some (userActivity s1 !! (u, h')) ->
                                h' <= startOfHour off t).
    { intros h' Hk. apply Hkeys1 in Hk as [Hk|Hk].
      - apply Hkeys in Hk. lia.
      - injection Hk as _ ->. lia. }
    assert (Hold : forall g' h', (u, g') ∈ rAdmitted σ -> startOfHour off t <= h' ->
                     bucketCount s1 (u, h')
                     < maxMessagesPerHour (getAntiSpamSettings db)).
    { intros g' h' Hin Hh. rewrite Hcnt1. apply (Hroom g'); [exact Hin|lia]. }
    assert (Hrej : windowInvariant off db u h t
                     {| rDb := db1; rSvc := s1; rLog := rLog σ;
                        rAdmitted := rAdmitted σ |}).
    { split; [simpl; rewrite Hset1; exact Hset|].
      split; [simpl; rewrite Hcnt1; exact Hlog|].
      split; [intros k; simpl; rewrite Hcnt1; apply Hrange|].
      split; [exact Hkeys'|]. split; [exact Hnd|exact Hold]. }
    destruct c as [[| | |]|]; try exact Hrej.
    specialize (Hallow eq_refl).
    split; [simpl; rewrite Hset1; exact Hset|].
    split; [simpl; rewrite Hcnt1; exact Hlog|].
    split; [intros k; simpl; rewrite Hcnt1; apply Hrange|].
    split; [exact Hkeys'|].
    destruct (decide (v = u)) as [->|Hne].
    + specialize (Hone eq_refl). split.
      * simpl. rewrite bool_decide_eq_true_2 by reflexivity. simpl.
        rewrite (inFlight_none u _ Hone). simpl. lia.
      * simpl. intros g' h' Hin Hh.
        apply elem_of_cons in Hin as [Heq|Hin]; [|apply (Hold g'); assumption].
        injection Heq as ->.
        destruct (decide (h' = startOfHour off t)) as [->|Hne]; [exact Hallow|].
        assert (Hzero : bucketCount s1 (u, h') = 0).
        { unfold bucketCount.
          destruct (userActivity s1 !! (u, h')) eqn:Hl; [|reflexivity].
          assert (h' <= startOfHour off t) by (apply Hkeys'; eauto). lia. }
        rewrite Hzero.
        pose proof (Hrange (startOfHour off t)) as Hr. rewrite <- Hcnt1 in Hr. lia.
    + split.
      * simpl. rewrite bool_decide_eq_false_2 by exact Hne. exact Hnd.
      * simpl. intros g' h' Hin Hh.
        apply elem_of_cons in Hin as [Heq|Hin]; [congruence|].
        apply (Hold g'); assumption.
  - (* recordMessageSent *)
    pose proof (recordMessageSent_window off t v g ok (rDb σ) (rSvc σ))
      as (Hset2 & Hcnt2 & Hkeys2).
    destruct (recordMessageSent off t v g ok (rDb σ) (rSvc σ)) as [[c2 db2] s2].
    simpl in Hset2, Hcnt2, Hkeys2.
    split; [simpl; rewrite Hset2; exact Hset|]. split.
    { simpl. rewrite Hcnt2, Hlog, recordedInHour_snoc. reflexivity. }
    assert (Hkeys' : forall h', is_Some (userActivity s2 !! (u, h')) ->
                                h' <= startOfHour off t).
    { intros h' Hk. apply Hkeys2 in Hk as [Hk|Hk].
      - apply Hkeys in Hk. lia.
      - injection Hk as _ ->. lia. }
    destruct (decide (v = u)) as [->|Hne].
    + specialize (Hadm eq_refl).
      pose proof (Hroom g (startOfHour off t) Hadm Hm) as Hfree.
      pose proof (inFlight_takeOut u g _ Hadm) as Hone'.
      split.
      { intros h'. simpl. rewrite Hcnt2. pose proof (Hrange h') as Hr.
        case_bool_decide as Hk; [injection Hk as ->|]; lia. }
      split; [exact Hkeys'|]. split; [simpl; lia|].
      simpl. intros g' h' Hin Hh.
      apply inFlight_elem in Hin. lia.
    + split.
      { intros h'. simpl. rewrite Hcnt2.
        rewrite bool_decide_eq_false_2 by congruence. pose proof (Hrange h'). lia. }
      split; [exact Hkeys'|]. split.
      { simpl. rewrite (inFlight_takeOut_other u v g _ Hne). exact Hnd. }
      simpl. intros g' h' Hin Hh. rewrite Hcnt2.
      rewrite bool_decide_eq_false_2 by congruence.
      pose proof (Hroom g' h' (takeOut_subset _ _ _ Hin) ltac:(lia)). lia.
  - (* cleanupOldData *)
    split; [exact Hset|]. split.
    { simpl. unfold bucketCount. rewrite (cleanupOldData_spared off t _ (u, h) Hsp).
      exact Hlog. }
    split.
    { intros h'. simpl. pose proof (Hrange h').
      destruct (cleanupOldData_count off t (rSvc σ) (u, h')) as [-> | ->]; lia. }
    split.
    { simpl. intros h' [a Ha]. apply cleanupOldData_lookup in Ha.
      assert (h' <= startOfHour off last) by (apply Hkeys; eauto). lia. }
    split; [exact Hnd|].
    simpl. intros g h' Hin Hh.
    pose proof (Hroom g h' Hin ltac:(lia)). pose proof (Hrange h').
    destruct (cleanupOldData_count off t (rSvc σ) (u, h')) as [-> | ->]; lia.
Qed.

Lemma run_invariant (off : Z) (db : Db) (u : string) (h : Z) (es : list Event) :
  enabled (getAntiSpamSettings db) = true ->
  forall (last : Z) (σ : RunState),
    honoursGuard off u σ es = true ->
    oneAtATime off u σ es = true ->
    clockAdvances last es = true ->
    spares off (u, h) es = true ->
    windowInvariant off db u h last σ ->
    exists last', windowInvariant off db u h last' (run off σ es).
Proof.
  intros Hen. induction es as [|e r IH]; intros last σ Hg Ho Hc Hs Hinv.
  - exists last. exact Hinv.
  - simpl in Hg, Ho, Hc, Hs.
    apply andb_true_iff in Hg as [Hg1 Hg2]. apply andb_true_iff in Ho as [Ho1 Ho2].
    apply andb_true_iff in Hc as [Hc1 Hc2]. apply andb_true_iff in Hs as [Hs1 Hs2].
    apply Z.leb_le in Hc1.
    apply (IH (timeOf e) (step off σ e) Hg2 Ho2 Hc2 Hs2).
    apply (step_invariant off db u h last); try assumption.
    + destruct e; try exact I. intros ->.
      rewrite bool_decide_eq_true_2 in Hg1 by reflexivity.
      apply bool_decide_eq_true_1 in Hg1. exact Hg1.
    + destruct e; try exact I. intros ->.
      rewrite bool_decide_eq_true_2 in Ho1 by reflexivity.
      apply bool_decide_eq_true_1 in Ho1. exact Ho1.
    + destruct e; try exact I. apply negb_true_iff in Hs1. exact Hs1.
Qed.

(** C1, as the code has it.  With anti-spam enabled, take any sequence of
    calls of [canSendMessage], [recordMessageSent] (of any tenants) and of
    the hourly [cleanupOldData] in which every recorded send of the tenant
    was admitted by a check, the tenant's sends are made one at a time (no
    check for the tenant while an admitted send of theirs is not recorded
    yet), the clock does not go back, and no cleanup removes the tenant's
    window of the clock hour [h].  Then the recorded sends of the tenant
    in that clock hour are never more than [maxMessagesPerHour] (none at
    all when the ceiling is not positive), and their number is the [count]
    of the tenant's window for the hour. *)
Theorem hourly_window_never_exceeds_ceiling
        (off t0 : Z) (db : Db) (es : list Event) (u : string) (h : Z) :
  enabled (getAntiSpamSettings db) = true ->
  honoursGuard off u (start db) es = true ->
  oneAtATime off u (start db) es = true ->
  clockAdvances t0 es = true ->
  spares off (u, h) es = true ->
  let σ := run off (start db) es in
  recordedInHour off u h (rLog σ) = bucketCount (rSvc σ) (u, h) /\
  recordedInHour off u h (rLog σ)
  <= Z.max 0 (maxMessagesPerHour (getAntiSpamSettings db)).
Proof.
  intros Hen Hg Ho Hc Hs σ.
  destruct (run_invariant off db u h es Hen t0 (start db) Hg Ho Hc Hs)
    as (last' & _ & Hlog & Hle & _).
  { split; [reflexivity|]. split; [reflexivity|]. split; [|split; [|split]]; simpl.
    - intros h'. unfold bucketCount. simpl. rewrite lookup_empty. lia.
    - intros h' [x Hx]. rewrite lookup_empty in Hx. discriminate.
    - lia.
    - intros g h' Hin. apply elem_of_nil in Hin. destruct Hin. }
  fold σ in Hlog, Hle. rewrite <- Hlog.
  split; [reflexivity|apply Hle].
Qed.

Lemma hourly_window_never_exceeds_ceiling_witness :
  recordedInHour 0 "u1" tenOClock (rLog (run 0 (start (settingsDb true 2 60)) sparedByCleanup))
  = bucketCount (rSvc (run 0 (start (settingsDb true 2 60)) sparedByCleanup))
                ("u1", tenOClock) /\
  recordedInHour 0 "u1" tenOClock (rLog (run 0 (start (settingsDb true 2 60)) sparedByCleanup))
  <= Z.max 0 2.
Proof.
  apply (hourly_window_never_exceeds_ceiling 0 0 (settingsDb true 2 60) sparedByCleanup
           "u1" tenOClock).
  - reflexivity.
  - vm_compute. reflexivity.
  - vm_compute. reflexivity.
  - vm_compute. reflexivity.
  - vm_compute. reflexivity.
Defined.

(** C1 as the specification words it, refuted, and what each condition of
    the theorem above is there for.  Every run below records only admitted
    sends.
    - The guard counts per clock hour: four sends made one after the other
      fall within one second around the turn of the hour, so a rolling
      60-minute window holds four of them under a ceiling of two.
    - With the guard disabled nothing is bounded.
    - Two sends of a tenant under way at once are both admitted on the
      count of before, and one clock hour holds two under a ceiling of one.
    - The hourly cleanup takes what follows the first hyphen of a key for
      the hour; for a tenant whose uuid continues with text that sorts
      below the cutoff it removes the window of the current hour, and four
      sends made one after the other fall in one clock hour under a ceiling
      of two.
    - When the clock is set back between a check and its record, the
      record lands in an hour that is already full. *)
Lemma ceiling_is_exceeded_otherwise :
  (honoursGuard 0 "u1" (start (settingsDb true 2 60)) burst = true /\
   oneAtATime 0 "u1" (start (settingsDb true 2 60)) burst = true /\
   clockAdvances 0 burst = true /\
   maxMessagesPerHour (getAntiSpamSettings (settingsDb true 2 60))
   < recordedInWindow "u1" 3599000 (rLog (run 0 (start (settingsDb true 2 60)) burst))) /\
  (honoursGuard 0 "u1" (start sampleDisabledDb) burst = true /\
   oneAtATime 0 "u1" (start sampleDisabledDb) burst = true /\
   clockAdvances 0 burst = true /\
   spares 0 ("u1", 0) burst = true /\
   maxMessagesPerHour (getAntiSpamSettings sampleDisabledDb)
   < recordedInHour 0 "u1" 0 (rLog (run 0 (start sampleDisabledDb) burst))) /\
  (honoursGuard 0 "u1" (start (settingsDb true 1 60)) overlapping = true /\
   oneAtATime 0 "u1" (start (settingsDb true 1 60)) overlapping = false /\
   clockAdvances 0 overlapping = true /\
   spares 0 ("u1", 0) overlapping = true /\
   recordedInHour 0 "u1" 0 (rLog (run 0 (start (settingsDb true 1 60)) overlapping)) = 2) /\
  (honoursGuard 0 uuidTenant (start (settingsDb true 2 60)) acrossCleanup = true /\
   oneAtATime 0 uuidTenant (start (settingsDb true 2 60)) acrossCleanup = true /\
   clockAdvances 0 acrossCleanup = true /\
   spares 0 (uuidTenant, tenOClock) acrossCleanup = false /\
   recordedInHour 0 uuidTenant tenOClock
     (rLog (run 0 (start (settingsDb true 2 60)) acrossCleanup)) = 4 /\
   bucketCount (rSvc (run 0 (start (settingsDb true 2 60)) acrossCleanup))
     (uuidTenant, tenOClock) = 2) /\
  (honoursGuard 0 "u1" (start (settingsDb true 1 60)) clockSetBack = true /\
   oneAtATime 0 "u1" (start (settingsDb true 1 60)) clockSetBack = true /\
   clockAdvances 0 clockSetBack = false /\
   spares 0 ("u1", 0) clockSetBack = true /\
   recordedInHour 0 "u1" 0 (rLog (run 0 (start (settingsDb true 1 60)) clockSetBack)) = 2).
Proof.
  vm_compute. repeat split; reflexivity.
Qed.

Lemma block_expires_lazily_witness :
  let db1 := (blockUser 0 "u1" 60 defaultDb fresh).1.2 in
  let s1 := (blockUser 0 "u1" 60 defaultDb fresh).2 in
  canSendMessage 0 1000 "u1" "g1" db1 s1
  = (Returned (DeniedBlocked 3600000 (Minutos 59)), db1, s1) /\
  (canSendMessage 0 3600001 "u1" "g1" db1 s1).1.1 = Returned Allowed /\
  blockedUsers (canSendMessage 0 3600001 "u1" "g1" db1 s1).2 !! "u1" = None.
Proof.
  intros db1 s1.
  destruct (block_expires_lazily 0 0 60 "u1" "g1" defaultDb fresh eq_refl) as [Ha Hb].
  split.
  - apply (Ha 1000). vm_compute. discriminate.
  - destruct (Hb 3600001) as (_ & _ & _ & Hd).
    + vm_compute. reflexivity.
    + apply Hd.
      * vm_compute. reflexivity.
      * vm_compute. set_solver.
Defined.

(** C7 as the specification words it, refuted.  A tenant blocked for one
    minute is denied as blocked at once; one millisecond after
    [unblockTime] the record is gone, yet the answer is not [Allowed]: the
    group was targeted a minute ago, so the check denies with
    [duplicate_group].  A tenant whose hour is already full is not
    admitted either: the check blocks them anew (and raises, the
    statistics slot being a string by then).  And with the guard disabled
    the check right after [blockUser] answers [Allowed]. *)
Lemma expired_block_not_always_allowed :
  let db1 := (blockUser 1000 "u1" 1 defaultDb oneSentToG1).1.2 in
  let s1 := (blockUser 1000 "u1" 1 defaultDb oneSentToG1).2 in
  (canSendMessage 0 1000 "u1" "g1" db1 s1).1.1
  = Returned (DeniedBlocked 61000 (Minutos 1)) /\
  (canSendMessage 0 61001 "u1" "g1" db1 s1).1.1 = Returned DeniedDuplicateGroup /\
  blockedUsers (canSendMessage 0 61001 "u1" "g1" db1 s1).2 !! "u1" = None /\
  let db2 := (blockUser 1000 "u1" 1 (settingsDb true 1 1) oneSentToG1).1.2 in
  let s2 := (blockUser 1000 "u1" 1 (settingsDb true 1 1) oneSentToG1).2 in
  (canSendMessage 0 61001 "u1" "g2" db2 s2).1.1 = Thrown "TypeError" /\
  (unblockTime <$> blockedUsers (canSendMessage 0 61001 "u1" "g2" db2 s2).2 !! "u1")
  = Some 121001 /\
  let db3 := (blockUser 1000 "u1" 1 sampleDisabledDb fresh).1.2 in
  let s3 := (blockUser 1000 "u1" 1 sampleDisabledDb fresh).2 in
  (canSendMessage 0 1000 "u1" "g1" db3 s3).1.1 = Returned Allowed.
Proof.
  vm_compute. repeat split; reflexivity.
Qed.

End AntiSpamProps.


(** ** Dispatcher *)

Module DispatchProps.
Import Samples.

Lemma js_loop_accounting (p : Platform) (s : WhatsApp.Service) (u : string)
      (ad : Database.Ad) (gs : list string) :
  forall (i : nat) (res r : Results) (tr : list Effect),
    WhatsApp.broadcastLoop p s u ad i gs res = (Returned r, tr) ->
    total r = total res /\
    sent r + failed r = sent res + failed res + Z.of_nat (length gs).
Proof.
  induction gs as [|g rest IH]; intros i res r tr H; simpl in H.
  - injection H as <- _. simpl. lia.
  - destruct (WhatsApp.sendAd p _ u ad i g) as [[sr|e] t1]; [|discriminate].
    destruct (WhatsApp.broadcastLoop p s u ad (S i) rest _) as [c t2] eqn:Hrec.
    injection H as -> _.
    apply IH in Hrec as [Ht Hs]. rewrite Ht, Hs.
    destruct (success sr); simpl; split; try reflexivity; lia.
Qed.

Lemma part3_loop_accounting (p : Platform) (s : WhatsApp.Service) (u : string)
      (ad : Database.Ad) (gs : list string) :
  forall (i : nat) (res : Results),
    let r := (WhatsAppPart3.broadcastLoop p s u ad i gs res).1 in
    total r = total res /\
    sent r + failed r = sent res + failed res + Z.of_nat (length gs).
Proof.
  induction gs as [|g rest IH]; intros i res; simpl.
  - lia.
  - destruct (WhatsAppPart3.sendAd p _ u ad i g) as [sr t1].
    match goal with
    | |- context [WhatsAppPart3.broadcastLoop p s u ad (S i) rest ?x] =>
        specialize (IH (S i) x);
        destruct (WhatsAppPart3.broadcastLoop p s u ad (S i) rest x) as [r' t2]
    end.
    simpl in *. destruct IH as [Ht Hs]. rewrite Ht, Hs.
    destruct (success sr); simpl; split; try reflexivity; lia.
Qed.

(** C5.  Whenever [broadcastAd] returns a result (it was not rejected at
    the connection test and did not raise), [sent + failed = total] and
    [total] is the number of groups listed in the campaign; in both
    revisions of the dispatcher. *)
Theorem dispatch_result_is_accounted
        (p : Platform) (s : WhatsApp.Service) (u : string)
        (ad : Database.Ad) (r : Results) :
  (WhatsApp.broadcastAd p s u ad).1 = Returned r \/
  (WhatsAppPart3.broadcastAd p s u ad).1 = Returned r ->
  sent r + failed r = total r /\
  total r = Z.of_nat (length (Database.groups ad)).
Proof.
  intros [H|H].
  - unfold WhatsApp.broadcastAd in H.
    destruct (negb (WhatsApp.isUserConnected s u)); [discriminate|].
    destruct (WhatsApp.broadcastLoop p s u ad 0 (Database.groups ad) _)
      as [[r'|e] tr] eqn:Hl; [|discriminate].
    simpl in H. injection H as ->.
    apply js_loop_accounting in Hl as [Ht Hs]. simpl in *. lia.
  - unfold WhatsAppPart3.broadcastAd in H.
    destruct (negb (WhatsAppPart3.isUserConnected s u)); [discriminate|].
    pose proof (part3_loop_accounting p s u ad (Database.groups ad) 0%nat
                  {| total := Z.of_nat (length (Database.groups ad));
                     sent := 0; failed := 0; errors := [] |}) as Hl.
    destruct (WhatsAppPart3.broadcastLoop p s u ad 0 (Database.groups ad) _) as [r' tr].
    simpl in H, Hl. injection H as ->. lia.
Qed.

Lemma dispatch_result_is_accounted_witness :
  sent {| total := 3; sent := 2; failed := 1; errors := [("g2", Some "not-authorized")] |}
  + failed {| total := 3; sent := 2; failed := 1; errors := [("g2", Some "not-authorized")] |}
  = total {| total := 3; sent := 2; failed := 1; errors := [("g2", Some "not-authorized")] |}
  /\ total {| total := 3; sent := 2; failed := 1; errors := [("g2", Some "not-authorized")] |}
     = Z.of_nat (length (Database.groups (campaign None "once"))).
Proof.
  apply (dispatch_result_is_accounted rejectsG2 liveService "u1" (campaign None "once")).
  left. vm_compute. reflexivity.
Defined.

Lemma attempted_app (a b : list Effect) : attempted (a ++ b) = attempted a ++ attempted b.
Proof.
  induction a as [|[] a IH]; simpl; rewrite ?IH; reflexivity.
Qed.

Lemma part3_sendAd_attempted (p : Platform) (s : WhatsApp.Service) (u : string)
      (ad : Database.Ad) (i : nat) (g : string) :
  attempted (WhatsAppPart3.sendAd p s u ad i g).2 = [g].
Proof.
  unfold WhatsAppPart3.sendAd.
  destruct (negb _); [reflexivity|].
  destruct (match Database.imagePath ad with Some _ => _ | None => _ end); [reflexivity|].
  destruct (sendRejects p i g); reflexivity.
Qed.

Lemma part3_loop_attempted (p : Platform) (s : WhatsApp.Service) (u : string)
      (ad : Database.Ad) (gs : list string) :
  forall (i : nat) (res : Results),
    attempted (WhatsAppPart3.broadcastLoop p s u ad i gs res).2 = gs.
Proof.
  induction gs as [|g rest IH]; intros i res; simpl; [reflexivity|].
  pose proof (part3_sendAd_attempted p (WhatsApp.tableAt p s u i) u ad i g) as Hs.
  destruct (WhatsAppPart3.sendAd p _ u ad i g) as [sr t1].
  match goal with
  | |- context [WhatsAppPart3.broadcastLoop p s u ad (S i) rest ?x] =>
      specialize (IH (S i) x);
      destruct (WhatsAppPart3.broadcastLoop p s u ad (S i) rest x) as [r' t2]
  end.
  simpl in *. rewrite attempted_app, Hs. simpl. rewrite IH. reflexivity.
Qed.

(** The configured revision (part_003) does what C8 says: with a live
    session it returns a result, having called [sendAd] once for each
    listed group, in the listed order, whatever the platform does. *)
Theorem part3_attempts_every_group
        (p : Platform) (s : WhatsApp.Service) (u : string) (ad : Database.Ad) :
  WhatsAppPart3.isUserConnected s u = true ->
  exists r tr,
    WhatsAppPart3.broadcastAd p s u ad = (Returned r, tr) /\
    attempted tr = Database.groups ad /\
    sent r + failed r = Z.of_nat (length (Database.groups ad)).
Proof.
  intros Hc. unfold WhatsAppPart3.broadcastAd. rewrite Hc. simpl.
  pose proof (part3_loop_attempted p s u ad (Database.groups ad) 0%nat
                {| total := Z.of_nat (length (Database.groups ad));
                   sent := 0; failed := 0; errors := [] |}) as Ha.
  pose proof (part3_loop_accounting p s u ad (Database.groups ad) 0%nat
                {| total := Z.of_nat (length (Database.groups ad));
                   sent := 0; failed := 0; errors := [] |}) as Hacc.
  destruct (WhatsAppPart3.broadcastLoop p s u ad 0 (Database.groups ad) _) as [r tr].
  simpl in *. exists r, (tr ++ [Emit u "ad-broadcast-result"]).
  split; [reflexivity|]. split; [|lia].
  rewrite attempted_app, Ha. simpl. apply app_nil_r.
Qed.

(** C8, on whatsappService.js.  The tenant's session is live and the
    campaign lists three groups, but the uploaded image cannot be decoded:
    [sendAd] raises before its [try], [broadcastAd] has no [try] around
    the call, and the dispatch ends with the exception after one call of
    [sendAd] and no call of [sock.sendMessage]; "g2" and "g3" are never
    attempted.  The configured revision attempts and transmits all three
    on the same input. *)
Lemma js_dispatch_abandons_remaining_groups :
  WhatsApp.isUserConnected liveService "u1" = true /\
  WhatsApp.broadcastAd badImage liveService "u1" (campaign (Some "uploads/u1/ad.jpg") "once")
  = (Thrown "Input file contains unsupported image format", [CallSendAd "g1"]) /\
  transmitted (WhatsAppPart3.broadcastAd badImage liveService "u1"
                 (campaign (Some "uploads/u1/ad.jpg") "once")).2
  = ["g1"; "g2"; "g3"].
Proof.
  vm_compute. repeat split; reflexivity.
Qed.

(** *** The dispatcher and the rate guard *)

Lemma cronCallback_leaves_guard_alone
      (now : Z) (api : Scheduler.WhatsAppApi) (p : Platform)
      (σ : Server.State) (adId : string) :
  Server.antiSpam (Server.cronCallback now api p σ adId).1 = Server.antiSpam σ /\
  Database.userStats (Server.db (Server.cronCallback now api p σ adId).1)
  = Database.userStats (Server.db σ).
Proof.
  unfold Server.cronCallback.
  destruct (Scheduler.scheduledTasks (Server.scheduler σ) !! adId) as [task|];
    [|split; reflexivity].
  unfold Scheduler.executeAd.
  destruct (negb _).
  - simpl. split; [reflexivity|].
    unfold Database.updateAdStats. destruct (Database.getAd _ _); reflexivity.
  - destruct (Scheduler.apiBroadcastAd _ _ _ _ _) as [[r|e] tr]; simpl;
      (split; [reflexivity|]);
      unfold Database.updateAdStats; destruct (Database.getAd _ _); reflexivity.
Qed.

(** C2, on the code.  The tenant is connected and the rate guard holds a
    block on them that has 59 minutes to run, so [validateBroadcast]
    rejects the batch; the cron callback that dispatches the campaign
    transmits to all three groups all the same, the guard's windows hold
    no recorded send afterwards and its state is what it was. *)
Lemma dispatch_bypasses_rate_guard :
  (AntiSpam.validateBroadcast 0 1000 "u1" ["g1"; "g2"; "g3"]
     (Server.db blockedTenantServer) (Server.antiSpam blockedTenantServer)).1
  = AntiSpam.InvalidUserBlocked (AntiSpam.Minutos 59) /\
  transmitted (Server.cronCallback 1000 Scheduler.whatsappJs rejectsG2
                 blockedTenantServer "ad1").2
  = ["g1"; "g2"; "g3"] /\
  Server.antiSpam (Server.cronCallback 1000 Scheduler.whatsappJs rejectsG2
                     blockedTenantServer "ad1").1
  = Server.antiSpam blockedTenantServer /\
  AntiSpam.bucketCount
    (Server.antiSpam (Server.cronCallback 1000 Scheduler.whatsappJs rejectsG2
                        blockedTenantServer "ad1").1) ("u1", 0)
  = 0.
Proof.
  vm_compute. repeat split; reflexivity.
Qed.

(** *** Dispatch without a session *)

Lemma getAd_replaceFirst (adId : string) (f : Database.Ad -> Database.Ad)
      (l : list Database.Ad) (a : Database.Ad) :
  (forall x, Database.id (f x) = Database.id x) ->
  List.find (fun x => bool_decide (Database.id x = adId)) l = Some a ->
  List.find (fun x => bool_decide (Database.id x = adId)) (Database.replaceFirst adId f l)
  = Some (f a).
Proof.
  intros Hid. induction l as [|x r IH]; simpl; [discriminate|].
  destruct (bool_decide (Database.id x = adId)) eqn:Hx.
  - intros [= ->]. simpl. rewrite Hid, Hx. reflexivity.
  - intros H. simpl. rewrite Hx. apply IH, H.
Qed.

(** C3, as the code has it.  When the campaign's tenant has no live
    session, [broadcastAd] (either revision) raises "WhatsApp não
    conectado" without any effect instead of returning a result.
    [executeAd], which tests the session first, raises nothing, makes no
    send attempt and returns no result; if the campaign is stored, its
    [failed] statistic becomes the captured value plus the number of
    target groups, [sent] is kept and [lastSent] is set. *)
Theorem dispatch_without_session
        (now : Z) (p : Platform) (w : WhatsApp.Service)
        (db : Database.Db) (ad : Database.Ad) :
  WhatsApp.isUserConnected w (Database.userId ad) = false ->
  let n := Z.of_nat (length (Database.groups ad)) in
  WhatsApp.broadcastAd p w (Database.userId ad) ad = (Thrown notConnected, []) /\
  WhatsAppPart3.broadcastAd p w (Database.userId ad) ad = (Thrown notConnected, []) /\
  (forall api, api = Scheduler.whatsappJs \/ api = Scheduler.whatsappPart3 ->
     exists db',
       Scheduler.executeAd now api p w db ad = (Returned tt, db', []) /\
       forall stored, Database.getAd db (Database.id ad) = Some stored ->
         Database.stats <$> Database.getAd db' (Database.id ad)
         = Some (Some {| Database.sent := Scheduler.statSent stored;
                         Database.failed := Scheduler.statFailed ad + n;
                         Database.lastSent := Some now |})).
Proof.
  intros Hc n.
  split; [unfold WhatsApp.broadcastAd; rewrite Hc; reflexivity|].
  split; [unfold WhatsAppPart3.broadcastAd;
          change (WhatsAppPart3.isUserConnected w (Database.userId ad))
            with (WhatsApp.isUserConnected w (Database.userId ad));
          rewrite Hc; reflexivity|].
  intros api Hapi.
  assert (Hn : Scheduler.apiIsUserConnected api w (Database.userId ad) = false).
  { destruct Hapi as [-> | ->]; exact Hc. }
  unfold Scheduler.executeAd. rewrite Hn. simpl.
  eexists. split; [reflexivity|].
  intros stored Hst. unfold Database.updateAdStats. rewrite Hst.
  unfold Database.getAd in *. simpl.
  rewrite (getAd_replaceFirst _ _ _ stored) by (reflexivity || exact Hst).
  simpl. unfold Database.mergeStats, Scheduler.statSent.
  destruct (Database.stats stored); reflexivity.
Qed.

Lemma dispatch_without_session_witness :
  WhatsApp.broadcastAd rejectsG2 noSession "u1" (campaign None "once")
  = (Thrown notConnected, []) /\
  WhatsAppPart3.broadcastAd rejectsG2 noSession "u1" (campaign None "once")
  = (Thrown notConnected, []) /\
  exists db',
    Scheduler.executeAd 1000 Scheduler.whatsappJs rejectsG2 noSession
      (Server.db blockedTenantServer) (campaign None "once")
    = (Returned tt, db', []) /\
    Database.stats <$> Database.getAd db' "ad1"
    = Some (Some {| Database.sent := 0; Database.failed := 3;
                    Database.lastSent := Some 1000 |}).
Proof.
  destruct (dispatch_without_session 1000 rejectsG2 noSession
              (Server.db blockedTenantServer) (campaign None "once") eq_refl)
    as (Hjs & Hp3 & Hex).
  split; [exact Hjs|]. split; [exact Hp3|].
  destruct (Hex Scheduler.whatsappJs (or_introl eq_refl)) as (db' & Hrun & Hstats).
  exists db'. split; [exact Hrun|].
  apply (Hstats (campaign None "once")). reflexivity.
Defined.

(** C3 as the specification words it, refuted: for a tenant without a
    session the dispatcher returns no result with [total], [sent = 0] and
    [failed = total]; [broadcastAd] raises, in both revisions. *)
Lemma no_result_without_session :
  WhatsApp.isUserConnected noSession "u1" = false /\
  (forall r, (WhatsApp.broadcastAd rejectsG2 noSession "u1" (campaign None "once")).1
             <> Returned r) /\
  (forall r, (WhatsAppPart3.broadcastAd rejectsG2 noSession "u1" (campaign None "once")).1
             <> Returned r).
Proof.
  split; [reflexivity|]. split; intros r; vm_compute; discriminate.
Qed.

End DispatchProps.


(** ** Calendar *)

Module CalendarProps.
Import Calendar.

Lemma isValid_spec (m : Moment) :
  isValid m = true <->
  0 <= year m /\ 1 <= monthOfYear m <= 12 /\
  1 <= date m <= daysInMonth (year m) (monthOfYear m) /\
  0 <= hour m <= 23 /\ 0 <= minute m <= 59.
Proof.
  unfold isValid. rewrite !andb_true_iff, !Z.leb_le. tauto.
Qed.

Lemma month_cases (mo : Z) :
  1 <= mo <= 12 ->
  mo = 1 \/ mo = 2 \/ mo = 3 \/ mo = 4 \/ mo = 5 \/ mo = 6 \/
  mo = 7 \/ mo = 8 \/ mo = 9 \/ mo = 10 \/ mo = 11 \/ mo = 12.
Proof. lia. Qed.

Lemma daysInMonth_bounds (y mo : Z) :
  1 <= mo <= 12 -> 28 <= daysInMonth y mo <= 31.
Proof.
  intros H. destruct (month_cases mo H) as [->|[->|[->|[->|[->|[->|[->|[->|[->|[->|[->| ->]]]]]]]]]]];
    simpl; try lia.
  destruct (isLeapYear y); lia.
Qed.

Lemma daysBeforeYear_succ (y : Z) :
  daysBeforeYear (y + 1) = daysBeforeYear y + (if isLeapYear y then 366 else 365).
Proof.
  unfold daysBeforeYear, isLeapYear.
  replace (y + 1 - 1) with y by lia.
  destruct (Z.eqb_spec (y `mod` 4) 0) as [H4|H4];
    destruct (Z.eqb_spec (y `mod` 100) 0) as [H100|H100];
    destruct (Z.eqb_spec (y `mod` 400) 0) as [H400|H400];
    simpl; Z.div_mod_to_equations; lia.
Qed.

Lemma daysBeforeMonth_succ (y mo : Z) :
  1 <= mo < 12 ->
  daysBeforeMonth y (mo + 1) = daysBeforeMonth y mo + daysInMonth y mo.
Proof.
  intros H.
  destruct (month_cases mo ltac:(lia))
    as [->|[->|[->|[->|[->|[->|[->|[->|[->|[->|[->| ->]]]]]]]]]]];
    try lia; unfold daysBeforeMonth, daysInMonth; simpl;
    destruct (isLeapYear y); simpl; lia.
Qed.

Lemma daysBeforeMonth_december (y : Z) :
  daysBeforeMonth y 12 + 31 = if isLeapYear y then 366 else 365.
Proof. unfold daysBeforeMonth. simpl. destruct (isLeapYear y); simpl; lia. Qed.

Lemma daysBeforeMonth_january (y : Z) : daysBeforeMonth y 1 = 0.
Proof.
  unfold daysBeforeMonth. change (2 <? 1) with false.
  rewrite andb_false_r. reflexivity.
Qed.

(** The next calendar day is one day later. *)
Lemma addDay_days (m : Moment) :
  isValid m = true ->
  daysFromEpoch (year (addDay m)) (monthOfYear (addDay m)) (date (addDay m))
  = daysFromEpoch (year m) (monthOfYear m) (date m) + 1.
Proof.
  intros Hv. apply isValid_spec in Hv as (Hy & Hmo & Hd & _).
  unfold addDay, daysFromEpoch.
  destruct (Z.ltb_spec (date m) (daysInMonth (year m) (monthOfYear m))) as [Hlt|Hge]; simpl.
  - lia.
  - assert (Hlast : date m = daysInMonth (year m) (monthOfYear m)) by lia.
    destruct (Z.ltb_spec (monthOfYear m) 12) as [Hm|Hm]; simpl.
    + rewrite daysBeforeMonth_succ by lia. lia.
    + assert (Hdec : monthOfYear m = 12) by lia.
      rewrite Hdec in *. simpl in Hlast.
      rewrite daysBeforeYear_succ.
      pose proof (daysBeforeMonth_december (year m)).
      rewrite daysBeforeMonth_january.
      destruct (isLeapYear (year m)); lia.
Qed.

Lemma addDay_valid (m : Moment) : isValid m = true -> isValid (addDay m) = true.
Proof.
  intros Hv. apply isValid_spec in Hv as (Hy & Hmo & Hd & Hh & Hmi).
  apply isValid_spec. unfold addDay.
  destruct (Z.ltb_spec (date m) (daysInMonth (year m) (monthOfYear m))) as [Hlt|Hge]; simpl.
  - lia.
  - destruct (Z.ltb_spec (monthOfYear m) 12) as [Hm|Hm]; simpl.
    + pose proof (daysInMonth_bounds (year m) (monthOfYear m + 1) ltac:(lia)). lia.
    + lia.
Qed.

Lemma addDay_clock (m : Moment) :
  hour (addDay m) = hour m /\ minute (addDay m) = minute m.
Proof.
  unfold addDay. destruct (_ <? _); [|destruct (_ <? _)]; simpl; auto.
Qed.

Lemma addDay_valueOf (m : Moment) :
  isValid m = true -> valueOf (addDay m) = valueOf m + msPerDay.
Proof.
  intros Hv. unfold valueOf. rewrite (addDay_days m Hv).
  destruct (addDay_clock m) as [-> ->]. unfold msPerDay, msPerMinute. lia.
Qed.

Lemma iter_addDay (n : nat) (m : Moment) :
  isValid m = true ->
  isValid (Nat.iter n addDay m) = true /\
  valueOf (Nat.iter n addDay m) = valueOf m + Z.of_nat n * msPerDay /\
  daysFromEpoch (year (Nat.iter n addDay m)) (monthOfYear (Nat.iter n addDay m))
                (date (Nat.iter n addDay m))
  = daysFromEpoch (year m) (monthOfYear m) (date m) + Z.of_nat n.
Proof.
  intros Hv. induction n as [|n (IHv & IHt & IHd)]; simpl.
  - repeat split; try assumption; lia.
  - split; [apply addDay_valid, IHv|]. split.
    + rewrite addDay_valueOf by exact IHv. rewrite IHt. lia.
    + rewrite addDay_days by exact IHv. rewrite IHd. lia.
Qed.

(** A week later is the same day of the week. *)
Lemma addWeek_day (m : Moment) : isValid m = true -> day (addWeek m) = day m.
Proof.
  intros Hv. unfold day, addWeek.
  destruct (iter_addDay 7 m Hv) as (_ & _ & ->).
  replace (daysFromEpoch (year m) (monthOfYear m) (date m) + Z.of_nat 7 + 4)
    with (daysFromEpoch (year m) (monthOfYear m) (date m) + 4 + 1 * 7) by lia.
  apply Z.mod_add. lia.
Qed.

Lemma addMonth_valid (m : Moment) : isValid m = true -> isValid (addMonth m) = true.
Proof.
  intros Hv. apply isValid_spec in Hv as (Hy & Hmo & Hd & Hh & Hmi).
  apply isValid_spec. unfold addMonth.
  destruct (Z.ltb_spec (monthOfYear m) 12) as [Hm|Hm]; simpl.
  - pose proof (daysInMonth_bounds (year m) (monthOfYear m + 1) ltac:(lia)). lia.
  - pose proof (daysInMonth_bounds (year m + 1) 1 ltac:(lia)). lia.
Qed.

Lemma addMonth_days (m : Moment) :
  isValid m = true ->
  daysFromEpoch (year m) (monthOfYear m) (date m) + 1
  <= daysFromEpoch (year (addMonth m)) (monthOfYear (addMonth m)) (date (addMonth m)).
Proof.
  intros Hv. apply isValid_spec in Hv as (Hy & Hmo & Hd & _).
  unfold addMonth, daysFromEpoch.
  destruct (Z.ltb_spec (monthOfYear m) 12) as [Hm|Hm]; simpl.
  - rewrite daysBeforeMonth_succ by lia.
    pose proof (daysInMonth_bounds (year m) (monthOfYear m + 1) ltac:(lia)). lia.
  - assert (Hdec : monthOfYear m = 12) by lia. rewrite Hdec in *.
    rewrite daysBeforeYear_succ.
    pose proof (daysBeforeMonth_december (year m)).
    simpl in Hd. rewrite daysBeforeMonth_january.
    destruct (isLeapYear (year m)); lia.
Qed.

Lemma addYear_valid (m : Moment) : isValid m = true -> isValid (addYear m) = true.
Proof.
  intros Hv. apply isValid_spec in Hv as (Hy & Hmo & Hd & Hh & Hmi).
  apply isValid_spec. unfold addYear. simpl.
  pose proof (daysInMonth_bounds (year m + 1) (monthOfYear m) Hmo). lia.
Qed.

Lemma daysBeforeMonth_leap_shift (y y' mo : Z) :
  1 <= mo <= 12 -> daysBeforeMonth y mo - 1 <= daysBeforeMonth y' mo.
Proof.
  intros H. unfold daysBeforeMonth.
  destruct (isLeapYear y && (2 <? mo)), (isLeapYear y' && (2 <? mo)); lia.
Qed.

Lemma addYear_days (m : Moment) :
  isValid m = true ->
  daysFromEpoch (year m) (monthOfYear m) (date m) + 1
  <= daysFromEpoch (year (addYear m)) (monthOfYear (addYear m)) (date (addYear m)).
Proof.
  intros Hv. apply isValid_spec in Hv as (Hy & Hmo & Hd & _).
  unfold addYear, daysFromEpoch. simpl.
  rewrite daysBeforeYear_succ.
  pose proof (daysBeforeMonth_leap_shift (year m) (year m + 1) (monthOfYear m) Hmo).
  pose proof (daysInMonth_bounds (year m) (monthOfYear m) Hmo).
  pose proof (daysInMonth_bounds (year m + 1) (monthOfYear m) Hmo).
  destruct (isLeapYear (year m)); lia.
Qed.

Lemma addOne_valid (r : Recurrence) (m : Moment) :
  isValid m = true -> isValid (addOne r m) = true.
Proof.
  intros Hv. destruct r; simpl.
  - apply addDay_valid, Hv.
  - apply (iter_addDay 7 m Hv).
  - apply addMonth_valid, Hv.
  - apply addYear_valid, Hv.
Qed.

(** Every unit moves the instant forward by a day at least. *)
Lemma addOne_forward (r : Recurrence) (m : Moment) :
  isValid m = true -> valueOf m + msPerDay <= valueOf (addOne r m).
Proof.
  intros Hv. destruct r; simpl.
  - rewrite addDay_valueOf by exact Hv. lia.
  - unfold addWeek. destruct (iter_addDay 7 m Hv) as (_ & -> & _).
    unfold msPerDay. lia.
  - pose proof (addMonth_days m Hv). unfold valueOf, addMonth in *. simpl in *.
    unfold msPerDay, msPerMinute. lia.
  - pose proof (addYear_days m Hv). unfold valueOf, addYear in *. simpl in *.
    unfold msPerDay, msPerMinute. lia.
Qed.

End CalendarProps.


(** ** Scheduler *)

Module SchedulerProps.
Import Calendar Scheduler CalendarProps Samples.

Lemma iter_shift {A : Type} (f : A -> A) (k : nat) (x : A) :
  Nat.iter k f (f x) = Nat.iter (S k) f x.
Proof. induction k as [|k IH]; simpl; [reflexivity|]. rewrite IH. reflexivity. Qed.

Lemma iter_addOne_valid (r : Recurrence) (k : nat) (m : Moment) :
  isValid m = true -> isValid (Nat.iter k (addOne r) m) = true.
Proof.
  intros Hv. induction k as [|k IH]; simpl; [exact Hv|]. apply addOne_valid, IH.
Qed.

(** The loop ends within the bound, at the first moment of the sequence
    anchor, anchor + 1 unit, anchor + 2 units, ... that is not before now. *)
Lemma advance_total (r : Recurrence) (now : Z) (fuel : nat) :
  forall m : Moment,
    isValid m = true ->
    now <= valueOf m + Z.of_nat fuel * msPerDay ->
    exists k : nat,
      advance fuel r m now = Some (Nat.iter k (addOne r) m) /\
      now <= valueOf (Nat.iter k (addOne r) m) /\
      forall j : nat, (j < k)%nat -> valueOf (Nat.iter j (addOne r) m) < now.
Proof.
  induction fuel as [|f IH]; intros m Hv Hb.
  - exists 0%nat. simpl. unfold isBefore.
    destruct (Z.ltb_spec (valueOf m) now) as [Hlt|Hge]; [lia|].
    split; [reflexivity|]. split; [exact Hge|]. intros j Hj. lia.
  - simpl. unfold isBefore.
    destruct (Z.ltb_spec (valueOf m) now) as [Hlt|Hge].
    + pose proof (addOne_forward r m Hv) as Hf.
      destruct (IH (addOne r m) (addOne_valid r m Hv)) as (k & Hk & Hnow & Hprev);
        [lia|].
      exists (S k). rewrite <- iter_shift. split; [exact Hk|]. split; [exact Hnow|].
      intros [|j] Hj; simpl.
      * exact Hlt.
      * change (addOne r (Nat.iter j (addOne r) m)) with (Nat.iter (S j) (addOne r) m).
        rewrite <- iter_shift. apply Hprev. lia.
    + exists 0%nat. split; [reflexivity|]. split; [exact Hge|]. intros j Hj. lia.
Qed.

Lemma loopBound_enough (m : Moment) (now : Z) :
  now <= valueOf m + Z.of_nat (loopBound m now) * msPerDay.
Proof.
  unfold loopBound, msPerDay.
  destruct (Z.le_gt_cases 0 ((now - valueOf m) / 86400000 + 1)) as [Hp|Hn].
  - rewrite Z2Nat.id by exact Hp. Z.div_mod_to_equations. lia.
  - rewrite Z2Nat.nonpos by lia. Z.div_mod_to_equations. lia.
Qed.

Lemma addOne_is_one_unit (r : Recurrence) (m : Moment) :
  isValid m = true -> advancedByOneUnit r m (addOne r m).
Proof.
  intros Hv. unfold advancedByOneUnit. destruct r; simpl.
  - destruct (addDay_clock m) as [Hh Hmi]. split; [exact Hh|]. split; [exact Hmi|].
    apply addDay_valueOf, Hv.
  - assert (Hclock : forall n, hour (Nat.iter n addDay m) = hour m /\
                               minute (Nat.iter n addDay m) = minute m).
    { induction n as [|n [IHh IHm]]; simpl; [auto|].
      destruct (addDay_clock (Nat.iter n addDay m)) as [-> ->]. auto. }
    destruct (Hclock 7%nat) as [Hh Hmi]. split; [exact Hh|]. split; [exact Hmi|].
    split; [|apply addWeek_day, Hv].
    unfold addWeek. destruct (iter_addDay 7 m Hv) as (_ & -> & _). lia.
  - split; [reflexivity|]. split; [reflexivity|].
    apply isValid_spec in Hv as (_ & Hmo & _).
    destruct (Z.ltb_spec (monthOfYear m) 12); split; try reflexivity; lia.
  - repeat split; reflexivity.
Qed.

(** X23.  What getNextExecutionTime computes.  For a registered, stored campaign
    with a valid anchor and a recurrence, it returns the anchor advanced by
    a whole number [k] of recurrence units, each advance being exactly one
    unit (one day; one week, same weekday; one month, day clamped to the
    month's length; one year), where every earlier member of the sequence
    is before now (those occurrences are skipped, not returned) and the
    result is not; just after the anchor fired ([anchor < now <= anchor +
    1 unit]) that is exactly one unit past the anchor. *)
Theorem next_execution_is_anchor_advanced
        (now : Z) (s : Service) (db : Database.Db) (adId : string)
        (ad : Database.Ad) (d : Z * Z * Z) (t : Z * Z) (r : Recurrence) :
  is_Some (scheduledTasks s !! adId) ->
  Database.getAd db adId = Some ad ->
  Database.scheduleDate ad = Some d ->
  Database.scheduleTime ad = Some t ->
  isValid (parseSchedule d t) = true ->
  recurrenceOf (Database.repeat ad) = Some r ->
  let anchor := parseSchedule d t in
  exists k : nat,
    getNextExecutionTime now s db adId
    = NextAt (valueOf (Nat.iter k (addOne r) anchor)) /\
    now <= valueOf (Nat.iter k (addOne r) anchor) /\
    (forall j : nat, (j < k)%nat ->
       valueOf (Nat.iter j (addOne r) anchor) < now /\
       advancedByOneUnit r (Nat.iter j (addOne r) anchor)
                           (Nat.iter (S j) (addOne r) anchor)) /\
    (valueOf anchor < now <= valueOf (addOne r anchor) -> k = 1%nat).
Proof.
  intros [task Htask] Had Hd Ht Hv Hr anchor. subst anchor.
  set (anchor := parseSchedule d t) in *.
  destruct (advance_total r now (loopBound anchor now) anchor Hv (loopBound_enough anchor now))
    as (k & Hadv & Hnow & Hprev).
  exists k. split; [|split; [exact Hnow|split]].
  - unfold getNextExecutionTime. rewrite Htask, Had, Hd, Ht.
    fold anchor. rewrite Hv. simpl. rewrite Hr, Hadv. reflexivity.
  - intros j Hj. split; [apply Hprev, Hj|].
    apply addOne_is_one_unit, iter_addOne_valid, Hv.
  - intros [Hlo Hhi].
    destruct k as [|[|k]]; [simpl in Hnow; lia|reflexivity|].
    specialize (Hprev 1%nat ltac:(lia)). simpl in Hprev. lia.
Qed.

Lemma next_execution_is_anchor_advanced_witness :
  valueOf anchor2025 = 1735736400000 /\
  getNextExecutionTime (valueOf anchor2025 + 30000) dailyScheduler dailyDb "ad1"
  = NextAt (valueOf nextDay2025).
Proof.
  split; [reflexivity|].
  destruct (next_execution_is_anchor_advanced (valueOf anchor2025 + 30000)
              dailyScheduler dailyDb "ad1" (campaign None "daily")
              (2025, 1, 1) (10, 0) Daily)
    as (k & Hres & _ & _ & Hone).
  - vm_compute. eauto.
  - reflexivity.
  - reflexivity.
  - reflexivity.
  - reflexivity.
  - reflexivity.
  - rewrite (Hone ltac:(vm_compute; split; [reflexivity|discriminate])) in Hres. exact Hres.
Defined.

(** *** The timer against the next execution

    getNextExecutionTime computes the occurrences; what runs the campaign
    is the cron expression scheduleAd registered. *)

Lemma iter_addDay_clock (n : nat) (m : Moment) :
  hour (Nat.iter n addDay m) = hour m /\ minute (Nat.iter n addDay m) = minute m.
Proof.
  induction n as [|n [IHh IHm]]; simpl; [auto|].
  destruct (addDay_clock (Nat.iter n addDay m)) as [-> ->]. auto.
Qed.

(** For a daily and for a weekly campaign the two agree: the timer runs at
    every occurrence getNextExecutionTime counts. *)
Lemma daily_and_weekly_timers_run_at_every_occurrence
      (repeat : string) (r : Recurrence) (anchor : Moment) (k : nat) :
  isValid anchor = true ->
  recurrenceOf repeat = Some r ->
  r = Daily \/ r = Weekly ->
  cronMatches (cronFor repeat anchor) (Nat.iter k (addOne r) anchor) = true.
Proof.
  intros Hv Hr [-> | ->].
  - change (Nat.iter k (addOne Daily) anchor) with (Nat.iter k addDay anchor).
    unfold cronMatches, cronFor. rewrite Hr. simpl.
    destruct (iter_addDay_clock k anchor) as [-> ->].
    rewrite !Z.eqb_refl. reflexivity.
  - change (Nat.iter k (addOne Weekly) anchor) with (Nat.iter k addWeek anchor).
    unfold cronMatches, cronFor. rewrite Hr. simpl.
    assert (H : hour (Nat.iter k addWeek anchor) = hour anchor /\
                minute (Nat.iter k addWeek anchor) = minute anchor /\
                day (Nat.iter k addWeek anchor) = day anchor /\
                isValid (Nat.iter k addWeek anchor) = true).
    { induction k as [|k (IHh & IHm & IHd & IHv)]; [simpl; auto|].
      change (Nat.iter (S k) addWeek anchor) with (addWeek (Nat.iter k addWeek anchor)).
      set (x := Nat.iter k addWeek anchor) in *.
      destruct (iter_addDay_clock 7 x) as [Hh7 Hm7].
      split; [unfold addWeek; rewrite Hh7; exact IHh|].
      split; [unfold addWeek; rewrite Hm7; exact IHm|].
      split; [rewrite (addWeek_day x IHv); exact IHd|].
      unfold addWeek. exact (proj1 (iter_addDay 7 x IHv)). }
    destruct H as (-> & -> & -> & _). rewrite !Z.eqb_refl. reflexivity.
Qed.

(** The timer of a monthly campaign runs on the anchor's day of the month
    only, so in no month that lacks that day. *)
Lemma monthly_timer_keeps_the_day (repeat : string) (anchor m : Moment) :
  recurrenceOf repeat = Some Monthly ->
  isValid m = true ->
  cronMatches (cronFor repeat anchor) m = true ->
  date m = date anchor /\ date anchor <= daysInMonth (year m) (monthOfYear m).
Proof.
  intros Hr Hv. unfold cronMatches, cronFor. rewrite Hr. simpl.
  rewrite !andb_true_r. intros H.
  apply andb_true_iff in H as [_ H]. apply Z.eqb_eq in H.
  apply isValid_spec in Hv as (_ & _ & Hd & _). lia.
Qed.

(** C6, on the code.  The monthly campaign anchored on 2025-01-31 10:00 is
    registered with the expression [0 10 31 * *].  Once the anchor has
    fired, getNextExecutionTime gives 2025-02-28 10:00, the anchor advanced
    by one month with the day clamped, as the claim says; the timer runs
    at no minute of February 2025 and next on 2025-03-31 10:00.  And the
    daily campaign anchored at 2025-01-01 10:00, when the process restarts
    on 5 January at 09:00: with the timer of before the restart the next
    execution is 5 January 10:00, the anchor advanced until it is not in
    the past; the restart registers no timer for the campaign, its fire
    time being in the past, and getNextExecutionTime gives [null]. *)
Theorem timer_does_not_follow_the_next_execution :
  (cronExpression <$> scheduledTasks monthEndScheduler !! "ad2"
   = Some {| cronMinute := 0; cronHour := 10; cronDayOfMonth := Some 31;
             cronMonth := None; cronDayOfWeek := None |} /\
   getNextExecutionTime (valueOf jan31 + 30000) monthEndScheduler monthEndDb "ad2"
   = NextAt (valueOf feb28) /\
   advancedByOneUnit Monthly jan31 feb28 /\
   (forall task m,
      scheduledTasks monthEndScheduler !! "ad2" = Some task ->
      isValid m = true -> year m = 2025 -> monthOfYear m = 2 ->
      cronMatches (cronExpression task) m = false) /\
   (forall task,
      scheduledTasks monthEndScheduler !! "ad2" = Some task ->
      cronMatches (cronExpression task) mar31 = true)) /\
  (getNextExecutionTime jan5morning dailyScheduler dailyDb "ad1" = NextAt (valueOf jan5) /\
   scheduledTasks (rescheduleExistingAds jan5morning fresh dailyDb).1 !! "ad1" = None /\
   getNextExecutionTime jan5morning (rescheduleExistingAds jan5morning fresh dailyDb).1
     dailyDb "ad1" = NoExecution).
Proof.
  split; [|vm_compute; repeat split; reflexivity].
  split; [vm_compute; reflexivity|]. split; [vm_compute; reflexivity|].
  split; [vm_compute; repeat split; reflexivity|]. split.
  - intros task m Htask Hv Hy Hmo.
    assert (Hc : cronExpression task = cronFor "monthly" jan31).
    { vm_compute in Htask. injection Htask as <-. reflexivity. }
    rewrite Hc. destruct (cronMatches (cronFor "monthly" jan31) m) eqn:Hm; [|reflexivity].
    destruct (monthly_timer_keeps_the_day "monthly" jan31 m eq_refl Hv Hm) as [_ Hd].
    rewrite Hy, Hmo in Hd. vm_compute in Hd. exfalso. apply Hd. reflexivity.
  - intros task Htask. vm_compute in Htask. injection Htask as <-. reflexivity.
Qed.

(** *** Registration *)

(** C4, as the code has it.  For a campaign whose date or time is missing,
    or does not parse to a valid moment, or whose fire time (date and time
    combined in America/Sao_Paulo) is before the current instant,
    [scheduleAd] creates no entry and leaves the registry as it was; it
    does so silently, returning normally like a successful registration
    and at most writing a log line.  [validateSchedule] is the function
    that reports such a schedule, as [{ valid: false, error }].  A valid
    fire time at or after the current instant is registered. *)
Theorem unschedulable_campaign_is_skipped
        (now : Z) (s : Service) (ad : Database.Ad) :
  (Database.scheduleDate ad = None \/ Database.scheduleTime ad = None \/
   exists d t, Database.scheduleDate ad = Some d /\ Database.scheduleTime ad = Some t /\
               (isValid (parseSchedule d t) = false \/ valueOf (parseSchedule d t) < now)) ->
  (scheduleAd now s ad).1.1 = Returned tt /\
  (scheduleAd now s ad).1.2 = s /\
  (exists error, validateSchedule now (Database.scheduleDate ad) (Database.scheduleTime ad)
                 = ScheduleInvalid error) /\
  (forall s' ad' d t,
     Database.scheduleDate ad' = Some d -> Database.scheduleTime ad' = Some t ->
     isValid (parseSchedule d t) = true -> now <= valueOf (parseSchedule d t) ->
     (scheduleAd now s' ad').1.1 = Returned tt /\
     nextExecution <$> scheduledTasks (scheduleAd now s' ad').1.2 !! Database.id ad'
     = Some (valueOf (parseSchedule d t))).
Proof.
  intros H. unfold scheduleAd, validateSchedule.
  split; [|split; [|split]].
  - destruct (Database.scheduleDate ad) as [d|], (Database.scheduleTime ad) as [t|];
      try reflexivity.
    destruct (negb _); [reflexivity|]. destruct (isBefore _ _); [reflexivity|].
    destruct (cancelScheduledAd _ _). reflexivity.
  - destruct H as [-> | [H | (d & t & -> & -> & H)]].
    + reflexivity.
    + rewrite H. destruct (Database.scheduleDate ad); reflexivity.
    + destruct H as [H|H].
      * rewrite H. reflexivity.
      * destruct (negb _); [reflexivity|]. unfold isBefore.
        destruct (Z.ltb_spec (valueOf (parseSchedule d t)) now); [reflexivity|lia].
  - destruct H as [-> | [H | (d & t & -> & -> & H)]].
    + eauto.
    + rewrite H. destruct (Database.scheduleDate ad); eauto.
    + destruct H as [H|H].
      * rewrite H. simpl. eauto.
      * destruct (negb _); [eauto|]. unfold isBefore.
        destruct (Z.ltb_spec (valueOf (parseSchedule d t)) now); [eauto|lia].
  - intros s' ad' d t Hd Ht Hv Hle. rewrite Hd, Ht, Hv. simpl. unfold isBefore.
    destruct (Z.ltb_spec (valueOf (parseSchedule d t)) now); [lia|].
    destruct (cancelScheduledAd s' (Database.id ad')) as [s1 l1]. simpl.
    split; [reflexivity|]. rewrite lookup_insert_eq. reflexivity.
Qed.

Lemma unschedulable_campaign_is_skipped_witness :
  (scheduleAd (valueOf anchor2025 + 1) dailyScheduler (campaign None "once")).1.1
  = Returned tt /\
  (scheduleAd (valueOf anchor2025 + 1) dailyScheduler (campaign None "once")).1.2
  = dailyScheduler /\
  validateSchedule (valueOf anchor2025 + 1) (Some (2025, 1, 1)) (Some (10, 0))
  = ScheduleInvalid "Não é possível agendar para o passado".
Proof.
  destruct (unschedulable_campaign_is_skipped (valueOf anchor2025 + 1) dailyScheduler
              (campaign None "once")) as (Hret & Hsame & _ & _).
  - right. right. exists (2025, 1, 1), (10, 0).
    split; [reflexivity|]. split; [reflexivity|]. right. vm_compute. reflexivity.
  - split; [exact Hret|]. split; [exact Hsame|]. reflexivity.
Defined.

(** C4 as the specification words it, refuted.  Registering a one-shot
    campaign one millisecond after its fire time is not rejected: the call
    returns normally, exactly as it does for a campaign it registers, with
    only a warning in the log.  And a fire time equal to the current
    instant, which is not strictly in the future, gets an entry. *)
Lemma past_campaign_is_not_rejected :
  scheduleAd (valueOf anchor2025 + 1) fresh (campaign None "once")
  = (Returned tt, fresh, [WarnPast "ad1"]) /\
  (scheduleAd 0 fresh (campaign None "once")).1.1 = Returned tt /\
  nextExecution <$> scheduledTasks
    (scheduleAd (valueOf anchor2025) fresh (campaign None "once")).1.2 !! "ad1"
  = Some (valueOf anchor2025).
Proof.
  vm_compute. repeat split; reflexivity.
Qed.

(** The time [24:00] is a valid schedule: it is read as 00:00 of the next
    day, and the timer is registered for that minute.  Any later time of
    day, and [24:00] on a date that does not exist, is invalid. *)
Example midnight_that_ends_the_day_is_registered :
  parseSchedule (2025, 1, 1) (24, 0) = jan2midnight /\
  validateSchedule 0 (Database.scheduleDate endOfDay) (Database.scheduleTime endOfDay) = ScheduleValid /\
  (scheduleAd 0 fresh endOfDay).2
  = [LogScheduling "ad3" {| cronMinute := 0; cronHour := 0; cronDayOfMonth := Some 2;
                            cronMonth := Some 1; cronDayOfWeek := None |}] /\
  nextExecution <$> scheduledTasks (scheduleAd 0 fresh endOfDay).1.2 !! "ad3"
  = Some (valueOf jan2midnight) /\
  parseSchedule (2025, 12, 31) (24, 0)
  = {| year := 2026; monthOfYear := 1; date := 1; hour := 0; minute := 0 |} /\
  validateSchedule 0 (Some (2025, 1, 1)) (Some (24, 1))
  = ScheduleInvalid "Data/hora inválida" /\
  validateSchedule 0 (Some (2025, 1, 1)) (Some (25, 0))
  = ScheduleInvalid "Data/hora inválida" /\
  validateSchedule 0 (Some (2025, 2, 30)) (Some (24, 0))
  = ScheduleInvalid "Data/hora inválida".
Proof.
  vm_compute. repeat split; reflexivity.
Qed.

End SchedulerProps.


(** ** Session lifecycle *)

Module SessionProps.
Import WhatsApp.

(** Events after which the claim of no reconnection can be expected to
    hold for tenant [u]: no explicit connect for [u], and every loss of
    [u]'s connection is classified terminal (logged out or forbidden). *)
Definition quietFor (u : string) (e : Event) : Prop :=
  match e with
  | Connect v => v <> u
  | Close v code => v = u -> code = Some loggedOut \/ code = Some forbidden
  | _ => True
  end.

Lemma removeOne_absent (u : string) (l : list string) :
  u ∉ l -> removeOne u l = None.
Proof.
  induction l as [|x r IH]; intros Hn; simpl; [reflexivity|].
  rewrite bool_decide_eq_false_2 by (intros ->; apply Hn; left).
  rewrite IH; [reflexivity|]. intros Hin. apply Hn. right. exact Hin.
Qed.

Lemma removeOne_subset (v u : string) (l l' : list string) :
  removeOne v l = Some l' -> u ∈ l' -> u ∈ l.
Proof.
  revert l'. induction l as [|x r IH]; intros l'; simpl; [discriminate|].
  case_bool_decide.
  - intros [= ->] Hin. right. exact Hin.
  - destruct (removeOne v r) as [r'|]; [|discriminate]. simpl.
    intros [= <-] Hin. apply elem_of_cons in Hin as [->|Hin]; [left|right].
    apply (IH r' eq_refl Hin).
Qed.

Lemma connectUser_effects (s : Service) (v : string) :
  timers (connectUser s v).1.2 = timers s /\
  ((connectUser s v).2 = [] \/ (connectUser s v).2 = [MakeSocket v (nextSock s)]).
Proof.
  unfold connectUser.
  destruct (match connections s !! v with Some _ => _ | None => _ end); simpl; auto.
Qed.

(** disconnectUser on a tenant whose connection holds a socket, when the
    logout goes through: the tenant is reported disconnected and the
    pending timers are what they were. *)
Lemma disconnect_reports_disconnected (s : Service) (u : string) (c : Conn) (k : Sock) :
  connections s !! u = Some c -> sock c = Some k ->
  isUserConnected (disconnectUser s u false).1.2 u = false /\
  connections (disconnectUser s u false).1.2 !! u = None /\
  timers (disconnectUser s u false).1.2 = timers s.
Proof.
  intros Hc Hk. unfold disconnectUser. rewrite Hc.
  destruct c as [sk cn]. simpl in Hk. subst sk. simpl.
  unfold isUserConnected. simpl. rewrite lookup_delete_eq. auto.
Qed.

(** The part of C9 the code keeps: from a state with no reconnect timer
    pending for [u], no sequence of events without an explicit connect of
    [u] and with only terminal losses for [u] creates a socket for [u]. *)
Theorem no_reconnect_without_pending_timer (u : string) (es : list Event) :
  forall s : Service,
    u ∉ timers s ->
    Forall (quietFor u) es ->
    (u ∉ timers (steps s es).1) /\
    (forall sid, MakeSocket u sid ∉ (steps s es).2).
Proof.
  induction es as [|e r IH]; intros s Hn Hq.
  - simpl. split; [exact Hn|]. intros sid Hin. inversion Hin.
  - inversion Hq as [|? ? He Hr]; subst.
    assert (Hstep : (u ∉ timers (step s e).1) /\
                    (forall sid, MakeSocket u sid ∉ (step s e).2)).
    { destruct e as [v|v rej|v qr|v sid'|v code|v rs|v]; simpl in *.
      - pose proof (connectUser_effects s v) as [Ht Htr].
        destruct (connectUser s v) as [[q s'] tr]. simpl in *. rewrite Ht.
        split; [exact Hn|]. intros sid Hin.
        destruct Htr as [-> | ->]; [inversion Hin|].
        apply list_elem_of_singleton in Hin. congruence.
      - unfold disconnectUser.
        destruct (connections s !! v) as [[[k|] cn]|]; simpl;
          try (split; [exact Hn|]; intros sid Hin; inversion Hin).
        destruct rej; simpl; (split; [exact Hn|]); intros sid Hin;
          repeat (apply elem_of_cons in Hin as [Hin|Hin]; [discriminate|]);
          inversion Hin.
      - split; [exact Hn|]. intros sid Hin.
        apply list_elem_of_singleton in Hin. discriminate.
      - split; [exact Hn|]. intros sid Hin.
        apply list_elem_of_singleton in Hin. discriminate.
      - destruct (decide (v = u)) as [->|Hne].
        + destruct (He eq_refl) as [-> | ->]; simpl;
            (split; [exact Hn|]); intros sid Hin;
            apply list_elem_of_singleton in Hin; discriminate.
        + split.
          * destruct (negb _ && negb _); [|exact Hn].
            intros Hin. apply elem_of_app in Hin as [Hin|Hin]; [exact (Hn Hin)|].
            apply list_elem_of_singleton in Hin. congruence.
          * intros sid Hin. apply elem_of_cons in Hin as [Hin|Hin]; [discriminate|].
            destruct (negb _ && negb _); [|inversion Hin].
            apply list_elem_of_singleton in Hin. discriminate.
      - split; [exact Hn|]. intros sid Hin. inversion Hin.
      - destruct (removeOne v (timers s)) as [rest|] eqn:Hrm.
        + assert (Hvu : v <> u).
          { intros ->. rewrite removeOne_absent in Hrm by exact Hn. discriminate. }
          match goal with
          | |- context [connectUser ?s0 v] =>
              pose proof (connectUser_effects s0 v) as [Ht Htr];
              destruct (connectUser s0 v) as [[q s'] tr]
          end.
          simpl in *. rewrite Ht. split.
          * intros Hin. apply Hn. apply (removeOne_subset v u _ rest Hrm Hin).
          * intros sid Hin. destruct Htr as [-> | ->]; [inversion Hin|].
            apply list_elem_of_singleton in Hin. congruence.
        + simpl. split; [exact Hn|]. intros sid Hin. inversion Hin. }
    destruct Hstep as [Hn1 Htr1]. simpl.
    destruct (step s e) as [s1 t1]. simpl in *.
    specialize (IH s1 Hn1 Hr).
    destruct (steps s1 r) as [s2 t2]. simpl in *.
    destruct IH as [Hn2 Htr2]. split; [exact Hn2|].
    intros sid Hin. apply elem_of_app in Hin as [Hin|Hin].
    + exact (Htr1 sid Hin).
    + exact (Htr2 sid Hin).
Qed.

(** C9, on whatsappService.js.  The tenant's connection drops with a
    recoverable status (408), so the close handler removes the connection
    and arms a reconnect timer.  The tenant then disconnects: there is no
    connection to log out, [disconnectUser] completes without touching
    the timer, and the tenant is reported disconnected.  When the timer
    fires, with no connect request in between, [connectUser] opens a new
    socket for the tenant. *)
Lemma pending_reconnect_survives_disconnect :
  let dropped := (steps (fresh 5000)
                    [Connect "u1"; Open "u1" 0; Close "u1" (Some 408)]).1 in
  let disconnected := (step dropped (Disconnect "u1" false)).1 in
  timers dropped = ["u1"] /\
  (step dropped (Disconnect "u1" false)).2 = [] /\
  isUserConnected disconnected "u1" = false /\
  (step disconnected (TimerFires "u1")).2 = [MakeSocket "u1" 1] /\
  (sock <$> connections (step disconnected (TimerFires "u1")).1 !! "u1")
  = Some (Some {| sockId := 1; readyState := 0 |}).
Proof.
  vm_compute. repeat split; reflexivity.
Qed.

End SessionProps.


(** * Further properties of the code *)

(** ** Rate guard *)

Module AntiSpamExtra.
Import Database AntiSpam Observations.

Arguments startOfHour : simpl never.




Lemma recordMessageSent_effect (off t : Z) (u g : string) (ok : bool)
      (db : Db) (s : Service) :
  let r := recordMessageSent off t u g ok db s in
  getAntiSpamSettings r.1.2 = getAntiSpamSettings db /\
  blockedUsers r.2 = blockedUsers s /\
  (forall k, bucketCount r.2 k
             = bucketCount s k + (if bool_decide (k = (u, startOfHour off t)) then 1 else 0)) /\
  (forall k, bucketGroups r.2 k
             = if bool_decide (k = (u, startOfHour off t))
               then bucketGroups s k ∪ {[ g ]} else bucketGroups s k).
Proof.
  unfold recordMessageSent.
  set (key := (u, startOfHour off t)).
  set (init := {| count := 0; groups := ∅; firstMessage := t;
                  successful := Some 0; failed := Some 0 |}).
  assert (Hens : exists act, userActivity (ensureBucket key init s) !! key = Some act /\
                 count act = bucketCount s key /\ groups act = bucketGroups s key /\
                 blockedUsers (ensureBucket key init s) = blockedUsers s /\
                 forall k, k <> key ->
                   userActivity (ensureBucket key init s) !! k = userActivity s !! k).
  { unfold ensureBucket, bucketCount, bucketGroups.
    destruct (userActivity s !! key) as [a|] eqn:Hk.
    - exists a. rewrite Hk. auto.
    - exists init. simpl. rewrite lookup_insert_eq.
      repeat split; try reflexivity.
      intros k Hne. rewrite lookup_insert_ne by congruence. reflexivity. }
  destruct Hens as (act & Hact & Hc & Hgr & Hbl & Hother).
  rewrite Hact.
  pose proof (AntiSpamProps.updateAntiSpamStats_settings u db) as Hset.
  destruct (updateAntiSpamStats u db) as [c db']. simpl in *.
  split; [exact Hset|]. split; [exact Hbl|]. split.
  - intros k. unfold bucketCount at 1. simpl. case_bool_decide as Hk.
    + subst k. rewrite lookup_insert_eq. simpl. lia.
    + rewrite lookup_insert_ne by congruence. rewrite Hother by exact Hk.
      unfold bucketCount. lia.
  - intros k. unfold bucketGroups at 1. simpl. case_bool_decide as Hk.
    + subst k. rewrite lookup_insert_eq. simpl. rewrite Hgr. reflexivity.
    + rewrite lookup_insert_ne by congruence. rewrite Hother by exact Hk.
      reflexivity.
Qed.








(** A batch of three for a tenant with a uuid, validated and sent within
    one clock hour, with the hourly cleanup between the second and the
    third send: all three are admitted and recorded, and the window holds
    one of them at the end. *)
Example cleanup_between_sends_resets_the_window :
  validateBroadcast 0 Samples.tenOClock Samples.uuidTenant ["g1"; "g2"; "g3"]
    Samples.defaultDb fresh = (Valid, fresh) /\
  length (rLog (run 0 (start Samples.defaultDb)
                  (batchEvents Samples.uuidTenant ["g1"; "g2"; "g3"]
                     [([], Samples.tenOClock + 1000, Samples.tenOClock + 1500);
                      ([], Samples.tenOClock + 3000, Samples.tenOClock + 3500);
                      ([Samples.tenOClock + 4000],
                       Samples.tenOClock + 5000, Samples.tenOClock + 5500)])))
  = 3%nat /\
  bucketCount (rSvc (run 0 (start Samples.defaultDb)
                       (batchEvents Samples.uuidTenant ["g1"; "g2"; "g3"]
                          [([], Samples.tenOClock + 1000, Samples.tenOClock + 1500);
                           ([], Samples.tenOClock + 3000, Samples.tenOClock + 3500);
                           ([Samples.tenOClock + 4000],
                            Samples.tenOClock + 5000, Samples.tenOClock + 5500)])))
              (Samples.uuidTenant, Samples.tenOClock)
  = 1.
Proof. vm_compute. repeat split; reflexivity. Qed.

(** X2.  validateBroadcast only reads the windows: whatever it answers, it
    creates no window and changes none, and it stores no block record (the
    only change it can make is to drop the tenant's expired one).  When it
    rejects for the rate limit, the number it reports is the room left in
    the tenant's current hour, which is smaller than the batch. *)
Theorem validateBroadcast_only_reads
        (off t : Z) (u : string) (targets : list string) (db : Db) (s : Service) :
  userActivity (validateBroadcast off t u targets db s).2 = userActivity s /\
  (forall v b, blockedUsers (validateBroadcast off t u targets db s).2 !! v = Some b ->
               blockedUsers s !! v = Some b) /\
  (forall k, (validateBroadcast off t u targets db s).1 = InvalidRateLimit k ->
             k = maxMessagesPerHour (getAntiSpamSettings db)
                 - bucketCount s (u, startOfHour off t) /\
             k < Z.of_nat (length targets)).
Proof.
  unfold validateBroadcast.
  destruct (negb (enabled (getAntiSpamSettings db))); simpl.
  { split; [reflexivity|]. split; [auto|]. intros k H. discriminate. }
  pose proof (AntiSpamProps.isUserBlocked_activity t u s) as Hact.
  assert (Hbl : forall v b, blockedUsers (isUserBlocked t u s).2 !! v = Some b ->
                            blockedUsers s !! v = Some b).
  { unfold isUserBlocked. destruct (blockedUsers s !! u) as [b0|]; [|auto].
    destruct (unblockTime b0 <? t); simpl; [|auto].
    intros v b Hv. destruct (decide (u = v)) as [->|Hne].
    - rewrite lookup_delete_eq in Hv. discriminate.
    - rewrite lookup_delete_ne in Hv by exact Hne. exact Hv. }
  destruct (isUserBlocked t u s) as [b sb]. simpl in Hact, Hbl.
  destruct b; simpl.
  { split; [exact Hact|]. split; [exact Hbl|]. intros k H. discriminate. }
  assert (Hc : count (getUserActivity off t u sb) = bucketCount s (u, startOfHour off t)).
  { unfold getUserActivity, bucketCount. rewrite Hact.
    destruct (userActivity s !! _); reflexivity. }
  rewrite Hc.
  destruct (Z.ltb_spec (maxMessagesPerHour (getAntiSpamSettings db)
                        - bucketCount s (u, startOfHour off t))
                       (Z.of_nat (length targets))) as [Hlt|Hge]; simpl.
  { split; [exact Hact|]. split; [exact Hbl|]. intros k [= <-]. split; [reflexivity|lia]. }
  destruct (0 <? _); simpl;
    (split; [exact Hact|]; split; [exact Hbl|]; intros k H; discriminate).
Qed.

Lemma blocked_is_denied (off t : Z) (u g : string) (db : Db) (s : Service) (b : BlockInfo) :
  enabled (getAntiSpamSettings db) = true ->
  blockedUsers s !! u = Some b ->
  t <= unblockTime b ->
  canSendMessage off t u g db s
  = (Returned (DeniedBlocked (unblockTime b)
                 (formatTimeLeft (Z.quot (unblockTime b - t) msPerMinute))), db, s).
Proof.
  intros Hen Hb Ht. unfold canSendMessage. rewrite Hen. simpl.
  unfold isUserBlocked. rewrite Hb.
  destruct (Z.ltb_spec (unblockTime b) t); [lia|].
  rewrite Hb. unfold getTimeUntilUnblock. rewrite Hb. reflexivity.
Qed.

(** X3.  A check made when the tenant's current hour has reached the
    ceiling never admits: it stores a block record that runs for
    [cooldownMinutes] from that instant, and every later check up to the
    end of the cooldown is denied as blocked, for every group and also in a
    later clock hour whose window is still empty. *)
Theorem ceiling_hit_blocks_for_cooldown
        (off now : Z) (u g : string) (db : Db) (s : Service) :
  enabled (getAntiSpamSettings db) = true ->
  (isUserBlocked now u s).1 = false ->
  maxMessagesPerHour (getAntiSpamSettings db) <= bucketCount s (u, startOfHour off now) ->
  let r := canSendMessage off now u g db s in
  let until := now + cooldownMinutes (getAntiSpamSettings db) * msPerMinute in
  r.1.1 <> Returned Allowed /\
  blockedUsers r.2 !! u
  = Some {| blockedAt := now; unblockTime := until; reason := "rate_limit" |} /\
  (forall t1 g', t1 <= until ->
     (canSendMessage off t1 u g' r.1.2 r.2).1.1
     = Returned (DeniedBlocked until (formatTimeLeft (Z.quot (until - t1) msPerMinute)))).
Proof.
  intros Hen Hnb Hfull r until.
  assert (Hr : blockedUsers r.2 !! u
               = Some {| blockedAt := now; unblockTime := until; reason := "rate_limit" |} /\
               r.1.1 <> Returned Allowed /\
               getAntiSpamSettings r.1.2 = getAntiSpamSettings db).
  { subst r. unfold canSendMessage. rewrite Hen. simpl.
    pose proof (AntiSpamProps.isUserBlocked_activity now u s) as Hact.
    destruct (isUserBlocked now u s) as [b sb]. simpl in Hnb, Hact. subst b.
    set (key := (u, startOfHour off now)).
    set (init := {| count := 0; groups := ∅; firstMessage := now;
                    successful := None; failed := None |}).
    pose proof (AntiSpamProps.ensureBucket_count key key init sb eq_refl) as Hcnt.
    pose proof (AntiSpamProps.ensureBucket_present key init sb) as [act Hact2].
    unfold bucketCount in Hcnt at 1. rewrite Hact2 in Hcnt. rewrite Hact2.
    assert (Hsame : bucketCount sb key = bucketCount s key).
    { unfold bucketCount. rewrite Hact. reflexivity. }
    destruct (Z.leb_spec (maxMessagesPerHour (getAntiSpamSettings db)) (count act));
      [|unfold key in *; lia].
    pose proof (AntiSpamProps.blockUser_spec now u (cooldownMinutes (getAntiSpamSettings db)) db
                  (ensureBucket key init sb)) as [Hs3 Hset3].
    destruct (blockUser now u _ db (ensureBucket key init sb)) as [[c3 db3] s3].
    simpl in Hs3, Hset3.
    assert (Hlk : blockedUsers s3 !! u
                  = Some {| blockedAt := now; unblockTime := until; reason := "rate_limit" |}).
    { rewrite Hs3. simpl. apply lookup_insert_eq. }
    destruct c3; simpl; (split; [exact Hlk|]; split; [discriminate|exact Hset3]). }
  destruct Hr as (Hlk & Hna & Hset).
  split; [exact Hna|]. split; [exact Hlk|].
  intros t1 g' Ht1.
  rewrite (blocked_is_denied off t1 u g' r.1.2 r.2 _ ltac:(rewrite Hset; exact Hen) Hlk Ht1).
  reflexivity.
Qed.

Lemma ceiling_hit_blocks_for_cooldown_witness :
  let full := (run 0 (start (Samples.settingsDb true 2 90))
                 (Samples.send 1000 "u1" "g1" ++ Samples.send 2000 "u1" "g2")) in
  (canSendMessage 0 3000 "u1" "g3" (rDb full) (rSvc full)).1.1 <> Returned Allowed /\
  (canSendMessage 0 3600000 "u1" "g3"
     (canSendMessage 0 3000 "u1" "g3" (rDb full) (rSvc full)).1.2
     (canSendMessage 0 3000 "u1" "g3" (rDb full) (rSvc full)).2).1.1
  = Returned (DeniedBlocked 5403000 (Minutos 30)).
Proof.
  intros full.
  destruct (ceiling_hit_blocks_for_cooldown 0 3000 "u1" "g3" (rDb full) (rSvc full))
    as (Hna & _ & Hlater).
  - reflexivity.
  - reflexivity.
  - vm_compute. discriminate.
  - split; [exact Hna|].
    apply (Hlater 3600000 "g3"). vm_compute. discriminate.
Defined.

Lemma updateAntiSpamStats_marks (u : string) (db : Db) :
  userStats (updateAntiSpamStats u db).2 !! u = Some SlotString.
Proof.
  unfold updateAntiSpamStats.
  destruct (userStats db !! u) as [[]|] eqn:Hu; simpl;
    first [exact Hu | apply lookup_insert_eq].
Qed.

(** X4.  The statistics of a tenant can be updated once.  After a first
    recordMessageSent for a tenant (whatever it returned), every further
    recordMessageSent and blockUser for that tenant raises a TypeError,
    having first counted the send in the window or stored the block
    record. *)
Theorem statistics_update_raises_the_second_time
        (off t t' m : Z) (u g g' : string) (ok ok' : bool)
        (db : Db) (s s' : Service) :
  let db1 := (recordMessageSent off t u g ok db s).1.2 in
  (recordMessageSent off t' u g' ok' db1 s').1.1 = Thrown "TypeError" /\
  bucketCount (recordMessageSent off t' u g' ok' db1 s').2 (u, startOfHour off t')
  = bucketCount s' (u, startOfHour off t') + 1 /\
  (blockUser t' u m db1 s').1.1 = Thrown "TypeError" /\
  (unblockTime <$> blockedUsers (blockUser t' u m db1 s').2 !! u)
  = Some (t' + m * msPerMinute).
Proof.
  intros db1.
  assert (Hslot : userStats db1 !! u = Some SlotString).
  { subst db1. unfold recordMessageSent.
    pose proof (AntiSpamProps.ensureBucket_present (u, startOfHour off t)
                  {| count := 0; groups := ∅; firstMessage := t;
                     successful := Some 0; failed := Some 0 |} s) as [x Hx].
    rewrite Hx.
    pose proof (updateAntiSpamStats_marks u db) as Hm.
    destruct (updateAntiSpamStats u db) as [c db']. exact Hm. }
  assert (Hup : updateAntiSpamStats u db1 = (Thrown "TypeError", db1)).
  { unfold updateAntiSpamStats. rewrite Hslot. reflexivity. }
  split; [|split; [|split]].
  - unfold recordMessageSent.
    pose proof (AntiSpamProps.ensureBucket_present (u, startOfHour off t')
                  {| count := 0; groups := ∅; firstMessage := t';
                     successful := Some 0; failed := Some 0 |} s') as [x Hx].
    rewrite Hx, Hup. reflexivity.
  - pose proof (recordMessageSent_effect off t' u g' ok' db1 s') as (_ & _ & Hc & _).
    rewrite Hc. rewrite bool_decide_eq_true_2 by reflexivity. reflexivity.
  - unfold blockUser. rewrite Hup. reflexivity.
  - unfold blockUser. rewrite Hup. simpl. rewrite lookup_insert_eq. reflexivity.
Qed.

(** The text of the time left keeps the whole minutes: it stands for the
    number of minutes when that is positive and for none otherwise. *)
Lemma formatTimeLeft_keeps_minutes (timeLeft : Z) :
  minutesShown (formatTimeLeft timeLeft) = Z.max timeLeft 0 /\
  (formatTimeLeft timeLeft = Agora <-> timeLeft <= 0) /\
  (forall h m, formatTimeLeft timeLeft = HorasMin h m -> 1 <= h /\ 0 <= m < 60).
Proof.
  unfold formatTimeLeft.
  destruct (Z.leb_spec timeLeft 0) as [H0|H0].
  - simpl. split; [lia|]. split; [tauto|]. intros h m H. discriminate.
  - destruct (Z.ltb_spec timeLeft 60) as [H1|H1]; simpl.
    + split; [lia|]. split; [split; [discriminate|lia]|]. intros h m H. discriminate.
    + split; [Z.div_mod_to_equations; lia|]. split; [split; [discriminate|lia]|].
      intros h m [= <- <-]. Z.div_mod_to_equations. lia.
Qed.

(** X6.  For a tenant with a block record, getTimeUntilUnblock shows the
    whole minutes left until the block ends, rounded down; in hours and
    minutes the hours are at least one and the minutes below sixty.  It
    answers 'Agora' exactly when less than one minute is left, so during
    the last minute of a block the tenant is still reported blocked while
    the text already says now. *)
Theorem getTimeUntilUnblock_shows_whole_minutes
        (now : Z) (u : string) (s : Service) (b : BlockInfo) :
  blockedUsers s !! u = Some b ->
  let shown := minutesShown (getTimeUntilUnblock now u s) in
  (now <= unblockTime b ->
   shown * msPerMinute <= unblockTime b - now < (shown + 1) * msPerMinute) /\
  (getTimeUntilUnblock now u s = Agora <-> unblockTime b - now < msPerMinute) /\
  (forall h m, getTimeUntilUnblock now u s = HorasMin h m -> 1 <= h /\ 0 <= m < 60) /\
  (unblockTime b - msPerMinute < now <= unblockTime b ->
   (isUserBlocked now u s).1 = true /\ getTimeUntilUnblock now u s = Agora).
Proof.
  intros Hb shown. subst shown. unfold getTimeUntilUnblock. rewrite Hb.
  destruct (formatTimeLeft_keeps_minutes (Z.quot (unblockTime b - now) msPerMinute))
    as (Hshown & Hagora & Hhm).
  rewrite Hshown.
  assert (Hq : Z.quot (unblockTime b - now) msPerMinute <= 0
               <-> unblockTime b - now < msPerMinute).
  { unfold msPerMinute. Z.quot_rem_to_equations. lia. }
  split; [|split; [|split]].
  - intros Hle. unfold msPerMinute in *. Z.quot_rem_to_equations. lia.
  - rewrite Hagora. exact Hq.
  - exact Hhm.
  - intros [Hlo Hhi]. split.
    + unfold isUserBlocked. rewrite Hb.
      destruct (Z.ltb_spec (unblockTime b) now) as [H|H]; [lia|reflexivity].
    + apply Hagora, Hq. lia.
Qed.

Lemma getTimeUntilUnblock_shows_whole_minutes_witness :
  minutesShown (getTimeUntilUnblock 1000 "u1" Samples.sampleBlocked) * msPerMinute
  <= 3600000 - 1000
  < (minutesShown (getTimeUntilUnblock 1000 "u1" Samples.sampleBlocked) + 1) * msPerMinute.
Proof.
  destruct (getTimeUntilUnblock_shows_whole_minutes 1000 "u1" Samples.sampleBlocked
              {| blockedAt := 0; unblockTime := 3600000; reason := "rate_limit" |}
              eq_refl) as (H & _).
  apply H. simpl. lia.
Defined.

End AntiSpamExtra.


(** ** Dispatcher *)

Module DispatchExtra.
Import Observations.

Lemma js_sendAd_cases (p : Platform) (s : WhatsApp.Service) (u : string)
      (ad : Database.Ad) (i : nat) (g : string) :
  WhatsApp.sendAd p s u ad i g
  = if WhatsApp.isUserConnected s u
    then match renderFailure p ad i with
         | Some e => (Thrown e, [CallSendAd g])
         | None =>
             match sendRejects p i g with
             | None => (Returned {| success := true; error := None |},
                        [CallSendAd g; SendMessage g])
             | Some e => (Returned {| success := false; error := Some e |},
                          [CallSendAd g; SendMessage g])
             end
         end
    else (Thrown notConnected, [CallSendAd g]).
Proof.
  unfold WhatsApp.sendAd.
  destruct (WhatsApp.isUserConnected s u) eqn:Hc; simpl.
  - unfold WhatsApp.isUserConnected in Hc.
    destruct (WhatsApp.connections s !! u); [reflexivity|discriminate].
  - destruct (WhatsApp.connections s !! u); reflexivity.
Qed.

Lemma js_loop_completes (p : Platform) (s : WhatsApp.Service) (u : string)
      (ad : Database.Ad) :
  forall (gs : list string) (i : nat) (res : Results),
    (forall j, (j < length gs)%nat -> connectedAt p s u (i + j) = true) ->
    (forall j, (j < length gs)%nat -> renderFailure p ad (i + j) = None) ->
    WhatsApp.broadcastLoop p s u ad i gs res
    = (Returned {| total := total res;
                   sent := sent res + Z.of_nat (length gs)
                           - Z.of_nat (length (rejections p i gs));
                   failed := failed res + Z.of_nat (length (rejections p i gs));
                   errors := errors res ++ rejections p i gs |},
       List.concat (List.map sendTrace gs)).
Proof.
  induction gs as [|g r IH]; intros i res Hc Hr; simpl.
  - destruct res. simpl. rewrite app_nil_r.
    f_equal. f_equal. f_equal; lia.
  - rewrite js_sendAd_cases.
    pose proof (Hc 0%nat ltac:(simpl; lia)) as Hc0. rewrite Nat.add_0_r in Hc0.
    unfold connectedAt in Hc0. rewrite Hc0.
    pose proof (Hr 0%nat ltac:(simpl; lia)) as H0. rewrite Nat.add_0_r in H0. rewrite H0.
    assert (Hc' : forall j, (j < length r)%nat -> connectedAt p s u (S i + j) = true).
    { intros j Hj. replace (S i + j)%nat with (i + S j)%nat by lia. apply Hc. simpl. lia. }
    assert (Hr' : forall j, (j < length r)%nat -> renderFailure p ad (S i + j) = None).
    { intros j Hj. replace (S i + j)%nat with (i + S j)%nat by lia. apply Hr. simpl. lia. }
    destruct (sendRejects p i g) as [e|]; simpl; rewrite (IH (S i) _ Hc' Hr'); simpl;
      (f_equal; f_equal; f_equal; try lia).
    rewrite <- app_assoc. reflexivity.
Qed.

(** X7.  On whatsappService.js, a dispatch for a tenant who is connected
    when it begins and still connected each time an attempt reads the
    connection table, and whose image rendering raises for none of the
    attempts, returns a result; the trace is, for each listed group in
    order, one call of sendAd, one transmission and a pause of two seconds
    (also after the last group), then the result notice.  The result lists
    exactly the groups whose send the platform rejected, in order, with
    [failed] their number and [sent] the number of the others. *)
Theorem js_dispatch_completes
        (p : Platform) (s : WhatsApp.Service) (u : string) (ad : Database.Ad) :
  WhatsApp.isUserConnected s u = true ->
  (forall i, (i < length (Database.groups ad))%nat -> connectedAt p s u i = true) ->
  (forall i, (i < length (Database.groups ad))%nat -> renderFailure p ad i = None) ->
  WhatsApp.broadcastAd p s u ad
  = (Returned {| total := Z.of_nat (length (Database.groups ad));
                 sent := Z.of_nat (length (Database.groups ad))
                         - Z.of_nat (length (rejections p 0 (Database.groups ad)));
                 failed := Z.of_nat (length (rejections p 0 (Database.groups ad)));
                 errors := rejections p 0 (Database.groups ad) |},
     List.concat (List.map sendTrace (Database.groups ad))
     ++ [Emit u "ad-broadcast-result"]).
Proof.
  intros Hc Hca Hr. unfold WhatsApp.broadcastAd. rewrite Hc. simpl.
  rewrite (js_loop_completes p s u ad (Database.groups ad) 0%nat _ Hca Hr). reflexivity.
Qed.

Lemma js_dispatch_completes_witness :
  WhatsApp.broadcastAd Samples.rejectsG2 Samples.liveService "u1"
    (Samples.campaign (Some "uploads/u1/ad.jpg") "once")
  = (Returned {| total := 3; sent := 2; failed := 1;
                 errors := [("g2", Some "not-authorized")] |},
     [CallSendAd "g1"; SendMessage "g1"; Sleep 2000;
      CallSendAd "g2"; SendMessage "g2"; Sleep 2000;
      CallSendAd "g3"; SendMessage "g3"; Sleep 2000;
      Emit "u1" "ad-broadcast-result"]).
Proof.
  apply (js_dispatch_completes Samples.rejectsG2 Samples.liveService "u1"
           (Samples.campaign (Some "uploads/u1/ad.jpg") "once")).
  - reflexivity.
  - intros [|i] _; reflexivity.
  - intros i _. reflexivity.
Defined.

Lemma js_loop_raises (p : Platform) (s : WhatsApp.Service) (u : string)
      (ad : Database.Ad) :
  forall (gs : list string) (i : nat) (res : Results) (e : string) (tr : list Effect),
    WhatsApp.broadcastLoop p s u ad i gs res = (Thrown e, tr) ->
    exists (k : nat) (g : string),
      gs !! k = Some g /\
      (forall j, (j < k)%nat ->
         connectedAt p s u (i + j) = true /\ renderFailure p ad (i + j) = None) /\
      (connectedAt p s u (i + k) = false /\ e = notConnected \/
       connectedAt p s u (i + k) = true /\ renderFailure p ad (i + k) = Some e) /\
      tr = List.concat (List.map sendTrace (take k gs)) ++ [CallSendAd g].
Proof.
  induction gs as [|g r IH]; intros i res e tr H; simpl in H; [discriminate|].
  rewrite js_sendAd_cases in H. fold (connectedAt p s u i) in H.
  destruct (connectedAt p s u i) eqn:Hci.
  - destruct (renderFailure p ad i) as [e0|] eqn:Hrf.
    + injection H as <- <-. exists 0%nat, g. rewrite Nat.add_0_r.
      split; [reflexivity|]. split; [intros j Hj; lia|]. split; [right; auto|reflexivity].
    + assert (Hstep : exists res' , WhatsApp.broadcastLoop p s u ad (S i) r res'
                                    = (Thrown e, drop 3 tr) /\
                                    tr = sendTrace g ++ drop 3 tr).
      { destruct (sendRejects p i g) as [er|]; simpl in H;
          match type of H with
          | context [WhatsApp.broadcastLoop p s u ad (S i) r ?x] =>
              destruct (WhatsApp.broadcastLoop p s u ad (S i) r x) as [c t2] eqn:Hl;
              exists x
          end; injection H as -> <-; simpl; auto. }
      destruct Hstep as (res' & Hl & Htr).
      apply IH in Hl as (k & g' & Hk & Hprev & Hat & Ht2).
      exists (S k), g'. split; [exact Hk|]. split; [|split].
      * intros [|j] Hj; [rewrite Nat.add_0_r; auto|].
        replace (i + S j)%nat with (S i + j)%nat by lia. apply Hprev. lia.
      * replace (i + S k)%nat with (S i + k)%nat by lia. exact Hat.
      * rewrite Htr, Ht2. simpl. reflexivity.
  - injection H as <- <-. exists 0%nat, g. rewrite Nat.add_0_r.
    split; [reflexivity|]. split; [intros j Hj; lia|]. split; [left; auto|reflexivity].
Qed.

(** X8.  On whatsappService.js, a dispatch for a tenant who is connected
    when it begins ends with an exception in two ways only, both at the
    start of some attempt: the tenant is no longer connected when the
    attempt reads the connection table (the exception is then 'WhatsApp
    não conectado'), or the image rendering of the attempt raises.  The
    groups before it were each attempted, transmitted to and paced, the
    group of that attempt was handed to sendAd and not transmitted to, and
    no later group was attempted.  A send the platform rejects never ends
    the dispatch. *)
Theorem js_dispatch_raises_before_transmitting
        (p : Platform) (s : WhatsApp.Service) (u : string) (ad : Database.Ad) (e : string) :
  WhatsApp.isUserConnected s u = true ->
  (WhatsApp.broadcastAd p s u ad).1 = Thrown e ->
  exists (k : nat) (g : string),
    Database.groups ad !! k = Some g /\
    (forall j, (j < k)%nat ->
       connectedAt p s u j = true /\ renderFailure p ad j = None) /\
    (connectedAt p s u k = false /\ e = notConnected \/
     connectedAt p s u k = true /\ renderFailure p ad k = Some e) /\
    (WhatsApp.broadcastAd p s u ad).2
    = List.concat (List.map sendTrace (take k (Database.groups ad))) ++ [CallSendAd g].
Proof.
  intros Hc. unfold WhatsApp.broadcastAd. rewrite Hc. simpl.
  destruct (WhatsApp.broadcastLoop p s u ad 0 (Database.groups ad) _) as [[r|e'] tr] eqn:Hl;
    simpl; [discriminate|].
  intros [= ->]. apply (js_loop_raises p s u ad) in Hl. exact Hl.
Qed.

Lemma js_dispatch_raises_before_transmitting_witness :
  exists (k : nat) (g : string),
    ["g1"; "g2"; "g3"] !! k = Some g /\
    (forall j, (j < k)%nat ->
       connectedAt Samples.losesSession Samples.liveService "u1" j = true /\
       renderFailure Samples.losesSession (Samples.campaign None "once") j = None) /\
    (connectedAt Samples.losesSession Samples.liveService "u1" k = false /\
     notConnected = notConnected \/
     connectedAt Samples.losesSession Samples.liveService "u1" k = true /\
     renderFailure Samples.losesSession (Samples.campaign None "once") k
     = Some notConnected) /\
    (WhatsApp.broadcastAd Samples.losesSession Samples.liveService "u1"
       (Samples.campaign None "once")).2
    = List.concat (List.map sendTrace (take k ["g1"; "g2"; "g3"])) ++ [CallSendAd g].
Proof.
  apply (js_dispatch_raises_before_transmitting Samples.losesSession Samples.liveService "u1"
           (Samples.campaign None "once") notConnected).
  - reflexivity.
  - vm_compute. reflexivity.
Defined.

(** The session of the tenant is lost during the first send: the second
    attempt raises, "g2" is handed to sendAd and not transmitted to, "g3"
    is never attempted, and no result is returned. *)
Example js_dispatch_ends_when_the_session_is_lost :
  WhatsApp.broadcastAd Samples.losesSession Samples.liveService "u1"
    (Samples.campaign None "once")
  = (Thrown notConnected,
     [CallSendAd "g1"; SendMessage "g1"; Sleep 2000; CallSendAd "g2"]).
Proof. vm_compute. reflexivity. Qed.

Lemma part3_attempts_every_group_witness :
  exists r tr,
    WhatsAppPart3.broadcastAd Samples.badImage Samples.liveService "u1"
      (Samples.campaign (Some "uploads/u1/ad.jpg") "once") = (Returned r, tr) /\
    attempted tr = ["g1"; "g2"; "g3"] /\
    sent r + failed r = 3.
Proof.
  apply (DispatchProps.part3_attempts_every_group Samples.badImage Samples.liveService "u1"
           (Samples.campaign (Some "uploads/u1/ad.jpg") "once")).
  reflexivity.
Defined.

End DispatchExtra.


(** ** Session lifecycle *)

Module SessionExtra.
Import WhatsApp.

Lemma no_reconnect_without_pending_timer_witness :
  ("u1" ∉ timers (steps Samples.liveService
                    [Disconnect "u1" false; Close "u1" (Some loggedOut);
                     Connect "u2"; TimerFires "u1"]).1) /\
  (forall sid, MakeSocket "u1" sid
               ∉ (steps Samples.liveService
                    [Disconnect "u1" false; Close "u1" (Some loggedOut);
                     Connect "u2"; TimerFires "u1"]).2).
Proof.
  apply (SessionProps.no_reconnect_without_pending_timer "u1").
  - simpl. apply not_elem_of_nil.
  - constructor; [exact I|].
    constructor; [intros _; left; reflexivity|].
    constructor; [discriminate|].
    constructor; [exact I|]. constructor.
Defined.

Lemma disconnect_reports_disconnected_witness :
  isUserConnected Samples.liveService "u1" = true /\
  isUserConnected (disconnectUser Samples.liveService "u1" false).1.2 "u1" = false /\
  connections (disconnectUser Samples.liveService "u1" false).1.2 !! "u1" = None /\
  timers (disconnectUser Samples.liveService "u1" false).1.2 = timers Samples.liveService.
Proof.
  split; [reflexivity|].
  apply (SessionProps.disconnect_reports_disconnected Samples.liveService "u1"
           {| sock := Some {| sockId := 0; readyState := 1 |}; connected := true |}
           {| sockId := 0; readyState := 1 |}).
  - reflexivity.
  - reflexivity.
Defined.

(** X10.  connectUser is a no-operation only once the connection is open:
    right after the open event the tenant is reported connected and a
    connect request returns no pairing code, changes nothing and creates
    no socket.  For a tenant without a connection it creates a socket, and
    a second request made before that socket has opened creates another
    one, which replaces the first in the connection table. *)
Theorem connect_is_idempotent_only_once_open (s : Service) (u : string) (sid : nat) :
  (isUserConnected (onOpen s u sid).1 u = true /\
   connectUser (onOpen s u sid).1 u = (None, (onOpen s u sid).1, [])) /\
  (connections s !! u = None ->
   (connectUser s u).2 = [MakeSocket u (nextSock s)] /\
   (connectUser (connectUser s u).1.2 u).2 = [MakeSocket u (S (nextSock s))] /\
   (sock <$> connections (connectUser (connectUser s u).1.2 u).1.2 !! u)
   = Some (Some {| sockId := S (nextSock s); readyState := 0 |})).
Proof.
  split.
  - unfold onOpen, isUserConnected, connectUser. simpl.
    rewrite lookup_insert_eq. simpl. split; reflexivity.
  - intros Hn. unfold connectUser. rewrite Hn. simpl.
    rewrite lookup_insert_eq. simpl. rewrite lookup_insert_eq.
    repeat split; reflexivity.
Qed.

Lemma connect_is_idempotent_only_once_open_witness :
  (connectUser (fresh 5000) "u1").2 = [MakeSocket "u1" 0] /\
  (connectUser (connectUser (fresh 5000) "u1").1.2 "u1").2 = [MakeSocket "u1" 1] /\
  (sock <$> connections (connectUser (connectUser (fresh 5000) "u1").1.2 "u1").1.2 !! "u1")
  = Some (Some {| sockId := 1; readyState := 0 |}).
Proof.
  apply (connect_is_idempotent_only_once_open (fresh 5000) "u1" 0).
  reflexivity.
Defined.

Lemma cleanup_removed (s : Service) (u : string) :
  u ∈ (map_to_list (filter (fun kv => orphaned kv.2 = true) (connections s))).*1 <->
  exists c, connections s !! u = Some c /\ orphaned c = true.
Proof.
  rewrite list_elem_of_fmap. split.
  - intros ([u' c] & -> & Hin). apply elem_of_map_to_list in Hin.
    apply map_lookup_filter_Some in Hin as [Hl Ho]. exists c. auto.
  - intros (c & Hl & Ho). exists (u, c). split; [reflexivity|].
    apply elem_of_map_to_list. apply map_lookup_filter_Some. auto.
Qed.

(** X11.  cleanupConnections never drops a live session: it keeps exactly
    the connections that have a socket with an open transport, so every
    tenant is reported connected after it exactly when they were before.
    It sends one disconnect notice for each connection it removes, returns
    their number, and leaves the pending reconnect timers alone. *)
Theorem cleanup_keeps_live_sessions (s : Service) :
  let r := cleanupConnections s in
  (forall u, isUserConnected r.1.2 u = isUserConnected s u) /\
  (forall u c, connections r.1.2 !! u = Some c <->
               connections s !! u = Some c /\ orphaned c = false) /\
  (forall u, Emit u "whatsapp-disconnected" ∈ r.2 <->
             exists c, connections s !! u = Some c /\ orphaned c = true) /\
  r.1.1 = Z.of_nat (length r.2) /\
  timers r.1.2 = timers s.
Proof.
  intros r. subst r. unfold cleanupConnections. simpl.
  set (toRemove := (map_to_list (filter (fun kv => orphaned kv.2 = true) (connections s))).*1).
  assert (Hkeep : forall u c, foldr delete (connections s) toRemove !! u = Some c <->
                              connections s !! u = Some c /\ orphaned c = false).
  { intros u c. rewrite lookup_foldr_delete_Some. unfold toRemove.
    rewrite cleanup_removed. split.
    - intros [Hn Hl]. split; [exact Hl|].
      destruct (orphaned c) eqn:Ho; [|reflexivity]. exfalso. apply Hn. eauto.
    - intros [Hl Ho]. split; [|exact Hl].
      intros (c' & Hl' & Ho'). congruence. }
  split; [|split; [exact Hkeep|split; [|split]]].
  - intros u. unfold isUserConnected. simpl.
    destruct (foldr delete (connections s) toRemove !! u) as [c|] eqn:Hl.
    + apply Hkeep in Hl as [-> _]. reflexivity.
    + destruct (connections s !! u) as [c|] eqn:Hs; [|reflexivity].
      destruct (orphaned c) eqn:Ho.
      * unfold orphaned in Ho. destruct (sock c) as [k|].
        -- apply negb_true_iff in Ho. rewrite Ho. apply eq_sym, andb_false_r.
        -- apply eq_sym, andb_false_r.
      * assert (Some c = None) as Habs; [|discriminate].
        rewrite <- Hl. apply eq_sym, Hkeep. auto.
  - intros u. rewrite list_elem_of_fmap. unfold toRemove. split.
    + intros (v & [= ->] & Hin). apply cleanup_removed, Hin.
    + intros H. exists u. split; [reflexivity|]. apply cleanup_removed, H.
  - rewrite length_fmap. reflexivity.
  - reflexivity.
Qed.

End SessionExtra.


(** ** Scheduler *)

Module SchedulerExtra.
Import Calendar Scheduler CalendarProps Observations.

Lemma validateSchedule_registers (now : Z) (ad : Database.Ad) :
  validateSchedule now (Database.scheduleDate ad) (Database.scheduleTime ad) = ScheduleValid
  <-> registers now ad = true.
Proof.
  unfold validateSchedule, registers.
  destruct (Database.scheduleDate ad) as [d|], (Database.scheduleTime ad) as [t|];
    try (split; discriminate).
  destruct (isValid (parseSchedule d t)); simpl; [|split; discriminate].
  destruct (isBefore (parseSchedule d t) now); simpl; split; try discriminate; reflexivity.
Qed.

Lemma cancel_lookup (s : Service) (adId k : string) :
  scheduledTasks (cancelScheduledAd s adId).1 !! k
  = if bool_decide (k = adId) then None else scheduledTasks s !! k.
Proof.
  unfold cancelScheduledAd.
  destruct (scheduledTasks s !! adId) eqn:Hl; simpl; case_bool_decide as Hk.
  - subst k. apply lookup_delete_eq.
  - apply lookup_delete_ne. congruence.
  - subst k. exact Hl.
  - reflexivity.
Qed.

(** The registry scheduleAd leaves, entry by entry. *)
Lemma scheduleAd_lookup (now : Z) (s : Service) (ad : Database.Ad) (k : string) :
  scheduledTasks (scheduleAd now s ad).1.2 !! k
  = if registers now ad && bool_decide (k = Database.id ad)
    then match Database.scheduleDate ad, Database.scheduleTime ad with
         | Some d, Some t =>
             Some {| taskAd := ad;
                     cronExpression := cronFor (Database.repeat ad) (parseSchedule d t);
                     nextExecution := valueOf (parseSchedule d t);
                     taskRepeat := Database.repeat ad |}
         | _, _ => None
         end
    else scheduledTasks s !! k.
Proof.
  unfold scheduleAd, registers.
  destruct (Database.scheduleDate ad) as [d|], (Database.scheduleTime ad) as [t|];
    try reflexivity.
  destruct (isValid (parseSchedule d t)); simpl; [|reflexivity].
  destruct (isBefore (parseSchedule d t) now); simpl; [reflexivity|].
  pose proof (cancel_lookup s (Database.id ad) k) as Hc.
  destruct (cancelScheduledAd s (Database.id ad)) as [s1 l1]. simpl in *.
  case_bool_decide as Hk.
  - subst k. apply lookup_insert_eq.
  - rewrite lookup_insert_ne by congruence. exact Hc.
Qed.

(** X12.  validateSchedule predicts scheduleAd exactly: on a registry that
    holds no timer for the campaign, the campaign has a timer after
    scheduleAd if and only if validateSchedule accepts its date and time
    at that instant; and scheduleAd never touches the timer of another
    campaign. *)
Theorem validateSchedule_predicts_registration
        (now : Z) (s : Service) (ad : Database.Ad) :
  scheduledTasks s !! Database.id ad = None ->
  (validateSchedule now (Database.scheduleDate ad) (Database.scheduleTime ad) = ScheduleValid
   <-> is_Some (scheduledTasks (scheduleAd now s ad).1.2 !! Database.id ad)) /\
  (forall other, other <> Database.id ad ->
     scheduledTasks (scheduleAd now s ad).1.2 !! other = scheduledTasks s !! other).
Proof.
  intros Hnone. split.
  - rewrite validateSchedule_registers, scheduleAd_lookup.
    rewrite bool_decide_eq_true_2 by reflexivity. rewrite andb_true_r.
    destruct (registers now ad) eqn:Hr.
    + unfold registers in Hr.
      destruct (Database.scheduleDate ad), (Database.scheduleTime ad); try discriminate.
      split; eauto.
    + rewrite Hnone. split; [discriminate|]. intros [x Hx]. discriminate.
  - intros other Hne. rewrite scheduleAd_lookup.
    rewrite bool_decide_eq_false_2 by exact Hne. rewrite andb_false_r. reflexivity.
Qed.

Lemma validateSchedule_predicts_registration_witness :
  (validateSchedule 0 (Some (2025, 1, 1)) (Some (10, 0)) = ScheduleValid
   <-> is_Some (scheduledTasks
                  (scheduleAd 0 fresh (Samples.campaign None "daily")).1.2 !! "ad1")) /\
  (forall other, other <> "ad1" ->
     scheduledTasks (scheduleAd 0 fresh (Samples.campaign None "daily")).1.2 !! other
     = scheduledTasks fresh !! other).
Proof.
  apply (validateSchedule_predicts_registration 0 fresh (Samples.campaign None "daily")).
  reflexivity.
Defined.

(** X13.  updateAdSchedule leaves a timer for the campaign exactly when the
    campaign is active and its schedule is one scheduleAd accepts; the
    timer then carries the campaign as given.  So a deactivated campaign,
    or one moved to a past date, loses the timer it had.  Timers of other
    campaigns are untouched. *)
Theorem updateAdSchedule_registers_exactly_schedulable
        (now : Z) (s : Service) (ad : Database.Ad) :
  (is_Some (scheduledTasks (updateAdSchedule now s ad).1 !! Database.id ad)
   <-> Database.active ad = true /\
       validateSchedule now (Database.scheduleDate ad) (Database.scheduleTime ad)
       = ScheduleValid) /\
  (forall task, scheduledTasks (updateAdSchedule now s ad).1 !! Database.id ad = Some task ->
                taskAd task = ad) /\
  (forall other, other <> Database.id ad ->
     scheduledTasks (updateAdSchedule now s ad).1 !! other = scheduledTasks s !! other).
Proof.
  unfold updateAdSchedule.
  pose proof (cancel_lookup s (Database.id ad)) as Hc.
  destruct (cancelScheduledAd s (Database.id ad)) as [s1 l1]. simpl in Hc.
  rewrite validateSchedule_registers.
  assert (Hpresent : registers now ad = true ->
                     bool_decide (Database.scheduleDate ad <> None)
                     && bool_decide (Database.scheduleTime ad <> None) = true).
  { unfold registers.
    destruct (Database.scheduleDate ad), (Database.scheduleTime ad); try discriminate.
    intros _. reflexivity. }
  destruct (Database.active ad) eqn:Hact; simpl.
  - destruct (bool_decide (Database.scheduleDate ad <> None)
              && bool_decide (Database.scheduleTime ad <> None)) eqn:Hp.
    + pose proof (scheduleAd_lookup now s1 ad) as Hl.
      destruct (scheduleAd now s1 ad) as [[c s2] l2]. simpl in *.
      split; [|split].
      * rewrite Hl. rewrite bool_decide_eq_true_2 by reflexivity. rewrite andb_true_r.
        destruct (registers now ad) eqn:Hr.
        -- unfold registers in Hr.
           destruct (Database.scheduleDate ad), (Database.scheduleTime ad); try discriminate.
           split; eauto.
        -- rewrite Hc. rewrite bool_decide_eq_true_2 by reflexivity.
           split; [intros [x Hx]; discriminate|intros [_ H]; discriminate].
      * intros task. rewrite Hl. rewrite bool_decide_eq_true_2 by reflexivity.
        rewrite andb_true_r. destruct (registers now ad).
        -- destruct (Database.scheduleDate ad), (Database.scheduleTime ad);
             try discriminate. intros [= <-]. reflexivity.
        -- rewrite Hc. rewrite bool_decide_eq_true_2 by reflexivity. discriminate.
      * intros other Hne. rewrite Hl. rewrite bool_decide_eq_false_2 by exact Hne.
        rewrite andb_false_r. rewrite Hc. rewrite bool_decide_eq_false_2 by exact Hne.
        reflexivity.
    + simpl. split; [|split].
      * rewrite Hc. rewrite bool_decide_eq_true_2 by reflexivity.
        split; [intros [x Hx]; discriminate|].
        intros [_ Hr]. apply Hpresent in Hr. congruence.
      * intros task. rewrite Hc. rewrite bool_decide_eq_true_2 by reflexivity. discriminate.
      * intros other Hne. rewrite Hc. rewrite bool_decide_eq_false_2 by exact Hne.
        reflexivity.
  - split; [|split].
    + rewrite Hc. rewrite bool_decide_eq_true_2 by reflexivity.
      split; [intros [x Hx]; discriminate|intros [H _]; discriminate].
    + intros task. rewrite Hc. rewrite bool_decide_eq_true_2 by reflexivity. discriminate.
    + intros other Hne. rewrite Hc. rewrite bool_decide_eq_false_2 by exact Hne.
      reflexivity.
Qed.

(** X14.  The cron expression scheduleAd builds from a valid moment is well
    formed: minute within 0..59, hour within 0..23, a day of the month
    within 1..31, a month within 1..12 and a day of the week within 0..6.
    A repeat value that is none of daily, weekly, monthly and yearly
    ("once" included) gets the expression of a yearly campaign. *)
Theorem cron_expression_is_well_formed (repeat : string) (m : Moment) :
  isValid m = true ->
  0 <= cronMinute (cronFor repeat m) <= 59 /\
  0 <= cronHour (cronFor repeat m) <= 23 /\
  (forall d, cronDayOfMonth (cronFor repeat m) = Some d -> 1 <= d <= 31) /\
  (forall mo, cronMonth (cronFor repeat m) = Some mo -> 1 <= mo <= 12) /\
  (forall w, cronDayOfWeek (cronFor repeat m) = Some w -> 0 <= w <= 6) /\
  (recurrenceOf repeat = None -> cronFor repeat m = cronFor "yearly" m).
Proof.
  intros Hv. apply isValid_spec in Hv as (Hy & Hmo & Hd & Hh & Hmi).
  pose proof (daysInMonth_bounds (year m) (monthOfYear m) Hmo) as Hdim.
  assert (Hw : 0 <= day m <= 6).
  { unfold day. pose proof (Z.mod_pos_bound
      (daysFromEpoch (year m) (monthOfYear m) (date m) + 4) 7 ltac:(lia)). lia. }
  unfold cronFor.
  destruct (recurrenceOf repeat) as [[]|]; simpl; unfold month;
    repeat split; try lia; try discriminate;
    try (intros ? [= <-]; lia); try (intros ?; discriminate);
    try (intros _; reflexivity);
    try (match goal with H : Some _ = Some _ |- _ => injection H as <-; lia end).
Qed.

Lemma cron_expression_is_well_formed_witness :
  0 <= cronMinute (cronFor "weekly" Samples.anchor2025) <= 59 /\
  0 <= cronHour (cronFor "weekly" Samples.anchor2025) <= 23 /\
  (forall d, cronDayOfMonth (cronFor "weekly" Samples.anchor2025) = Some d -> 1 <= d <= 31) /\
  (forall mo, cronMonth (cronFor "weekly" Samples.anchor2025) = Some mo -> 1 <= mo <= 12) /\
  (forall w, cronDayOfWeek (cronFor "weekly" Samples.anchor2025) = Some w -> 0 <= w <= 6) /\
  (recurrenceOf "weekly" = None ->
   cronFor "weekly" Samples.anchor2025 = cronFor "yearly" Samples.anchor2025).
Proof.
  apply (cron_expression_is_well_formed "weekly" Samples.anchor2025). reflexivity.
Defined.

Lemma reschedule_fold (now : Z) (l : list Database.Ad) :
  forall (acc : Service * list LogLine) (k : string),
    let result := (fold_left (fun acc ad => let '(_, s', lg) := scheduleAd now acc.1 ad in
                                            (s', acc.2 ++ lg)) l acc).1 in
    (is_Some (scheduledTasks result !! k) <->
     is_Some (scheduledTasks acc.1 !! k) \/
     exists ad, ad ∈ l /\ Database.id ad = k /\ registers now ad = true) /\
    (forall task, scheduledTasks result !! k = Some task ->
       scheduledTasks acc.1 !! k = Some task \/
       (taskAd task ∈ l /\ Database.id (taskAd task) = k /\
        registers now (taskAd task) = true)).
Proof.
  induction l as [|a r IH]; intros acc k; simpl.
  - split; [|auto]. split; [auto|]. intros [H|(ad & Hin & _)]; [exact H|].
    apply elem_of_nil in Hin. destruct Hin.
  - pose proof (scheduleAd_lookup now acc.1 a k) as Hl.
    destruct (scheduleAd now acc.1 a) as [[c s'] lg]. simpl in Hl.
    specialize (IH (s', acc.2 ++ lg) k). simpl in IH. destruct IH as [IH1 IH2].
    split.
    + rewrite IH1, Hl. split.
      * intros [Hs|(ad & Hin & Hid & Hr)].
        -- destruct (registers now a && bool_decide (k = Database.id a)) eqn:Hc; [|auto].
           apply andb_true_iff in Hc as [Hr Hk]. apply bool_decide_eq_true_1 in Hk.
           right. exists a. split; [left|]. auto.
        -- right. exists ad. split; [right; exact Hin|]. auto.
      * intros [Hs|(ad & Hin & Hid & Hr)].
        -- destruct (registers now a && bool_decide (k = Database.id a)) eqn:Hc; [|auto].
           left. apply andb_true_iff in Hc as [Hr _]. unfold registers in Hr.
           destruct (Database.scheduleDate a), (Database.scheduleTime a);
             try discriminate. eauto.
        -- apply elem_of_cons in Hin as [->|Hin].
           ++ left. rewrite Hr. rewrite bool_decide_eq_true_2 by (symmetry; exact Hid).
              simpl. unfold registers in Hr.
              destruct (Database.scheduleDate a), (Database.scheduleTime a);
                try discriminate. eauto.
           ++ right. exists ad. auto.
    + intros task Ht. apply IH2 in Ht as [Ht|(Hin & Hid & Hr)].
      * rewrite Hl in Ht.
        destruct (registers now a && bool_decide (k = Database.id a)) eqn:Hc; [|auto].
        apply andb_true_iff in Hc as [Hr Hk]. apply bool_decide_eq_true_1 in Hk.
        destruct (Database.scheduleDate a), (Database.scheduleTime a); try discriminate.
        injection Ht as <-. simpl. right. split; [left|]. auto.
      * right. split; [right; exact Hin|]. auto.
Qed.

(** X15.  Startup registers exactly what can still run: after
    rescheduleExistingAds on an empty registry, a campaign id has a timer
    if and only if some stored campaign with that id is active and has a
    schedule that validateSchedule accepts at that instant; the campaign
    the timer carries is such a stored campaign, and is filed under its
    own id.  Inactive campaigns and campaigns whose date has passed get
    none. *)
Theorem startup_registers_what_can_run (now : Z) (db : Database.Db) (k : string) :
  (is_Some (scheduledTasks (rescheduleExistingAds now fresh db).1 !! k) <->
   exists ad, ad ∈ Database.ads db /\ Database.id ad = k /\
              Database.active ad = true /\
              validateSchedule now (Database.scheduleDate ad) (Database.scheduleTime ad)
              = ScheduleValid) /\
  (forall task, scheduledTasks (rescheduleExistingAds now fresh db).1 !! k = Some task ->
     taskAd task ∈ Database.ads db /\ Database.id (taskAd task) = k /\
     Database.active (taskAd task) = true /\
     validateSchedule now (Database.scheduleDate (taskAd task))
                          (Database.scheduleTime (taskAd task)) = ScheduleValid).
Proof.
  unfold rescheduleExistingAds.
  destruct (reschedule_fold now (Database.getScheduledAds db) (fresh, []) k) as [H1 H2].
  simpl in H1, H2.
  assert (Hin : forall ad, registers now ad = true ->
                  (ad ∈ Database.getScheduledAds db <->
                   ad ∈ Database.ads db /\ Database.active ad = true)).
  { intros ad Hr. unfold Database.getScheduledAds.
    rewrite !list_elem_of_In, List.filter_In. cbn beta. unfold registers in Hr.
    destruct (Database.scheduleDate ad), (Database.scheduleTime ad); try discriminate.
    rewrite !bool_decide_eq_true_2 by discriminate. rewrite !andb_true_r. tauto. }
  split.
  - rewrite H1. split.
    + intros [[x Hx]|(ad & Ha & Hid & Hr)]; [rewrite lookup_empty in Hx; discriminate|].
      apply (Hin ad Hr) in Ha as [Ha Hact]. exists ad.
      rewrite validateSchedule_registers. auto.
    + intros (ad & Ha & Hid & Hact & Hv). apply validateSchedule_registers in Hv.
      right. exists ad. split; [apply (Hin ad Hv); auto|auto].
  - intros task Ht. apply H2 in Ht as [Ht|(Ha & Hid & Hr)];
      [rewrite lookup_empty in Ht; discriminate|].
    apply (Hin _ Hr) in Ha as [Ha Hact].
    rewrite validateSchedule_registers. auto.
Qed.

Lemma fold_cancel_lookup (l : list string) :
  forall (s : Service) (k : string),
    scheduledTasks (fold_left (fun acc adId => (cancelScheduledAd acc adId).1) l s) !! k
    = if bool_decide (k ∈ l) then None else scheduledTasks s !! k.
Proof.
  induction l as [|a r IH]; intros s k.
  - rewrite bool_decide_eq_false_2 by apply not_elem_of_nil. reflexivity.
  - simpl. rewrite IH, cancel_lookup.
    destruct (decide (k ∈ r)) as [Hr|Hr].
    + rewrite (bool_decide_eq_true_2 _ Hr).
      rewrite bool_decide_eq_true_2 by (right; exact Hr). reflexivity.
    + rewrite (bool_decide_eq_false_2 _ Hr).
      destruct (decide (k = a)) as [->|Hne].
      * rewrite bool_decide_eq_true_2 by reflexivity.
        rewrite bool_decide_eq_true_2 by left. reflexivity.
      * rewrite (bool_decide_eq_false_2 _ Hne).
        rewrite bool_decide_eq_false_2; [reflexivity|].
        intros Hin. apply elem_of_cons in Hin as [?|?]; contradiction.
Qed.

(** X16.  cleanupOrphanedTasks removes exactly the timers whose campaign is
    no longer stored, is inactive, or has lost its date or time: a timer
    is there afterwards if and only if it was there before and its
    campaign is stored, active and has date and time; the timers that stay
    are unchanged. *)
Theorem cleanupOrphanedTasks_removes_exactly_orphans
        (s : Service) (db : Database.Db) (k : string) (task : TaskInfo) :
  scheduledTasks (cleanupOrphanedTasks s db).1 !! k = Some task <->
  scheduledTasks s !! k = Some task /\
  exists ad, Database.getAd db k = Some ad /\ Database.active ad = true /\
             Database.scheduleDate ad <> None /\ Database.scheduleTime ad <> None.
Proof.
  unfold cleanupOrphanedTasks. simpl. rewrite fold_cancel_lookup.
  assert (Horph : orphanedTask db k = false <->
                  exists ad, Database.getAd db k = Some ad /\ Database.active ad = true /\
                             Database.scheduleDate ad <> None /\
                             Database.scheduleTime ad <> None).
  { unfold orphanedTask. destruct (Database.getAd db k) as [ad|].
    - rewrite !orb_false_iff, negb_false_iff, !bool_decide_eq_false. split.
      + intros [[Ha Hd] Ht]. exists ad. auto.
      + intros (ad' & [= <-] & Ha & Hd & Ht). auto.
    - split; [discriminate|]. intros (ad' & Habs & _). discriminate. }
  rewrite <- Horph.
  destruct (decide (k ∈ List.filter (orphanedTask db) (map_to_list (scheduledTasks s)).*1))
    as [Hin|Hnin].
  - rewrite (bool_decide_eq_true_2 _ Hin).
    apply list_elem_of_In, List.filter_In in Hin as [_ Ho].
    split; [discriminate|]. intros [_ Hf]. congruence.
  - rewrite (bool_decide_eq_false_2 _ Hnin). split.
    + intros Hl. split; [exact Hl|].
      destruct (orphanedTask db k) eqn:Ho; [|reflexivity].
      exfalso. apply Hnin. apply list_elem_of_In, List.filter_In. split; [|exact Ho].
      apply list_elem_of_In, list_elem_of_fmap. exists (k, task).
      split; [reflexivity|]. apply elem_of_map_to_list, Hl.
    + intros [Hl _]. exact Hl.
Qed.

Lemma iter_addWeek (n : nat) (m : Moment) :
  isValid m = true ->
  isValid (Nat.iter n addWeek m) = true /\
  valueOf (Nat.iter n addWeek m) = valueOf m + Z.of_nat n * (7 * msPerDay) /\
  day (Nat.iter n addWeek m) = day m.
Proof.
  intros Hv. induction n as [|n (IHv & IHt & IHd)]; simpl.
  - repeat split; try assumption; lia.
  - destruct (iter_addDay 7 (Nat.iter n addWeek m) IHv) as (Hv7 & Ht7 & _).
    split; [exact Hv7|]. split.
    + unfold addWeek at 1. rewrite Ht7, IHt. lia.
    + rewrite addWeek_day by exact IHv. exact IHd.
Qed.

(** X17.  For a daily or weekly campaign whose anchor has passed, the next
    execution getNextExecutionTime reports is the one occurrence of the
    series anchor + k periods (a period being 24 hours, or 7 times 24
    hours) that lies at or after now and less than one period after now. *)
Theorem daily_and_weekly_next_execution_is_within_a_period
        (now : Z) (s : Service) (db : Database.Db) (adId : string)
        (ad : Database.Ad) (d : Z * Z * Z) (t : Z * Z) (r : Recurrence) :
  is_Some (scheduledTasks s !! adId) ->
  Database.getAd db adId = Some ad ->
  Database.scheduleDate ad = Some d ->
  Database.scheduleTime ad = Some t ->
  isValid (parseSchedule d t) = true ->
  recurrenceOf (Database.repeat ad) = Some r ->
  r = Daily \/ r = Weekly ->
  valueOf (parseSchedule d t) < now ->
  let period := (if r is Daily then 1 else 7) * msPerDay in
  exists k : nat,
    (1 <= k)%nat /\
    getNextExecutionTime now s db adId
    = NextAt (valueOf (parseSchedule d t) + Z.of_nat k * period) /\
    now <= valueOf (parseSchedule d t) + Z.of_nat k * period < now + period.
Proof.
  intros [task Htask] Had Hd Ht Hv Hr Hdw Hpast period.
  set (anchor := parseSchedule d t) in *.
  destruct (SchedulerProps.advance_total r now (loopBound anchor now) anchor Hv
              (SchedulerProps.loopBound_enough anchor now))
    as (k & Hadv & Hnow & Hprev).
  assert (Hval : forall n, valueOf (Nat.iter n (addOne r) anchor)
                           = valueOf anchor + Z.of_nat n * period).
  { intros n. subst period. destruct Hdw as [-> | ->].
    - change (Nat.iter n (addOne Daily) anchor) with (Nat.iter n addDay anchor).
      destruct (iter_addDay n anchor Hv) as (_ & -> & _). lia.
    - change (Nat.iter n (addOne Weekly) anchor) with (Nat.iter n addWeek anchor).
      destruct (iter_addWeek n anchor Hv) as (_ & -> & _). lia. }
  assert (Hpos : 0 < period).
  { subst period. unfold msPerDay. destruct r; lia. }
  destruct k as [|k]; [simpl in Hnow; lia|].
  exists (S k). split; [lia|]. split.
  - unfold getNextExecutionTime. rewrite Htask, Had, Hd, Ht.
    fold anchor. rewrite Hv. simpl. rewrite Hr, Hadv, Hval. reflexivity.
  - rewrite <- Hval. split; [exact Hnow|].
    specialize (Hprev k ltac:(lia)). rewrite Hval in *. lia.
Qed.

Lemma daily_and_weekly_next_execution_is_within_a_period_witness :
  exists k : nat,
    (1 <= k)%nat /\
    getNextExecutionTime (valueOf Samples.anchor2025 + 3 * msPerDay + 5)
      Samples.dailyScheduler Samples.dailyDb "ad1"
    = NextAt (valueOf Samples.anchor2025 + Z.of_nat k * (1 * msPerDay)) /\
    valueOf Samples.anchor2025 + 3 * msPerDay + 5
    <= valueOf Samples.anchor2025 + Z.of_nat k * (1 * msPerDay)
    < valueOf Samples.anchor2025 + 3 * msPerDay + 5 + 1 * msPerDay.
Proof.
  apply (daily_and_weekly_next_execution_is_within_a_period
           (valueOf Samples.anchor2025 + 3 * msPerDay + 5)
           Samples.dailyScheduler Samples.dailyDb "ad1"
           (Samples.campaign None "daily") (2025, 1, 1) (10, 0) Daily).
  - vm_compute. eauto.
  - reflexivity.
  - reflexivity.
  - reflexivity.
  - reflexivity.
  - reflexivity.
  - left. reflexivity.
  - vm_compute. reflexivity.
Defined.

Lemma iter_addMonth_day (n : nat) (m : Moment) :
  isValid m = true ->
  isValid (Nat.iter n addMonth m) = true /\
  hour (Nat.iter n addMonth m) = hour m /\
  minute (Nat.iter n addMonth m) = minute m /\
  date (Nat.iter n addMonth m) <= date m /\
  (date m <= 28 -> date (Nat.iter n addMonth m) = date m) /\
  (28 <= date m -> 28 <= date (Nat.iter n addMonth m)).
Proof.
  intros Hv. induction n as [|n (IHv & IHh & IHm & IHle & IHeq & IHge)]; simpl.
  - repeat split; try assumption; lia.
  - split; [apply addMonth_valid, IHv|].
    apply isValid_spec in IHv as (_ & Hmo & _).
    set (x := Nat.iter n addMonth m) in *.
    assert (Hdim : 28 <= daysInMonth (if monthOfYear x <? 12 then year x else year x + 1)
                                     (if monthOfYear x <? 12 then monthOfYear x + 1 else 1)
                   <= 31).
    { apply daysInMonth_bounds. destruct (Z.ltb_spec (monthOfYear x) 12); lia. }
    unfold addMonth. simpl. repeat split; try assumption; lia.
Qed.

(** X18.  For a monthly campaign the next execution keeps the anchor's time
    of day, and its day of the month is never later than the anchor's: it
    is the anchor's day when that is the 28th or earlier, and otherwise a
    day from the 28th up to the anchor's day, because each pass of the loop
    clamps the day to the length of the month it enters and later passes
    start from the clamped day.  The anchor is the moment the date and time
    parse to: the fields as written for an hour up to 23, and the next
    midnight for [24:00]. *)
Theorem monthly_next_execution_day_never_grows
        (now : Z) (s : Service) (db : Database.Db) (adId : string)
        (ad : Database.Ad) (d : Z * Z * Z) (t : Z * Z) :
  is_Some (scheduledTasks s !! adId) ->
  Database.getAd db adId = Some ad ->
  Database.scheduleDate ad = Some d ->
  Database.scheduleTime ad = Some t ->
  isValid (parseSchedule d t) = true ->
  recurrenceOf (Database.repeat ad) = Some Monthly ->
  (t.1 <= 23 ->
   hour (parseSchedule d t) = t.1 /\ minute (parseSchedule d t) = t.2 /\
   date (parseSchedule d t) = d.2) /\
  exists m' : Moment,
    getNextExecutionTime now s db adId = NextAt (valueOf m') /\
    isValid m' = true /\
    hour m' = hour (parseSchedule d t) /\ minute m' = minute (parseSchedule d t) /\
    date m' <= date (parseSchedule d t) /\
    (date (parseSchedule d t) <= 28 -> date m' = date (parseSchedule d t)) /\
    (28 <= date (parseSchedule d t) -> 28 <= date m').
Proof.
  intros [task Htask] Had Hd Ht Hv Hr. split.
  { intros H23. unfold parseSchedule.
    destruct (Z.eqb_spec t.1 24) as [E|E]; [lia|]. simpl. auto. }
  set (anchor := parseSchedule d t) in *.
  destruct (SchedulerProps.advance_total Monthly now (loopBound anchor now) anchor Hv
              (SchedulerProps.loopBound_enough anchor now))
    as (k & Hadv & _ & _).
  exists (Nat.iter k addMonth anchor). split.
  - unfold getNextExecutionTime. rewrite Htask, Had, Hd, Ht.
    fold anchor. rewrite Hv. simpl. rewrite Hr, Hadv. reflexivity.
  - exact (iter_addMonth_day k anchor Hv).
Qed.

Lemma monthly_next_execution_day_never_grows_witness :
  exists m' : Moment,
    getNextExecutionTime 1742000000000 Samples.monthEndScheduler Samples.monthEndDb "ad2"
    = NextAt (valueOf m') /\
    isValid m' = true /\
    hour m' = 10 /\ minute m' = 0 /\
    date m' <= 31 /\
    (31 <= 28 -> date m' = 31) /\
    (28 <= 31 -> 28 <= date m').
Proof.
  apply (monthly_next_execution_day_never_grows 1742000000000
           Samples.monthEndScheduler Samples.monthEndDb "ad2" Samples.monthEnd
           (2025, 1, 31) (10, 0)).
  - vm_compute. eauto.
  - reflexivity.
  - reflexivity.
  - reflexivity.
  - reflexivity.
  - reflexivity.
Defined.

(** The anchor is 31 January; asked in mid-March (2025-03-15 00:53:20 UTC)
    the next execution is 28 March, not 31 March: the pass through February
    clamped the day to 28. *)
Example monthly_day_drifts_after_february :
  getNextExecutionTime 1742000000000 Samples.monthEndScheduler Samples.monthEndDb "ad2"
  = NextAt (valueOf {| year := 2025; monthOfYear := 3; date := 28;
                       hour := 10; minute := 0 |}).
Proof. vm_compute. reflexivity. Qed.

End SchedulerExtra.


(** ** server.js: routes and the cron callback *)

Module ServerExtra.
Import Observations.

Lemma getAd_id (db : Database.Db) (k : string) (a : Database.Ad) :
  Database.getAd db k = Some a -> Database.id a = k.
Proof.
  unfold Database.getAd. intros H. apply List.find_some in H as [_ H].
  apply bool_decide_eq_true_1 in H. exact H.
Qed.

Lemma find_replaceFirst_const (k : string) (b : Database.Ad) (l : list Database.Ad)
      (a : Database.Ad) (other : string) :
  Database.id b = k ->
  List.find (fun x => bool_decide (Database.id x = k)) l = Some a ->
  List.find (fun x => bool_decide (Database.id x = other))
            (Database.replaceFirst k (fun _ => b) l)
  = if bool_decide (other = k) then Some b
    else List.find (fun x => bool_decide (Database.id x = other)) l.
Proof.
  intros Hb. induction l as [|x r IH]; simpl; [discriminate|].
  destruct (bool_decide (Database.id x = k)) eqn:Hx.
  - intros _. apply bool_decide_eq_true_1 in Hx. simpl. rewrite Hb.
    case_bool_decide as Ho.
    + subst other. rewrite bool_decide_eq_true_2 by reflexivity. reflexivity.
    + rewrite bool_decide_eq_false_2 by congruence.
      rewrite bool_decide_eq_false_2 by congruence. reflexivity.
  - intros H. simpl. apply bool_decide_eq_false_1 in Hx.
    destruct (bool_decide (Database.id x = other)) eqn:Hxo.
    + apply bool_decide_eq_true_1 in Hxo.
      rewrite bool_decide_eq_false_2 by congruence. reflexivity.
    + apply IH, H.
Qed.

Lemma find_removeFirst (k : string) (l : list Database.Ad) (other : string) :
  other <> k ->
  List.find (fun x => bool_decide (Database.id x = other)) (Database.removeFirst k l)
  = List.find (fun x => bool_decide (Database.id x = other)) l.
Proof.
  intros Hne. induction l as [|x r IH]; simpl; [reflexivity|].
  destruct (bool_decide (Database.id x = k)) eqn:Hx.
  - apply bool_decide_eq_true_1 in Hx.
    rewrite bool_decide_eq_false_2 by congruence. reflexivity.
  - simpl. rewrite IH. reflexivity.
Qed.

Lemma find_removeFirst_unique (k : string) (l : list Database.Ad) :
  NoDup (Database.id <$> l) ->
  List.find (fun x => bool_decide (Database.id x = k)) (Database.removeFirst k l) = None.
Proof.
  induction l as [|x r IH]; simpl; [reflexivity|].
  intros Hnd. apply NoDup_cons in Hnd as [Hx Hnd].
  destruct (bool_decide (Database.id x = k)) eqn:Hk.
  - apply bool_decide_eq_true_1 in Hk. subst k.
    destruct (List.find _ r) as [y|] eqn:Hf; [|reflexivity].
    apply List.find_some in Hf as [Hin Hy]. apply bool_decide_eq_true_1 in Hy.
    exfalso. apply Hx. rewrite <- Hy. apply list_elem_of_fmap.
    exists y. split; [reflexivity|]. apply list_elem_of_In, Hin.
  - simpl. rewrite Hk. apply IH, Hnd.
Qed.

Lemma removeFirst_length (k : string) (l : list Database.Ad) (a : Database.Ad) :
  List.find (fun x => bool_decide (Database.id x = k)) l = Some a ->
  S (length (Database.removeFirst k l)) = length l.
Proof.
  induction l as [|x r IH]; simpl; [discriminate|].
  destruct (bool_decide (Database.id x = k)); [reflexivity|].
  intros H. simpl. rewrite IH by exact H. reflexivity.
Qed.

(** X19.  The toggle route, for the owner of a stored campaign, flips the
    stored [active] flag (groups, schedule, image and statistics of the
    record stay as they were), and leaves a
    timer for the campaign exactly when the campaign has become active and
    its schedule is one scheduleAd accepts at that instant: pausing always
    removes the timer.  Other campaigns, their timers, the sessions and
    the rate guard are untouched. *)
Theorem toggle_route_flips_and_reschedules
        (now : Z) (reqUser adId : string) (σ : Server.State) (ad : Database.Ad) :
  Database.getAd (Server.db σ) adId = Some ad ->
  Database.userId ad = reqUser ->
  let r := Server.toggleRoute now reqUser adId σ in
  r.1 = Server.Ok200 /\
  Database.getAd (Server.db r.2) adId
  = Some (Server.withActive ad (negb (Database.active ad))) /\
  (is_Some (Scheduler.scheduledTasks (Server.scheduler r.2) !! adId) <->
   Database.active ad = false /\ registers now ad = true) /\
  (forall other, other <> adId ->
     Database.getAd (Server.db r.2) other = Database.getAd (Server.db σ) other /\
     Scheduler.scheduledTasks (Server.scheduler r.2) !! other
     = Scheduler.scheduledTasks (Server.scheduler σ) !! other) /\
  Server.whatsappService r.2 = Server.whatsappService σ /\
  Server.antiSpam r.2 = Server.antiSpam σ.
Proof.
  intros Hget Hown r. subst r. unfold Server.toggleRoute. rewrite Hget.
  rewrite bool_decide_eq_true_2 by exact Hown. simpl.
  pose proof (getAd_id _ _ _ Hget) as Hid.
  set (updated := Server.withActive ad (negb (Database.active ad))).
  assert (Hidu : Database.id updated = adId) by exact Hid.
  assert (Hdb : forall other,
            Database.getAd (Database.updateAd (Server.db σ) adId updated).2 other
            = if bool_decide (other = adId) then Some updated
              else Database.getAd (Server.db σ) other).
  { intros other. unfold Database.updateAd. rewrite Hget. unfold Database.getAd in *. simpl.
    apply (find_replaceFirst_const adId updated _ ad other Hidu Hget). }
  pose proof (SchedulerExtra.cancel_lookup (Server.scheduler σ) adId) as Hc.
  assert (Hreg : registers now updated = registers now ad) by reflexivity.
  assert (Hsch : forall k,
            Scheduler.scheduledTasks
              (if bool_decide (Database.scheduleDate ad <> None)
                  && bool_decide (Database.scheduleTime ad <> None)
                  && negb (Database.active ad)
               then (Scheduler.scheduleAd now
                       (Scheduler.cancelScheduledAd (Server.scheduler σ) adId).1 updated).1.2
               else (Scheduler.cancelScheduledAd (Server.scheduler σ) adId).1) !! k
            = if bool_decide (k = adId)
              then (if negb (Database.active ad) && registers now ad
                    then Scheduler.scheduledTasks
                           (Scheduler.scheduleAd now
                              (Scheduler.cancelScheduledAd (Server.scheduler σ) adId).1
                              updated).1.2 !! k
                    else None)
              else Scheduler.scheduledTasks (Server.scheduler σ) !! k).
  { intros k.
    destruct (bool_decide (Database.scheduleDate ad <> None)
              && bool_decide (Database.scheduleTime ad <> None)
              && negb (Database.active ad)) eqn:Hcond.
    - apply andb_true_iff in Hcond as [_ Hna]. rewrite Hna. simpl.
      rewrite SchedulerExtra.scheduleAd_lookup, Hreg, Hidu, Hc.
      destruct (decide (k = adId)) as [Hk|Hk].
      + rewrite (bool_decide_eq_true_2 _ Hk). rewrite andb_true_r.
        destruct (registers now ad); reflexivity.
      + rewrite (bool_decide_eq_false_2 _ Hk). rewrite andb_false_r. reflexivity.
    - rewrite Hc. destruct (decide (k = adId)) as [Hk|Hk];
        [rewrite (bool_decide_eq_true_2 _ Hk)
        |rewrite (bool_decide_eq_false_2 _ Hk); reflexivity].
      destruct (negb (Database.active ad)) eqn:Hna; [|reflexivity]. simpl.
      destruct (registers now ad) eqn:Hr; [|reflexivity].
      exfalso. unfold registers in Hr.
      destruct (Database.scheduleDate ad), (Database.scheduleTime ad); discriminate. }
  split; [reflexivity|]. split; [|split; [|split; [|split; reflexivity]]].
  - rewrite Hdb. rewrite bool_decide_eq_true_2 by reflexivity. reflexivity.
  - simpl. rewrite Hsch. rewrite bool_decide_eq_true_2 by reflexivity.
    destruct (Database.active ad); simpl.
    + split; [intros [x Hx]; discriminate|intros [H _]; discriminate].
    + rewrite SchedulerExtra.scheduleAd_lookup, Hreg, Hidu.
      rewrite bool_decide_eq_true_2 by reflexivity. rewrite andb_true_r.
      destruct (registers now ad) eqn:Hr.
      * unfold registers in Hr. simpl.
        destruct (Database.scheduleDate ad), (Database.scheduleTime ad); try discriminate.
        split; eauto.
      * split; [intros [x Hx]; discriminate|intros [_ H]; discriminate].
  - intros other Hne. split.
    + rewrite Hdb. rewrite bool_decide_eq_false_2 by exact Hne. reflexivity.
    + simpl. rewrite Hsch. rewrite bool_decide_eq_false_2 by exact Hne. reflexivity.
Qed.

Lemma toggle_route_flips_and_reschedules_witness :
  (Server.toggleRoute 0 "u1" "ad1" Samples.blockedTenantServer).1 = Server.Ok200 /\
  Database.getAd (Server.db (Server.toggleRoute 0 "u1" "ad1" Samples.blockedTenantServer).2)
                 "ad1"
  = Some (Server.withActive (Samples.campaign None "once") false) /\
  (is_Some (Scheduler.scheduledTasks
              (Server.scheduler (Server.toggleRoute 0 "u1" "ad1"
                                   Samples.blockedTenantServer).2) !! "ad1") <->
   true = false /\ registers 0 (Samples.campaign None "once") = true).
Proof.
  destruct (toggle_route_flips_and_reschedules 0 "u1" "ad1" Samples.blockedTenantServer
              (Samples.campaign None "once") eq_refl eq_refl) as (H1 & H2 & H3 & _).
  split; [exact H1|]. split; [exact H2|exact H3].
Defined.

(** X20.  The delete route, for the owner of a stored campaign, removes the
    campaign's timer and one stored record (the campaign's, which is the
    only one when ids are unique, so that the id is then unknown), and
    removes the image file when the campaign has one that exists.  Other
    campaigns and their timers are untouched. *)
Theorem delete_route_removes_campaign_and_timer
        (p : Platform) (reqUser adId : string) (σ : Server.State) (ad : Database.Ad) :
  Database.getAd (Server.db σ) adId = Some ad ->
  Database.userId ad = reqUser ->
  let r := Server.deleteRoute p reqUser adId σ in
  r.1.1 = Server.Ok200 /\
  Scheduler.scheduledTasks (Server.scheduler r.1.2) !! adId = None /\
  S (length (Database.ads (Server.db r.1.2))) = length (Database.ads (Server.db σ)) /\
  (NoDup (Database.id <$> Database.ads (Server.db σ)) ->
   Database.getAd (Server.db r.1.2) adId = None) /\
  (forall other, other <> adId ->
     Database.getAd (Server.db r.1.2) other = Database.getAd (Server.db σ) other /\
     Scheduler.scheduledTasks (Server.scheduler r.1.2) !! other
     = Scheduler.scheduledTasks (Server.scheduler σ) !! other) /\
  (forall f, Server.RemoveFile f ∈ r.2 <->
             Database.imagePath ad = Some f /\ pathExists p f = true).
Proof.
  intros Hget Hown r. subst r. unfold Server.deleteRoute. rewrite Hget.
  rewrite bool_decide_eq_true_2 by exact Hown. simpl.
  unfold Database.deleteAd. rewrite Hget. simpl.
  pose proof (SchedulerExtra.cancel_lookup (Server.scheduler σ) adId) as Hc.
  split; [reflexivity|]. split; [|split; [|split; [|split]]].
  - rewrite Hc. rewrite bool_decide_eq_true_2 by reflexivity. reflexivity.
  - apply (removeFirst_length adId _ ad). exact Hget.
  - intros Hnd. unfold Database.getAd. simpl. apply find_removeFirst_unique, Hnd.
  - intros other Hne. split.
    + unfold Database.getAd. simpl. apply find_removeFirst, Hne.
    + rewrite Hc. rewrite bool_decide_eq_false_2 by exact Hne. reflexivity.
  - intros f. destruct (Database.imagePath ad) as [img|].
    + destruct (pathExists p img) eqn:Hp.
      * rewrite list_elem_of_singleton. split.
        -- intros [= ->]. auto.
        -- intros [[= ->] _]. reflexivity.
      * split; [intros H; apply elem_of_nil in H; destruct H|].
        intros [[= ->] H]. congruence.
    + split; [intros H; apply elem_of_nil in H; destruct H|intros [H _]; discriminate].
Qed.

Lemma delete_route_removes_campaign_and_timer_witness :
  (Server.deleteRoute Samples.rejectsG2 "u1" "ad1" Samples.blockedTenantServer).1.1
  = Server.Ok200 /\
  Scheduler.scheduledTasks
    (Server.scheduler (Server.deleteRoute Samples.rejectsG2 "u1" "ad1"
                         Samples.blockedTenantServer).1.2) !! "ad1" = None /\
  Database.getAd
    (Server.db (Server.deleteRoute Samples.rejectsG2 "u1" "ad1"
                  Samples.blockedTenantServer).1.2) "ad1" = None.
Proof.
  destruct (delete_route_removes_campaign_and_timer Samples.rejectsG2 "u1" "ad1"
              Samples.blockedTenantServer (Samples.campaign None "once") eq_refl eq_refl)
    as (H1 & H2 & _ & H4 & _).
  split; [exact H1|]. split; [exact H2|].
  apply H4. apply (bool_decide_unpack _). vm_compute. exact I.
Defined.

(** X21.  Both routes answer 404 and change nothing, not even the timers,
    when the id is unknown or the campaign belongs to another user; the
    delete route then removes no file. *)
Theorem routes_reject_foreign_campaigns
        (now : Z) (p : Platform) (reqUser adId : string) (σ : Server.State) :
  (forall ad, Database.getAd (Server.db σ) adId = Some ad ->
              Database.userId ad <> reqUser) ->
  Server.toggleRoute now reqUser adId σ = (Server.NotFound404, σ) /\
  Server.deleteRoute p reqUser adId σ = (Server.NotFound404, σ, []).
Proof.
  intros Hforeign. unfold Server.toggleRoute, Server.deleteRoute.
  destruct (Database.getAd (Server.db σ) adId) as [ad|]; [|split; reflexivity].
  rewrite bool_decide_eq_false_2 by exact (Hforeign ad eq_refl). split; reflexivity.
Qed.

Lemma routes_reject_foreign_campaigns_witness :
  Server.toggleRoute 0 "u2" "ad1" Samples.blockedTenantServer
  = (Server.NotFound404, Samples.blockedTenantServer) /\
  Server.deleteRoute Samples.rejectsG2 "u2" "ad1" Samples.blockedTenantServer
  = (Server.NotFound404, Samples.blockedTenantServer, []).
Proof.
  apply (routes_reject_foreign_campaigns 0 Samples.rejectsG2 "u2" "ad1"
           Samples.blockedTenantServer).
  intros ad [= <-]. discriminate.
Defined.

(** X22.  A firing removes the timer of a campaign whose repeat is "once"
    and keeps every other timer as it was, whatever the dispatch did: a
    tenant without a session or an exception in the dispatch does not
    cancel a recurring schedule, and does not keep a one-shot campaign
    registered.  The sessions are not touched. *)
Theorem firing_unregisters_only_one_shot
        (now : Z) (api : Scheduler.WhatsAppApi) (p : Platform)
        (σ : Server.State) (adId : string) (task : Scheduler.TaskInfo) :
  Scheduler.scheduledTasks (Server.scheduler σ) !! adId = Some task ->
  Database.id (Scheduler.taskAd task) = adId ->
  let σ' := (Server.cronCallback now api p σ adId).1 in
  Scheduler.scheduledTasks (Server.scheduler σ') !! adId
  = (if String.eqb (Database.repeat (Scheduler.taskAd task)) "once"
     then None else Some task) /\
  (forall other, other <> adId ->
     Scheduler.scheduledTasks (Server.scheduler σ') !! other
     = Scheduler.scheduledTasks (Server.scheduler σ) !! other) /\
  Server.whatsappService σ' = Server.whatsappService σ.
Proof.
  intros Htask Hid σ'. subst σ'. unfold Server.cronCallback. rewrite Htask.
  destruct (Scheduler.executeAd now api p (Server.whatsappService σ) (Server.db σ)
              (Server.capturedAd σ task adId)) as [[c db'] tr].
  simpl. rewrite Hid.
  pose proof (SchedulerExtra.cancel_lookup (Server.scheduler σ) adId) as Hc.
  destruct (String.eqb (Database.repeat (Scheduler.taskAd task)) "once").
  - split; [|split; [|reflexivity]].
    + rewrite Hc. rewrite bool_decide_eq_true_2 by reflexivity. reflexivity.
    + intros other Hne. rewrite Hc. rewrite bool_decide_eq_false_2 by exact Hne.
      reflexivity.
  - split; [exact Htask|]. split; [reflexivity|reflexivity].
Qed.

Lemma firing_unregisters_only_one_shot_witness :
  Scheduler.scheduledTasks
    (Server.scheduler (Server.cronCallback 1000 Scheduler.whatsappJs Samples.badImage
                         Samples.blockedTenantServer "ad1").1) !! "ad1" = None /\
  Server.whatsappService (Server.cronCallback 1000 Scheduler.whatsappJs Samples.badImage
                            Samples.blockedTenantServer "ad1").1
  = Server.whatsappService Samples.blockedTenantServer.
Proof.
  destruct (firing_unregisters_only_one_shot 1000 Scheduler.whatsappJs Samples.badImage
              Samples.blockedTenantServer "ad1"
              {| Scheduler.taskAd := Samples.campaign None "once";
                 Scheduler.cronExpression :=
                   Scheduler.cronFor "once" Samples.anchor2025;
                 Scheduler.nextExecution := Calendar.valueOf Samples.anchor2025;
                 Scheduler.taskRepeat := "once" |})
    as (H1 & _ & H3).
  - reflexivity.
  - reflexivity.
  - split; [exact H1|exact H3].
Defined.

Lemma find_replaceFirst_same (k : string) (f : Database.Ad -> Database.Ad)
      (l : list Database.Ad) (a : Database.Ad) :
  (forall x, Database.id (f x) = Database.id x) ->
  List.find (fun x => bool_decide (Database.id x = k)) l = Some a ->
  List.find (fun x => bool_decide (Database.id x = k)) (Database.replaceFirst k f l)
  = Some (f a).
Proof.
  intros Hid. induction l as [|x r IH]; simpl; [discriminate|].
  destruct (bool_decide (Database.id x = k)) eqn:Hx.
  - intros [= ->]. simpl. rewrite Hid, Hx. reflexivity.
  - intros H. simpl. rewrite Hx. apply IH, H.
Qed.

Lemma updateAdStats_stored (db : Database.Db) (k : string) (a : Database.Ad)
      (ns : option Z) (nf t : Z) :
  Database.getAd db k = Some a ->
  Database.getAd (Database.updateAdStats db k ns nf t) k
  = Some (Database.withStats a (Database.mergeStats (Database.stats a) ns nf t)).
Proof.
  intros Ha. unfold Database.updateAdStats. rewrite Ha.
  unfold Database.getAd in *. simpl.
  apply (find_replaceFirst_same k
           (fun x => Database.withStats x (Database.mergeStats (Database.stats x) ns nf t))
           _ a); [reflexivity|exact Ha].
Qed.

(** One firing while the tenant is not connected. *)
Lemma firing_without_session
      (t : Z) (api : Scheduler.WhatsAppApi) (p : Platform) (σ : Server.State)
      (adId : string) (task : Scheduler.TaskInfo) (a : Database.Ad) :
  Scheduler.scheduledTasks (Server.scheduler σ) !! adId = Some task ->
  Database.id (Scheduler.taskAd task) = adId ->
  String.eqb (Database.repeat (Scheduler.taskAd task)) "once" = false ->
  Database.getAd (Server.db σ) adId = Some a ->
  Scheduler.apiIsUserConnected api (Server.whatsappService σ)
    (Database.userId (Scheduler.taskAd task)) = false ->
  let σ' := (Server.cronCallback t api p σ adId).1 in
  let written :=
    Database.mergeStats (Database.stats a) None
      (Scheduler.statFailed (Server.capturedAd σ task adId)
       + Z.of_nat (length (Database.groups (Scheduler.taskAd task)))) t in
  Server.scheduler σ' = Server.scheduler σ /\
  Server.whatsappService σ' = Server.whatsappService σ /\
  Database.getAd (Server.db σ') adId = Some (Database.withStats a written) /\
  Server.captures σ'
  = match Server.captures σ !! adId with
    | Some Server.StoredObject =>
        <[adId := Server.OwnObject (Some written)]> (Server.captures σ)
    | _ => Server.captures σ
    end.
Proof.
  intros Htask Hid Hrep Ha Hoff σ' written. subst σ'.
  unfold Server.cronCallback. rewrite Htask.
  unfold Scheduler.executeAd. simpl. rewrite Hoff. simpl. rewrite Hrep, Hid.
  rewrite Ha. rewrite (updateAdStats_stored _ _ a) by exact Ha.
  split; [reflexivity|]. split; [reflexivity|]. split; [reflexivity|].
  destruct (Server.captures σ !! adId) as [[|st]|]; reflexivity.
Qed.

(** X9.  The statistics of a recurring campaign stop accumulating after
    its second firing.  The timer registered at startup closes over the
    stored object; the first firing writes its statistics through to that
    object and leaves a copy in the store, so every later firing computes
    from what the first one left.  For a tenant who stays disconnected:
    the first firing books the listed groups as failed on top of the
    stored count, the second books them once more, and every later firing
    writes that same count again, only [lastSent] moving on. *)
Theorem later_firings_write_the_same_count
        (api : Scheduler.WhatsAppApi) (p : Platform) (σ : Server.State)
        (adId : string) (task : Scheduler.TaskInfo) (ad : Database.Ad)
        (t1 : Z) (ts : list Z) (tn : Z) :
  Scheduler.scheduledTasks (Server.scheduler σ) !! adId = Some task ->
  Scheduler.taskAd task = ad ->
  Database.getAd (Server.db σ) adId = Some ad ->
  Server.captures σ !! adId = Some Server.StoredObject ->
  String.eqb (Database.repeat ad) "once" = false ->
  Scheduler.apiIsUserConnected api (Server.whatsappService σ) (Database.userId ad) = false ->
  let n := Z.of_nat (length (Database.groups ad)) in
  storedStats (firings api p adId σ [t1]) adId
  = Some {| Database.sent := Scheduler.statSent ad;
            Database.failed := Scheduler.statFailed ad + n;
            Database.lastSent := Some t1 |} /\
  storedStats (firings api p adId σ (t1 :: ts ++ [tn])) adId
  = Some {| Database.sent := Scheduler.statSent ad;
            Database.failed := Scheduler.statFailed ad + 2 * n;
            Database.lastSent := Some tn |}.
Proof.
  intros Htask Had Hget Hcap Hrep Hoff n.
  assert (Hid : Database.id ad = adId) by (apply (getAd_id _ _ _ Hget)).
  subst ad.
  set (st1 := {| Database.sent := Scheduler.statSent (Scheduler.taskAd task);
                 Database.failed := Scheduler.statFailed (Scheduler.taskAd task) + n;
                 Database.lastSent := Some t1 |}).
  destruct (firing_without_session t1 api p σ adId task (Scheduler.taskAd task)
              Htask Hid Hrep Hget Hoff) as (Hs1 & Hw1 & Hg1 & Hc1).
  rewrite Hcap in Hc1.
  assert (Hst1 : Database.mergeStats (Database.stats (Scheduler.taskAd task)) None
                   (Scheduler.statFailed (Server.capturedAd σ task adId)
                    + Z.of_nat (length (Database.groups (Scheduler.taskAd task)))) t1
                 = st1).
  { unfold Database.mergeStats, st1, Scheduler.statSent, Scheduler.statFailed,
      Server.capturedAd. simpl. rewrite Hcap. reflexivity. }
  rewrite Hst1 in Hg1, Hc1.
  set (σ1 := (Server.cronCallback t1 api p σ adId).1) in *.
  split.
  { unfold firings, storedStats. simpl. fold σ1. rewrite Hg1. reflexivity. }
  (* every later firing starts from the statistics the first one left *)
  assert (Hlater : forall (l : list Z) (σ' : Server.State) (t : Z) (a : Database.Ad),
            Server.scheduler σ' = Server.scheduler σ ->
            Server.whatsappService σ' = Server.whatsappService σ ->
            Server.captures σ' !! adId = Some (Server.OwnObject (Some st1)) ->
            Database.getAd (Server.db σ') adId = Some a ->
            Scheduler.statSent a = Scheduler.statSent (Scheduler.taskAd task) ->
            storedStats (firings api p adId σ' (l ++ [t])) adId
            = Some {| Database.sent := Scheduler.statSent (Scheduler.taskAd task);
                      Database.failed := Scheduler.statFailed (Scheduler.taskAd task) + 2 * n;
                      Database.lastSent := Some t |}).
  { induction l as [|t0 l IH]; intros σ' t a Hs Hw Hc Hg Hsent.
    - destruct (firing_without_session t api p σ' adId task a) as (_ & _ & Hg' & _);
        [rewrite Hs; exact Htask|exact Hid|exact Hrep|exact Hg|rewrite Hw; exact Hoff|].
      unfold firings, storedStats. simpl. rewrite Hg'. simpl. f_equal.
      unfold Database.mergeStats, Scheduler.statFailed, Server.capturedAd. simpl.
      rewrite Hc. simpl. unfold Scheduler.statSent in Hsent.
      f_equal; [exact Hsent|]. unfold Scheduler.statFailed, n. lia.
    - destruct (firing_without_session t0 api p σ' adId task a) as (Hs' & Hw' & Hg' & Hc');
        [rewrite Hs; exact Htask|exact Hid|exact Hrep|exact Hg|rewrite Hw; exact Hoff|].
      rewrite Hc in Hc'.
      change (firings api p adId σ' ((t0 :: l) ++ [t]))
        with (firings api p adId (Server.cronCallback t0 api p σ' adId).1 (l ++ [t])).
      eapply IH.
      + rewrite Hs'. exact Hs.
      + rewrite Hw'. exact Hw.
      + rewrite Hc'. exact Hc.
      + exact Hg'.
      + unfold Scheduler.statSent, Database.mergeStats. simpl.
        unfold Scheduler.statSent in Hsent. exact Hsent. }
  change (firings api p adId σ (t1 :: ts ++ [tn]))
    with (firings api p adId σ1 (ts ++ [tn])).
  apply (Hlater ts σ1 tn (Database.withStats (Scheduler.taskAd task) st1)).
  - exact Hs1.
  - exact Hw1.
  - rewrite Hc1. apply lookup_insert_eq.
  - exact Hg1.
  - reflexivity.
Qed.

Lemma later_firings_write_the_same_count_witness :
  storedStats (firings Scheduler.whatsappJs Samples.rejectsG2 "ad1"
                 Samples.startedDailyServer [1000]) "ad1"
  = Some {| Database.sent := 0; Database.failed := 0 + 3; Database.lastSent := Some 1000 |} /\
  storedStats (firings Scheduler.whatsappJs Samples.rejectsG2 "ad1"
                 Samples.startedDailyServer (1000 :: [2000; 3000] ++ [4000])) "ad1"
  = Some {| Database.sent := 0; Database.failed := 0 + 2 * 3;
            Database.lastSent := Some 4000 |}.
Proof.
  apply (later_firings_write_the_same_count Scheduler.whatsappJs Samples.rejectsG2
           Samples.startedDailyServer "ad1"
           {| Scheduler.taskAd := Samples.campaign None "daily";
              Scheduler.cronExpression := Scheduler.cronFor "daily" Samples.anchor2025;
              Scheduler.nextExecution := Calendar.valueOf Samples.anchor2025;
              Scheduler.taskRepeat := "daily" |}
           (Samples.campaign None "daily") 1000 [2000; 3000] 4000).
  - reflexivity.
  - reflexivity.
  - reflexivity.
  - reflexivity.
  - reflexivity.
  - reflexivity.
Defined.

(** Three firings for a tenant who is never connected, on the campaign of
    three groups registered at startup: the stored [failed] reads 3, then
    6, then 6 again. *)
Example failed_count_after_three_firings :
  Database.failed <$> storedStats (firings Scheduler.whatsappJs Samples.rejectsG2 "ad1"
                                     Samples.startedDailyServer [1000]) "ad1" = Some 3 /\
  Database.failed <$> storedStats (firings Scheduler.whatsappJs Samples.rejectsG2 "ad1"
                                     Samples.startedDailyServer [1000; 2000]) "ad1" = Some 6 /\
  Database.failed <$> storedStats (firings Scheduler.whatsappJs Samples.rejectsG2 "ad1"
                                     Samples.startedDailyServer [1000; 2000; 3000]) "ad1"
  = Some 6.
Proof. vm_compute. repeat split; reflexivity. Qed.

End ServerExtra.
